(** * RFTX flasher: ISO-TP engine, service dispatcher and flash orchestrator

    A shallow embedding of [RFTX_FLASHER.py] (classes [ISOTPHandler] and
    [BMWFlasher]) and the properties of its diagnostic protocol stack.

    Python integers are [Z]; [bytes] objects are lists of [Z]; methods that
    mutate [self] are state transformers that also return a [result], so
    that an exception leaves the mutated object behind as in Python. *)

From Stdlib Require Import ZArith List Lia Bool Ascii String.
Import ListNotations.
Open Scope Z_scope.

(** ** Python values *)

Definition bytes := list Z.

Definition len {A : Type} (l : list A) : Z := Z.of_nat (List.length l).

(** Exceptions that the modelled code can raise.  [OutOfFuel] is not a Python
    exception: it marks the exhaustion of the recursion budget of a [while]
    loop and is shown unreachable below. *)
Inductive exn : Type :=
| IndexError
| ValueError
| OverflowError
| StructError
| AttributeError
| ConnectionError
| RuntimeError (msg : string)
| OutOfFuel.

Inductive result (A : Type) : Type :=
| Ok (a : A)
| Raise (e : exn).
Arguments Ok {A} a.
Arguments Raise {A} e.

(** A method on a mutable object of type [S] returning an [A]. *)
Definition M (S A : Type) : Type := S -> S * result A.

Definition ret {S A : Type} (a : A) : M S A := fun s => (s, Ok a).

Definition raise {S A : Type} (e : exn) : M S A := fun s => (s, Raise e).

Definition bind {S A B : Type} (m : M S A) (k : A -> M S B) : M S B :=
  fun s => match m s with
           | (s', Ok a) => k a s'
           | (s', Raise e) => (s', Raise e)
           end.

Definition lift {S A : Type} (r : result A) : M S A := fun s => (s, r).

Definition gets {S A : Type} (f : S -> A) : M S A := fun s => (s, Ok (f s)).

Definition modify {S : Type} (f : S -> S) : M S unit := fun s => (f s, Ok tt).

(** [try: m except Exception: return d] *)
Definition catch {S A : Type} (m : M S A) (d : A) : M S A :=
  fun s => match m s with
           | (s', Ok a) => (s', Ok a)
           | (s', Raise _) => (s', Ok d)
           end.

Declare Scope monad_scope.
Delimit Scope monad_scope with monad.
Notation "x <- m ;; k" := (bind m (fun x => k))
  (at level 61, m at next level, right associativity) : monad_scope.
Notation "m ;;; k" := (bind m (fun _ => k))
  (at level 61, right associativity) : monad_scope.
Open Scope monad_scope.

(** Slice index normalisation of [l[a:b]] for a sequence of length [n]. *)
Definition clamp (n i : Z) : Z :=
  if i <? 0 then Z.max (i + n) 0 else Z.min i n.

(** [l[a:b]] *)
Definition py_slice {A : Type} (l : list A) (a b : Z) : list A :=
  let a' := clamp (len l) a in
  let b' := clamp (len l) b in
  firstn (Z.to_nat (b' - a')) (skipn (Z.to_nat a') l).

(** [l[a:]] *)
Definition py_from {A : Type} (l : list A) (a : Z) : list A :=
  skipn (Z.to_nat (clamp (len l) a)) l.

(** [l[i]] for a non-negative index. *)
Definition index (l : bytes) (i : nat) : result Z :=
  match nth_error l i with
  | Some x => Ok x
  | None => Raise IndexError
  end.

(** [bytes(l)]: every element must be in [range(0, 256)]. *)
Definition is_byte (x : Z) : bool := (0 <=? x) && (x <? 256).

Definition mk_bytes (l : list Z) : result bytes :=
  if forallb is_byte l then Ok l else Raise ValueError.

(** Big-endian digits, most significant first. *)
Fixpoint be_digits (n : nat) (v : Z) : bytes :=
  match n with
  | O => []
  | S k => (v / 256 ^ Z.of_nat k) mod 256 :: be_digits k v
  end.

(** [v.to_bytes(n, byteorder='big')] *)
Definition to_bytes (n : nat) (v : Z) : result bytes :=
  if (0 <=? v) && (v <? 256 ^ Z.of_nat n) then Ok (be_digits n v)
  else Raise OverflowError.

(** [int.from_bytes(b, byteorder='big')] *)
Definition from_bytes (b : bytes) : Z :=
  fold_left (fun acc x => acc * 256 + x) b 0.

(** [struct.pack(">I", v)] *)
Definition pack_u32 (v : Z) : result bytes :=
  match to_bytes 4 v with
  | Ok b => Ok b
  | Raise _ => Raise StructError
  end.

(** [range(0, stop, step)]; a zero step is a [ValueError], a negative one
    gives the empty range. *)
Definition py_range (stop step : Z) : result (list Z) :=
  if step =? 0 then Raise ValueError
  else if (step <? 0) || (stop <=? 0) then Ok []
  else Ok (map (fun i => Z.of_nat i * step)
               (seq 0 (Z.to_nat ((stop + step - 1) / step)))).

(** [for x in xs: body(x)], where the body may return from the enclosing
    function with [Some v]. *)
Fixpoint for_each {S A R : Type} (xs : list A) (body : A -> M S (option R))
  : M S (option R) :=
  match xs with
  | [] => ret None
  | x :: rest =>
      r <- body x ;;
      match r with
      | Some v => ret (Some v)
      | None => for_each rest body
      end
  end.

(** ** Constants *)

Definition CAN_ID_REQUEST : Z := 0x6F1.
Definition CAN_ID_RESPONSE : Z := 0x6F9.

Definition KWP_START_DIAGNOSTIC_SESSION : Z := 0x10.
Definition KWP_READ_MEMORY_BY_ADDRESS : Z := 0x23.
Definition KWP_SECURITY_ACCESS : Z := 0x27.
Definition KWP_WRITE_MEMORY_BY_ADDRESS : Z := 0x3D.
Definition KWP_TESTER_PRESENT : Z := 0x3E.

Definition UDS_DIAGNOSTIC_SESSION_CONTROL : Z := 0x10.
Definition UDS_READ_MEMORY_BY_ADDRESS : Z := 0x23.
Definition UDS_SECURITY_ACCESS : Z := 0x27.
Definition UDS_ROUTINE_CONTROL : Z := 0x31.
Definition UDS_REQUEST_DOWNLOAD : Z := 0x34.
Definition UDS_TRANSFER_DATA : Z := 0x36.
Definition UDS_REQUEST_TRANSFER_EXIT : Z := 0x37.
Definition UDS_TESTER_PRESENT : Z := 0x3E.

Definition POSITIVE_RESPONSE : Z := 0x40.
Definition NEGATIVE_RESPONSE : Z := 0x7F.
Definition NRC_RESPONSE_PENDING : Z := 0x78.

Definition SESSION_DEFAULT : Z := 0x01.
Definition SESSION_PROGRAMMING : Z := 0x02.

Definition SECURITY_LEVEL_PROGRAMMING : Z := 0x01.

Definition ROUTINE_ERASE_MEMORY_SECTOR : Z := 0xFF02.

(** ** The serial carrier

    [rx] holds the bytes that arrive before the read timeouts expire, [tx]
    the bytes written so far.  [read(n)] returns at most [n] bytes: fewer
    when the timeout strikes. *)
Record Serial : Type := mkSerial {
  rx : bytes;
  tx : bytes;
  is_open : bool
}.

Definition serial_read (n : Z) (p : Serial) : Serial * bytes :=
  (mkSerial (skipn (Z.to_nat n) (rx p)) (tx p) (is_open p),
   firstn (Z.to_nat n) (rx p)).

Definition serial_write (b : bytes) (p : Serial) : Serial :=
  mkSerial (rx p) (tx p ++ b) (is_open p).

(** ** class ISOTPHandler *)

Record ISOTPHandler : Type := mkISOTP {
  port : Serial;
  tx_id : Z;
  rx_id : Z;
  st_min : Z;
  block_size : Z
}.

Definition set_port (p : Serial) (h : ISOTPHandler) : ISOTPHandler :=
  mkISOTP p (tx_id h) (rx_id h) (st_min h) (block_size h).

Definition set_flow (bs st : Z) (h : ISOTPHandler) : ISOTPHandler :=
  mkISOTP (port h) (tx_id h) (rx_id h) st bs.

(** [ISOTPHandler(port)] with the default identifiers. *)
Definition new_isotp (p : Serial) (txid rxid : Z) : ISOTPHandler :=
  mkISOTP p txid rxid 0 0.

(** [_send_can_frame]: 4-byte big-endian id, one length byte, the data. *)
Definition _send_can_frame (can_id : Z) (data : bytes) : M ISOTPHandler unit :=
  idb <- lift (pack_u32 can_id) ;;
  dlc <- lift (mk_bytes [len data]) ;;
  modify (fun h => set_port (serial_write (idb ++ dlc ++ data) (port h)) h).

(** [_receive_can_frame(expected_id)].  The saving and restoring of the read
    timeout has no counterpart here: the timeout is what bounds [rx]. *)
Definition _receive_can_frame (expected_id : option Z)
  : M ISOTPHandler (option bytes) :=
  fun h =>
    let (p1, header) := serial_read 5 (port h) in
    if negb (len header =? 5) then (set_port p1 h, Ok None)
    else
      let can_id := from_bytes (firstn 4 header) in
      let dlc := nth 4 header 0 in
      if match expected_id with
         | Some e => negb (can_id =? e)
         | None => false
         end
      then (set_port p1 h, Ok None)
      else
        let (p2, data) := serial_read dlc p1 in
        if negb (len data =? dlc) then (set_port p2 h, Ok None)
        else (set_port p2 h, Ok (Some data)).

(** The [while len(response_data) < length] loop of [_receive_isotp]. *)
Fixpoint receive_consecutive (fuel : nat) (length : Z) (response_data : bytes)
    (expected_sequence : Z) : M ISOTPHandler (option bytes) :=
  if len response_data <? length then
    match fuel with
    | O => raise OutOfFuel
    | S fuel' =>
        rid <- gets rx_id ;;
        cf <- _receive_can_frame (Some rid) ;;
        match cf with
        | None => ret None
        | Some [] => ret None
        | Some ((c0 :: _) as cf_frame) =>
            if negb (Z.land c0 0xF0 =? 0x20) then ret None
            else
              let sequence := Z.land c0 0x0F in
              if negb (sequence =? expected_sequence) then ret None
              else receive_consecutive fuel' length
                     (response_data ++ py_slice cf_frame 1 8)
                     (Z.land (expected_sequence + 1) 0x0F)
        end
    end
  else ret (Some (py_slice response_data 0 length)).

(** [_receive_isotp] *)
Definition _receive_isotp : M ISOTPHandler (option bytes) :=
  rid <- gets rx_id ;;
  fr <- _receive_can_frame (Some rid) ;;
  match fr with
  | None => ret None
  | Some [] => ret None
  | Some ((f0 :: _) as frame) =>
      let frame_type := Z.land f0 0xF0 in
      if frame_type =? 0x00 then
        let length := Z.land f0 0x0F in
        ret (Some (py_slice frame 1 (1 + length)))
      else if frame_type =? 0x10 then
        f1 <- lift (index frame 1) ;;
        let length := Z.lor (Z.shiftl (Z.land f0 0x0F) 8) f1 in
        let response_data := py_slice frame 2 8 in
        let fc_frame := [0x30; 0; 0] in
        let fc_frame := fc_frame ++ repeat 0 (Z.to_nat (8 - len fc_frame)) in
        tid <- gets tx_id ;;
        _send_can_frame tid fc_frame ;;;
        pending <- gets (fun h => List.length (rx (port h))) ;;
        receive_consecutive (S pending) length response_data 1
      else ret None
  end.

(** [if len(frame) < 8: frame += b'\x00' * (8 - len(frame))] *)
Definition pad8 (frame : bytes) : bytes :=
  if len frame <? 8 then frame ++ repeat 0 (Z.to_nat (8 - len frame))
  else frame.

(** [_send_single_frame] *)
Definition _send_single_frame (data : bytes) : M ISOTPHandler (option bytes) :=
  hd <- lift (mk_bytes [Z.lor 0x00 (len data)]) ;;
  let frame := pad8 (hd ++ data) in
  tid <- gets tx_id ;;
  _send_can_frame tid frame ;;;
  _receive_isotp.

(** [not fc_frame or len(fc_frame) < 3 or fc_frame[0] != 0x30] *)
Definition bad_flow_control (fc : option bytes) : bool :=
  match fc with
  | None => true
  | Some [] => true
  | Some ((b0 :: _) as f) => (len f <? 3) || negb (b0 =? 0x30)
  end.

(** The [while data_index < data_length] loop of [_send_multi_frame].  The
    result is [Some None] when the function returns [None] from inside the
    loop and [None] when the loop runs to its end.  The [time.sleep] calls
    for the separation time leave no trace in the state. *)
Fixpoint send_consecutive (fuel : nat) (data : bytes) (data_length : Z)
    (sequence_number data_index : Z)
  : M ISOTPHandler (option (option bytes)) :=
  if data_index <? data_length then
    match fuel with
    | O => raise OutOfFuel
    | S fuel' =>
        let remaining := py_slice data data_index (data_index + 7) in
        hd <- lift (mk_bytes [Z.lor 0x20 (Z.land sequence_number 0x0F)]) ;;
        let consecutive_frame := pad8 (hd ++ remaining) in
        tid <- gets tx_id ;;
        _send_can_frame tid consecutive_frame ;;;
        let sequence_number := Z.land (sequence_number + 1) 0x0F in
        let data_index := data_index + 7 in
        bs <- gets block_size ;;
        if negb (bs =? 0) && (sequence_number mod bs =? 0)
           && (data_index <? data_length)
        then
          rid <- gets rx_id ;;
          fc <- _receive_can_frame (Some rid) ;;
          if bad_flow_control fc then ret (Some None)
          else
            let f := match fc with Some f => f | None => [] end in
            modify (set_flow (nth 1 f 0) (nth 2 f 0)) ;;;
            send_consecutive fuel' data data_length sequence_number data_index
        else
          send_consecutive fuel' data data_length sequence_number data_index
    end
  else ret None.

(** [_send_multi_frame] *)
Definition _send_multi_frame (data : bytes) : M ISOTPHandler (option bytes) :=
  let data_length := len data in
  hd <- lift (mk_bytes [Z.lor 0x10 (Z.land (Z.shiftr data_length 8) 0x0F);
                        Z.land data_length 0xFF]) ;;
  let first_frame := hd ++ py_slice data 0 6 in
  tid <- gets tx_id ;;
  _send_can_frame tid first_frame ;;;
  rid <- gets rx_id ;;
  fc <- _receive_can_frame (Some rid) ;;
  if bad_flow_control fc then ret None
  else
    let f := match fc with Some f => f | None => [] end in
    modify (set_flow (nth 1 f 0) (nth 2 f 0)) ;;;
    r <- send_consecutive (Z.to_nat data_length) data data_length 1 6 ;;
    match r with
    | Some v => ret v
    | None => _receive_isotp
    end.

(** [send] *)
Definition send (data : bytes) : M ISOTPHandler (option bytes) :=
  if len data <=? 7 then _send_single_frame data
  else _send_multi_frame data.

(** ** The link below the dispatcher

    [BMWFlasher] uses its [ISOTPHandler] through two methods only, [send]
    and [_receive_isotp], and asks its port whether it is open.  The
    dispatcher and the orchestrator are written against that interface;
    [ISOTPHandler] is one instance, a scripted ECU (a queue of replies, [None]
    for a timeout) is the other. *)
Class Link (L : Type) : Type := {
  link_send : bytes -> M L (option bytes);
  link_receive : M L (option bytes);
  link_is_open : L -> bool
}.

#[export] Instance ISOTP_Link : Link ISOTPHandler := {|
  link_send := send;
  link_receive := _receive_isotp;
  link_is_open := fun h => is_open (port h)
|}.

Definition Script : Type := list (option bytes).

Definition script_next : M Script (option bytes) :=
  fun s => match s with
           | [] => ([], Ok None)
           | r :: s' => (s', Ok r)
           end.

#[export] Instance Script_Link : Link Script := {|
  link_send := fun _ => script_next;
  link_receive := script_next;
  link_is_open := fun _ => true
|}.

(** ** Memory maps *)

Record Sector : Type := mkSector {
  name : string;
  start : Z;
  size : Z;
  protected : bool
}.

Record MemoryMap : Type := mkMemoryMap {
  flash_start : Z;
  flash_size : Z;
  mm_block_size : Z;
  sectors : list Sector;
  mm_protocol : string;
  security_algorithm : string;
  seed_key_length : Z;
  transfer_size : Z;
  erase_required : bool
}.

Definition MSD80_MAP : MemoryMap :=
  mkMemoryMap 0x800000 0x100000 0x1000
    [ mkSector "Bootloader" 0x800000 0x10000 true;
      mkSector "Calibration" 0x810000 0x40000 false;
      mkSector "Program" 0x850000 0xB0000 true ]
    "KWP2000" "xor" 2 0x200 true.

Definition MEVD172_MAP : MemoryMap :=
  mkMemoryMap 0x800000 0x200000 0x1000
    [ mkSector "Bootloader" 0x800000 0x10000 true;
      mkSector "Calibration" 0x810000 0x80000 false;
      mkSector "Program" 0x890000 0x170000 true ]
    "UDS" "crc" 4 0x800 true.

Definition MG1_MAP : MemoryMap :=
  mkMemoryMap 0x800000 0x100000 0x1000
    [ mkSector "Bootloader" 0x800000 0x10000 true;
      mkSector "Calibration" 0x810000 0x30000 false;
      mkSector "Program" 0x840000 0xC0000 true ]
    "UDS" "crc" 4 0x400 true.

(** [ECU_MEMORY_MAPS]; the entries of MSD80 and MSD81 are equal, and so are
    those of MG1 and MD1. *)
Definition ECU_MEMORY_MAPS : list (string * MemoryMap) :=
  [ ("MSD80"%string, MSD80_MAP);
    ("MSD81"%string, MSD80_MAP);
    ("MEVD17.2"%string, MEVD172_MAP);
    ("MG1"%string, MG1_MAP);
    ("MD1"%string, MG1_MAP) ].

Definition DEFAULT_MEMORY_MAP : MemoryMap := MSD80_MAP.

Fixpoint dict_get (d : list (string * MemoryMap)) (k : string)
  : option MemoryMap :=
  match d with
  | [] => None
  | (k', v) :: d' => if String.eqb k k' then Some v else dict_get d' k
  end.

(** [_get_memory_map]; [ecu_type] is [None] until the identity is read. *)
Definition _get_memory_map (ecu_type : option string) : MemoryMap :=
  match ecu_type with
  | None => DEFAULT_MEMORY_MAP
  | Some t => match dict_get ECU_MEMORY_MAPS t with
              | Some m => m
              | None => DEFAULT_MEMORY_MAP
              end
  end.

(** The image of a sector: its slice of the file, padded with 0xFF
    (lines 1100-1114 of [flash_ecu], repeated at 1276-1290 of
    [_verify_flash]). *)
Definition sector_image (mm : MemoryMap) (flash_data : bytes) (sector : Sector)
  : bytes :=
  let data_start := start sector - flash_start mm in
  let data_end := data_start + size sector in
  let sector_data :=
    py_slice flash_data data_start (Z.min data_end (len flash_data)) in
  if len sector_data <? size sector
  then sector_data ++ repeat 0xFF (Z.to_nat (size sector - len sector_data))
  else sector_data.

(** ** Security keys *)

Definition crc_round (key : Z) : Z :=
  if negb (Z.land key 0x80000000 =? 0)
  then Z.land (Z.lxor (Z.shiftl key 1) 0x4C11DB7) 0xFFFFFFFF
  else Z.land (Z.shiftl key 1) 0xFFFFFFFF.

(** [_calculate_key] *)
Definition _calculate_key (seed : Z) (algorithm : string) : Z :=
  if String.eqb algorithm "xor" then
    Z.land (Z.lxor seed 0x5A3C + 0x7F1B) 0xFFFFFFFF
  else if String.eqb algorithm "crc" then
    Nat.iter 32 crc_round seed
  else
    Z.land (Z.lxor seed 0xA35C + 0xF12B) 0xFFFFFFFF.

(** ** class BMWFlasher *)

Inductive Protocol : Type := UDS | KWP2000.

(** [self.protocol == "KWP2000"] and [self.protocol == "UDS"]; the attribute
    is [None] before a connection is made. *)
Definition is_kwp (p : option Protocol) : bool :=
  match p with Some KWP2000 => true | _ => false end.

Definition is_uds (p : option Protocol) : bool :=
  match p with Some UDS => true | _ => false end.

(** [not response or response[0] != service_id + POSITIVE_RESPONSE] *)
Definition not_positive (response : option bytes) (service_id : Z) : bool :=
  match response with
  | None => true
  | Some [] => true
  | Some (r0 :: _) => negb (r0 =? service_id + POSITIVE_RESPONSE)
  end.

(** [not response] *)
Definition falsy (response : option bytes) : bool :=
  match response with
  | None => true
  | Some [] => true
  | Some _ => false
  end.

Definition body (response : option bytes) : bytes :=
  match response with
  | Some r => r
  | None => []
  end.

(** The block size of a download (lines 1225-1231 of [_write_memory]): the
    maximum the ECU states in its positive response to Request-Download, if
    it states one, and never more than the data. *)
Definition download_block_size (response : option bytes) (data_len : Z) : Z :=
  let max_block_size :=
    if len (body response) >=? 3 then from_bytes (py_from (body response) 2)
    else 0 in
  Z.min data_len (if max_block_size >? 0 then max_block_size else data_len).

Section Flasher.

Context {L : Type} `{Link L}.

(** [isotp] stands for both [self.port] and [self.isotp], which are set and
    cleared together.  [sent] is a ghost field: the requests handed to
    [isotp.send], oldest first. *)
Record BMWFlasher : Type := mkFlasher {
  isotp : option L;
  connected : bool;
  protocol : option Protocol;
  security_level : Z;
  session_type : Z;
  ecu_type : option string;
  ecu_memory_map : option MemoryMap;
  sent : list bytes
}.

Definition set_isotp (l : option L) (s : BMWFlasher) : BMWFlasher :=
  mkFlasher l (connected s) (protocol s) (security_level s) (session_type s)
    (ecu_type s) (ecu_memory_map s) (sent s).

Definition set_security_level (v : Z) (s : BMWFlasher) : BMWFlasher :=
  mkFlasher (isotp s) (connected s) (protocol s) v (session_type s)
    (ecu_type s) (ecu_memory_map s) (sent s).

Definition set_session_type (v : Z) (s : BMWFlasher) : BMWFlasher :=
  mkFlasher (isotp s) (connected s) (protocol s) (security_level s) v
    (ecu_type s) (ecu_memory_map s) (sent s).

Definition set_ecu_memory_map (m : MemoryMap) (s : BMWFlasher) : BMWFlasher :=
  mkFlasher (isotp s) (connected s) (protocol s) (security_level s)
    (session_type s) (ecu_type s) (Some m) (sent s).

Definition log_request (message : bytes) (s : BMWFlasher) : BMWFlasher :=
  mkFlasher (isotp s) (connected s) (protocol s) (security_level s)
    (session_type s) (ecu_type s) (ecu_memory_map s) (sent s ++ [message]).

(** Run a method of [self.isotp]. *)
Definition on_isotp {A : Type} (l : L) (m : M L A) : M BMWFlasher A :=
  fun s => let (l', r) := m l in (set_isotp (Some l') s, r).

(** [connect] opens the serial device and probes the dialect; what it does
    depends on the host and stays abstract. *)
Variable connect : M BMWFlasher bool.

(** [not self.connected and not self.connect()] *)
Definition cannot_connect : M BMWFlasher bool :=
  c <- gets connected ;;
  if c then ret false
  else ok <- connect ;; ret (negb ok).

(** The response-pending loop of [_send_uds_command]; [retries] is
    [10 - pending_count]. *)
Fixpoint await_final (retries : nat) (response : option bytes)
  : M L (option bytes) :=
  match retries with
  | O => ret response
  | S retries' =>
      response <- link_receive ;;
      match response with
      | None => ret response
      | Some [] => ret response
      | Some ((r0 :: _) as r) =>
          if negb (r0 =? NEGATIVE_RESPONSE) then ret response
          else
            r2 <- lift (index r 2) ;;
            if negb (r2 =? NRC_RESPONSE_PENDING) then ret response
            else await_final retries' response
      end
  end.

(** [_send_uds_command] *)
Definition _send_uds_command (service_id : Z) (data : list Z)
  : M BMWFlasher (option bytes) :=
  io <- gets isotp ;;
  match io with
  | None => ret None
  | Some l =>
      message <- lift (mk_bytes (service_id :: data)) ;;
      modify (log_request message) ;;;
      catch
        (on_isotp l
           (response <- link_send message ;;
            match response with
            | Some (r0 :: r1 :: r2 :: _) =>
                if (r0 =? NEGATIVE_RESPONSE) && (r1 =? service_id) then
                  if r2 =? NRC_RESPONSE_PENDING
                  then await_final 10 response
                  else ret response
                else ret response
            | _ => ret response
            end))
        None
  end.

(** [_send_kwp_command] *)
Definition _send_kwp_command (service_id : Z) (data : list Z)
  : M BMWFlasher (option bytes) :=
  io <- gets isotp ;;
  match io with
  | None => ret None
  | Some l =>
      message <- lift (mk_bytes (service_id :: data)) ;;
      modify (log_request message) ;;;
      catch (on_isotp l (link_send message)) None
  end.

(** [enter_programming_session] *)
Definition enter_programming_session : M BMWFlasher bool :=
  no <- cannot_connect ;;
  if no then ret false
  else
    p <- gets protocol ;;
    if is_kwp p then
      response <- _send_kwp_command KWP_START_DIAGNOSTIC_SESSION [0x85] ;;
      if not_positive response KWP_START_DIAGNOSTIC_SESSION then ret false
      else modify (set_session_type SESSION_PROGRAMMING) ;;; ret true
    else
      response <- _send_uds_command UDS_DIAGNOSTIC_SESSION_CONTROL
                    [SESSION_PROGRAMMING] ;;
      if not_positive response UDS_DIAGNOSTIC_SESSION_CONTROL then ret false
      else modify (set_session_type SESSION_PROGRAMMING) ;;; ret true.

(** [self.session_type != SESSION_PROGRAMMING and
     not self.enter_programming_session()] *)
Definition cannot_program : M BMWFlasher bool :=
  st <- gets session_type ;;
  if st =? SESSION_PROGRAMMING then ret false
  else ok <- enter_programming_session ;; ret (negb ok).

(** The seed and key exchange of [security_access], the same in both
    branches up to the dispatcher used. *)
Definition seed_key_exchange
    (command : Z -> list Z -> M BMWFlasher (option bytes)) (service : Z)
    (security_algorithm : string) (seed_key_length : Z) : M BMWFlasher bool :=
  response <- command service [0x01] ;;
  if not_positive response service then ret false
  else
    let seed_bytes := py_slice (body response) 2 (2 + seed_key_length) in
    let seed := from_bytes seed_bytes in
    let key := _calculate_key seed security_algorithm in
    key_bytes <- lift (to_bytes (Z.to_nat seed_key_length) key) ;;
    response <- command service (0x02 :: key_bytes) ;;
    if not_positive response service then ret false
    else modify (set_security_level SECURITY_LEVEL_PROGRAMMING) ;;; ret true.

(** [security_access] *)
Definition security_access : M BMWFlasher bool :=
  lvl <- gets security_level ;;
  if lvl >=? SECURITY_LEVEL_PROGRAMMING then ret true
  else
    no <- cannot_connect ;;
    if no then ret false
    else
      no <- cannot_program ;;
      if no then ret false
      else
        mmo <- gets ecu_memory_map ;;
        match mmo with
        | None => raise AttributeError
        | Some mm =>
            p <- gets protocol ;;
            if is_kwp p then
              seed_key_exchange _send_kwp_command KWP_SECURITY_ACCESS
                (security_algorithm mm) (seed_key_length mm)
            else
              seed_key_exchange _send_uds_command UDS_SECURITY_ACCESS
                (security_algorithm mm) (seed_key_length mm)
        end.

(** [if self.protocol == "UDS": tester present (UDS) else: tester present
    (KWP)], the keep-alive of the transfer loops. *)
Definition tester_present : M BMWFlasher unit :=
  p <- gets protocol ;;
  if is_uds p then _send_uds_command UDS_TESTER_PRESENT [0x00] ;;; ret tt
  else _send_kwp_command KWP_TESTER_PRESENT [0x00] ;;; ret tt.

(** [if offset % 0x10000 == 0 and offset > 0: ...] *)
Definition keep_alive (offset : Z) : M BMWFlasher unit :=
  if (offset mod 0x10000 =? 0) && (offset >? 0) then tester_present
  else ret tt.

(** [_read_memory] *)
Definition _read_memory (address size : Z) : M BMWFlasher (option bytes) :=
  p <- gets protocol ;;
  if is_kwp p then
    addr_bytes <- lift (to_bytes 4 address) ;;
    response <- _send_kwp_command KWP_READ_MEMORY_BY_ADDRESS
                  (addr_bytes ++ [size]) ;;
    if not_positive response KWP_READ_MEMORY_BY_ADDRESS then ret None
    else ret (Some (py_from (body response) 6))
  else
    let addr_format := 0x24 in
    addr_bytes <- lift (to_bytes 4 address) ;;
    let size_format := 0x11 in
    size_bytes <- lift (to_bytes 1 size) ;;
    response <- _send_uds_command UDS_READ_MEMORY_BY_ADDRESS
                  ([addr_format] ++ addr_bytes ++ [size_format] ++ size_bytes) ;;
    if not_positive response UDS_READ_MEMORY_BY_ADDRESS then ret None
    else ret (Some (py_from (body response) 1)).

(** [_erase_memory_sector] *)
Definition _erase_memory_sector (address size : Z) : M BMWFlasher bool :=
  p <- gets protocol ;;
  if is_kwp p then
    let routine_id := 0x00 in
    addr_bytes <- lift (to_bytes 4 address) ;;
    size_bytes <- lift (to_bytes 4 size) ;;
    response <- _send_kwp_command 0x31
                  ([routine_id] ++ addr_bytes ++ size_bytes) ;;
    if not_positive response 0x31 then ret false else ret true
  else
    let routine_control_type := 0x01 in
    routine_id_bytes <- lift (to_bytes 2 ROUTINE_ERASE_MEMORY_SECTOR) ;;
    addr_bytes <- lift (to_bytes 4 address) ;;
    size_bytes <- lift (to_bytes 4 size) ;;
    response <- _send_uds_command UDS_ROUTINE_CONTROL
                  ([routine_control_type] ++ routine_id_bytes
                   ++ addr_bytes ++ size_bytes) ;;
    if not_positive response UDS_ROUTINE_CONTROL then ret false else ret true.

(** The [for i in range(0, len(data), block_size)] loop of the UDS branch of
    [_write_memory]; [false] when the function returns [False] from inside
    the loop. *)
Fixpoint transfer_blocks (offsets : list Z) (data : bytes) (block_size : Z)
    (block_sequence_counter : Z) : M BMWFlasher bool :=
  match offsets with
  | [] => ret true
  | i :: offsets' =>
      let block := py_slice data i (i + block_size) in
      response <- _send_uds_command UDS_TRANSFER_DATA
                    ([block_sequence_counter] ++ block) ;;
      if not_positive response UDS_TRANSFER_DATA then ret false
      else transfer_blocks offsets' data block_size
             (Z.land (block_sequence_counter + 1) 0xFF)
  end.

(** [_write_memory] *)
Definition _write_memory (address : Z) (data : bytes) : M BMWFlasher bool :=
  p <- gets protocol ;;
  if is_kwp p then
    addr_bytes <- lift (to_bytes 4 address) ;;
    response <- _send_kwp_command KWP_WRITE_MEMORY_BY_ADDRESS
                  (addr_bytes ++ data) ;;
    if not_positive response KWP_WRITE_MEMORY_BY_ADDRESS then ret false
    else ret true
  else
    let data_format := 0x00 in
    let addr_format := 0x24 in
    addr_bytes <- lift (to_bytes 4 address) ;;
    let size_format := 0x24 in
    size_bytes <- lift (to_bytes 4 (len data)) ;;
    response <- _send_uds_command UDS_REQUEST_DOWNLOAD
                  ([data_format; addr_format] ++ addr_bytes
                   ++ [size_format] ++ size_bytes) ;;
    if not_positive response UDS_REQUEST_DOWNLOAD then ret false
    else
      let block_size := download_block_size response (len data) in
      offsets <- lift (py_range (len data) block_size) ;;
      ok <- transfer_blocks offsets data block_size 1 ;;
      if negb ok then ret false
      else
        response <- _send_uds_command UDS_REQUEST_TRANSFER_EXIT [] ;;
        if not_positive response UDS_REQUEST_TRANSFER_EXIT then ret false
        else ret true.

(** [for x in xs: body(x)] for a body that only falls through or raises. *)
Fixpoint for_all {A : Type} (xs : list A) (f : A -> M BMWFlasher unit)
  : M BMWFlasher unit :=
  match xs with
  | [] => ret tt
  | x :: rest => f x ;;; for_all rest f
  end.

(** One turn of the block loop of [flash_ecu] (lines 1125-1143), without the
    progress callback. *)
Definition flash_block (sector_start : Z) (sector_data : bytes)
    (block_size offset : Z) : M BMWFlasher unit :=
  let address := sector_start + offset in
  let block := py_slice sector_data offset (offset + block_size) in
  ok <- _write_memory address block ;;
  if negb ok then raise (RuntimeError "Failed to write memory")
  else keep_alive offset.

(** One turn of the sector loop of [flash_ecu] (lines 1089-1143). *)
Definition flash_sector (mm : MemoryMap) (flash_data : bytes) (sector : Sector)
  : M BMWFlasher unit :=
  let sector_start := start sector in
  let sector_size := size sector in
  if protected sector then ret tt
  else
    let data_start := sector_start - flash_start mm in
    if data_start >=? len flash_data then ret tt
    else
      let sector_data := sector_image mm flash_data sector in
      erased <- (if erase_required mm
                 then _erase_memory_sector sector_start sector_size
                 else ret true) ;;
      if negb erased then raise (RuntimeError "Failed to erase sector")
      else
        let block_size := transfer_size mm in
        offsets <- lift (py_range (len sector_data) block_size) ;;
        for_all offsets (flash_block sector_start sector_data block_size).

(** One turn of the block loop of [_verify_flash] (lines 1296-1321);
    [Some false] when the function returns [False]. *)
Definition verify_block (sector_start : Z) (sector_data : bytes)
    (block_size offset : Z) : M BMWFlasher (option bool) :=
  let address := sector_start + offset in
  let expected_block := py_slice sector_data offset (offset + block_size) in
  actual_block <- _read_memory address (len expected_block) ;;
  if falsy actual_block then ret (Some false)
  else if list_eq_dec Z.eq_dec (body actual_block) expected_block
  then keep_alive offset ;;; ret None
  else ret (Some false).

(** One turn of the sector loop of [_verify_flash]. *)
Definition verify_sector (mm : MemoryMap) (flash_data : bytes)
    (sector : Sector) : M BMWFlasher (option bool) :=
  let sector_start := start sector in
  if protected sector then ret None
  else
    let data_start := sector_start - flash_start mm in
    if data_start >=? len flash_data then ret None
    else
      let sector_data := sector_image mm flash_data sector in
      let block_size := Z.min (transfer_size mm) 0x1000 in
      offsets <- lift (py_range (len sector_data) block_size) ;;
      for_each offsets (verify_block sector_start sector_data block_size).

(** [_verify_flash] *)
Definition _verify_flash (flash_data : bytes) : M BMWFlasher bool :=
  mmo <- gets ecu_memory_map ;;
  match mmo with
  | None => raise AttributeError
  | Some mm =>
      r <- for_each (sectors mm) (verify_sector mm flash_data) ;;
      match r with
      | Some b => ret b
      | None => ret true
      end
  end.

(** [flash_ecu], from the selection of the memory map on.  [flash_data] is
    the content of the file.  The identity reads of lines 1058-1060 are not
    part of the model: the flasher is taken with its identity known. *)
Definition flash_ecu (flash_data : bytes) : M BMWFlasher bool :=
  no <- cannot_connect ;;
  if no then raise ConnectionError
  else
    mmo <- gets ecu_memory_map ;;
    match mmo with
     | None => et <- gets ecu_type ;;
               modify (set_ecu_memory_map (_get_memory_map et))
     | Some _ => ret tt
     end ;;;
    no <- cannot_program ;;
    if no then raise (RuntimeError "Could not enter programming session")
    else
      lvl <- gets security_level ;;
      ok <- (if lvl <? SECURITY_LEVEL_PROGRAMMING then security_access
             else ret true) ;;
      if negb ok then raise (RuntimeError "Could not get security access")
      else
        mmo <- gets ecu_memory_map ;;
        match mmo with
        | None => raise AttributeError
        | Some mm =>
            if len flash_data >? flash_size mm then raise ValueError
            else
              for_all (sectors mm) (flash_sector mm flash_data) ;;;
              ok <- _verify_flash flash_data ;;
              if negb ok then raise (RuntimeError "Flash verification failed")
              else ret true
        end.

(** [disconnect]; the cancelling of the watchdog timer is not modelled. *)
Definition disconnect : M BMWFlasher unit :=
  io <- gets isotp ;;
  match io with
   | Some l =>
       if link_is_open l then
         st <- gets session_type ;;
         if negb (st =? SESSION_DEFAULT) then
           p <- gets protocol ;;
           catch
             (if is_uds p
              then _send_uds_command UDS_DIAGNOSTIC_SESSION_CONTROL
                     [SESSION_DEFAULT] ;;; ret tt
              else _send_kwp_command KWP_START_DIAGNOSTIC_SESSION [0x81] ;;;
                   ret tt)
             tt
         else ret tt
       else ret tt
   | None => ret tt
   end ;;;
  modify (fun s =>
            mkFlasher None false (protocol s) 0 SESSION_DEFAULT
              (ecu_type s) (ecu_memory_map s) (sent s)).

End Flasher.

Arguments BMWFlasher L : clear implicits.

(** ** Wire images and test fixtures *)

(** What [_send_can_frame] writes for a frame. *)
Definition encode_can (can_id : Z) (frame : bytes) : bytes :=
  be_digits 4 can_id ++ [len frame] ++ frame.

(** The handler after a frame header was read and rejected: the five header
    bytes are consumed, the payload of that frame is still in the stream. *)
Definition after_header (h : ISOTPHandler) (rest : bytes) : ISOTPHandler :=
  set_port (mkSerial rest (tx (port h)) (is_open (port h))) h.

(** The memory map a flash run works with: the one already selected, or
    the one [_get_memory_map] selects for the ECU type. *)
Definition active_memory_map {L : Type} (s : BMWFlasher L) : MemoryMap :=
  match ecu_memory_map s with
  | Some mm => mm
  | None => _get_memory_map (ecu_type s)
  end.

(** A host on which [connect] finds no adapter. *)
Definition no_adapter {L : Type} : M (BMWFlasher L) bool :=
  fun s => (s, Ok false).

(** A flasher right after a successful [connect] and [read_ecu_info]. *)
Definition connected_flasher {L : Type} (l : L) (p : Protocol)
    (mm : MemoryMap) : BMWFlasher L :=
  mkFlasher (Some l) true (Some p) 0 SESSION_DEFAULT None (Some mm) [].

(** A flasher in the programming session with security access granted. *)
Definition unlocked_flasher {L : Type} (l : L) (p : Protocol)
    (mm : MemoryMap) : BMWFlasher L :=
  mkFlasher (Some l) true (Some p) SECURITY_LEVEL_PROGRAMMING
    SESSION_PROGRAMMING None (Some mm) [].

(** The shortest positive reply to a service. *)
Definition positive (service_id : Z) : option bytes :=
  Some [service_id + POSITIVE_RESPONSE].

(** [0x7F, service, 0x78]: response pending. *)
Definition pending (service_id : Z) : option bytes :=
  Some [NEGATIVE_RESPONSE; service_id; NRC_RESPONSE_PENDING].

(** Appending [w] to what the handler has written. *)
Definition emit (w : bytes) (h : ISOTPHandler) : ISOTPHandler :=
  set_port (serial_write w (port h)) h.

(** The handler with its pending input replaced. *)
Definition with_rx (r : bytes) (h : ISOTPHandler) : ISOTPHandler :=
  set_port (mkSerial r (tx (port h)) (is_open (port h))) h.

(** The seven data bytes of a consecutive frame. *)
Definition pad7 (chunk : bytes) : bytes :=
  if len chunk <? 7 then chunk ++ repeat 0 (Z.to_nat (7 - len chunk))
  else chunk.

(** The wire image of the consecutive frames that carry [rest], numbered
    from [seqn]. *)
Fixpoint cf_wire (fuel : nat) (seqn : Z) (rest : bytes) : bytes :=
  match fuel with
  | O => []
  | S fuel' =>
      match rest with
      | [] => []
      | _ :: _ =>
          encode_can CAN_ID_REQUEST
            (Z.lor 0x20 (Z.land seqn 0x0F) :: pad7 (firstn 7 rest))
          ++ cf_wire fuel' (Z.land (seqn + 1) 0x0F) (skipn 7 rest)
      end
  end.

(** The two bytes that open a First Frame for a payload of [n] bytes. *)
Definition ff_head (n : Z) : bytes :=
  [Z.lor 0x10 (Z.land (Z.shiftr n 8) 0x0F); Z.land n 0xFF].

Definition ff_head_ok (n : Z) : bool :=
  match ff_head n with
  | [f0; f1] =>
      forallb is_byte [f0; f1]
      && (Z.land f0 0xF0 =? 0x10)
      && (Z.lor (Z.shiftl (Z.land f0 0x0F) 8) f1 =? n)
  | _ => false
  end.

(** The loopback pair: a handler with the default identifiers and its peer
    with the identifiers swapped.  What the peer writes (a flow control, for
    a payload of more than seven bytes) is what the sender reads, and what
    the sender writes is what the peer reads. *)
Definition flow_control_frame : bytes := [0x30; 0; 0; 0; 0; 0; 0; 0].

Definition loopback_flow_control (p : bytes) : bytes :=
  if len p <=? 7 then [] else encode_can CAN_ID_RESPONSE flow_control_frame.

Definition loopback_sender (p : bytes) : ISOTPHandler :=
  new_isotp (mkSerial (loopback_flow_control p) [] true)
    CAN_ID_REQUEST CAN_ID_RESPONSE.

Definition loopback_receiver (wire : bytes) : ISOTPHandler :=
  new_isotp (mkSerial wire [] true) CAN_ID_RESPONSE CAN_ID_REQUEST.

(** The reply reassembled by the peer and the bytes the peer wrote. *)
Definition isotp_loopback (p : bytes) : result (option bytes) * bytes :=
  let (a, _) := send p (loopback_sender p) in
  let (b, r) := _receive_isotp (loopback_receiver (tx (port a))) in
  (r, tx (port b)).

(** ** Memory-map invariant and request decoding *)

(** The invariant of the memory maps: every sector lies in the flash range
    and is not empty, and the sectors are sorted by start and do not
    overlap. *)
Definition sector_ok (mm : MemoryMap) (s : Sector) : bool :=
  (flash_start mm <=? start s) && (0 <? size s)
  && (start s + size s <=? flash_start mm + flash_size mm).

Fixpoint ascending (ss : list Sector) : bool :=
  match ss with
  | [] => true
  | a :: tl =>
      match tl with
      | [] => true
      | b :: _ => (start a + size a <=? start b) && ascending tl
      end
  end.

Definition well_formed (mm : MemoryMap) : bool :=
  forallb (sector_ok mm) (sectors mm) && ascending (sectors mm).

(** The address lies inside the sector. *)
Definition inside (s : Sector) (x : Z) : Prop :=
  start s <= x < start s + size s.

(** The memory range named by a write or erase request, read back from its
    wire image: Write-Memory-By-Address [0x3D] and the erase routine [0x31]
    in the KWP2000 encoding, Request-Download [0x34] and Routine Control
    [0x31] in the UDS encoding.  Transfer-Data [0x36] carries no address: it
    fills the range of the Request-Download before it. *)
Definition request_range (kwp : bool) (msg : bytes) : option (Z * Z) :=
  match msg with
  | [] => None
  | sid :: rest =>
      if kwp then
        if sid =? 0x3D then
          Some (from_bytes (firstn 4 rest), len (skipn 4 rest))
        else if sid =? 0x31 then
          Some (from_bytes (firstn 4 (skipn 1 rest)),
                from_bytes (firstn 4 (skipn 5 rest)))
        else None
      else
        if sid =? 0x34 then
          Some (from_bytes (firstn 4 (skipn 2 rest)),
                from_bytes (firstn 4 (skipn 7 rest)))
        else if sid =? 0x31 then
          Some (from_bytes (firstn 4 (skipn 3 rest)),
                from_bytes (firstn 4 (skipn 7 rest)))
        else None
  end.

(** The range of the request, if it names one, lies in a sector of the map
    that is not protected. *)
Definition in_writable_sector (kwp : bool) (mm : MemoryMap) (msg : bytes)
  : Prop :=
  forall a n : Z,
    request_range kwp msg = Some (a, n) ->
    exists sec : Sector,
      In sec (sectors mm) /\ protected sec = false
      /\ start sec <= a /\ a < start sec + size sec
      /\ a + n <= start sec + size sec.

(** ** Runs of the orchestrator *)

(** [s'] is reached from [s] by dispatching requests that all satisfy [P],
    with the connection flag, the dialect and the memory map unchanged. *)
Definition extends {L : Type} (P : bytes -> Prop) (s s' : BMWFlasher L)
  : Prop :=
  connected s' = connected s
  /\ protocol s' = protocol s
  /\ ecu_memory_map s' = ecu_memory_map s
  /\ exists new : list bytes, sent s' = sent s ++ new /\ Forall P new.

(** Every run of [m] from a connected flasher that speaks dialect [p0] and
    holds the memory map [mm0] dispatches only requests that satisfy [P]. *)
Definition safe_step {L A : Type} (p0 : option Protocol)
    (mm0 : option MemoryMap) (P : bytes -> Prop) (m : M (BMWFlasher L) A)
  : Prop :=
  forall (s s' : BMWFlasher L) (r : result A),
    connected s = true -> protocol s = p0 -> ecu_memory_map s = mm0 ->
    m s = (s', r) ->
    extends P s s'.

(** ** Traces of successful transfers *)

(** An ECU that answers every request with the bare positive response and
    never sends anything else. *)
#[export] Instance Accepting_Link : Link unit := {|
  link_send := fun msg =>
    ret (match msg with
         | sid :: _ => Some [sid + POSITIVE_RESPONSE]
         | [] => None
         end);
  link_receive := ret None;
  link_is_open := fun _ => true
|}.

(** The Transfer-Data requests of one download, numbered from [counter]. *)
Fixpoint transfer_requests (data : bytes) (block_size counter : Z)
    (offsets : list Z) : list bytes :=
  match offsets with
  | [] => []
  | i :: rest =>
      (UDS_TRANSFER_DATA :: counter :: py_slice data i (i + block_size))
      :: transfer_requests data block_size
           (Z.land (counter + 1) 0xFF) rest
  end.

(** The data bytes a request writes: those of Write-Memory-By-Address in
    the KWP2000 dialect, those of Transfer-Data in the UDS dialect. *)
Definition written_payload (kwp : bool) (msg : bytes) : bytes :=
  match msg with
  | [] => []
  | sid :: rest =>
      if kwp then
        if sid =? KWP_WRITE_MEMORY_BY_ADDRESS then skipn 4 rest else []
      else
        if sid =? UDS_TRANSFER_DATA then skipn 1 rest else []
  end.

Definition written_data (kwp : bool) (trace : list bytes) : bytes :=
  flat_map (written_payload kwp) trace.

(** The number of requests of a service in a trace. *)
Definition count_service (sid : Z) (trace : list bytes) : nat :=
  List.length
    (filter (fun msg => match msg with
                        | s :: _ => s =? sid
                        | [] => false
                        end) trace).

(** The erase request of each dialect. *)
Definition erase_request (kwp : bool) (ab sb : bytes) : bytes :=
  if kwp then 0x31 :: 0x00 :: ab ++ sb
  else 0x31 :: 0x01 :: 0xFF :: 0x02 :: ab ++ sb.

(** The requests a run adds to the trace only pile up behind it, and the
    dialect stays. *)
Definition grows {L A : Type} (m : M (BMWFlasher L) A) : Prop :=
  forall (s s' : BMWFlasher L) (r : result A),
    m s = (s', r) ->
    protocol s' = protocol s /\ exists more, sent s' = sent s ++ more.

(** ** Further services of [BMWFlasher] *)

Definition KWP_ECU_RESET : Z := 0x11.
Definition KWP_CLEAR_DIAGNOSTIC_INFORMATION : Z := 0x14.
Definition KWP_READ_DTC_BY_STATUS : Z := 0x18.
Definition UDS_ECU_RESET : Z := 0x11.
Definition UDS_CLEAR_DTC : Z := 0x14.
Definition UDS_READ_DTC : Z := 0x19.

(** [c.upper()] for an ASCII character. *)
Definition upper_ascii (c : ascii) : ascii :=
  let n := nat_of_ascii c in
  if (97 <=? n)%nat && (n <=? 122)%nat then ascii_of_nat (n - 32) else c.

(** [s.upper()]; the strings are those that [decode('ascii',
    errors='ignore')] produces, made of ASCII characters. *)
Fixpoint upper (s : string) : string :=
  match s with
  | EmptyString => EmptyString
  | String c s' => String (upper_ascii c) (upper s')
  end.

(** [needle in s] *)
Fixpoint contains (needle s : string) : bool :=
  String.prefix needle s
  || match s with
     | EmptyString => false
     | String _ s' => contains needle s'
     end.

(** [_determine_ecu_type] *)
Definition _determine_ecu_type (ecu_id : string) : string :=
  let ecu_id := upper ecu_id in
  if contains "MSD80" ecu_id then "MSD80"
  else if contains "MSD81" ecu_id then "MSD81"
  else if contains "MEVD17.2" ecu_id then "MEVD17.2"
  else if contains "MG1" ecu_id then "MG1"
  else if contains "MD1" ecu_id then "MD1"
  else
    match find (fun ecu_type => contains ecu_type ecu_id)
               (map fst ECU_MEMORY_MAPS) with
    | Some ecu_type => ecu_type
    | None => "MSD80"
    end.

(** [range(start, stop, step)] for a positive step, as the loop it drives:
    [i = start; while i < stop: yield i; i += step]. *)
Fixpoint range_loop (fuel : nat) (i stop step : Z) : list Z :=
  match fuel with
  | O => []
  | S fuel' =>
      if i <? stop then i :: range_loop fuel' (i + step) stop step else []
  end.

Definition py_range_from (start stop step : Z) : list Z :=
  range_loop (Z.to_nat (stop - start)) start stop step.

(** One hexadecimal digit, upper case. *)
Definition hex_digit (d : Z) : ascii :=
  nth (Z.to_nat d)
      ["0"; "1"; "2"; "3"; "4"; "5"; "6"; "7"; "8"; "9";
       "A"; "B"; "C"; "D"; "E"; "F"]%char "0"%char.

Fixpoint hex_aux (fuel : nat) (v : Z) (acc : string) : string :=
  match fuel with
  | O => acc
  | S fuel' =>
      let acc' := String (hex_digit (v mod 16)) acc in
      if v / 16 =? 0 then acc' else hex_aux fuel' (v / 16) acc'
  end.

(** [f"{v:X}"] for a non-negative [v]. *)
Definition format_X (v : Z) : string :=
  hex_aux (S (Z.to_nat (Z.log2 v))) v EmptyString.

Fixpoint zeros (n : nat) : string :=
  match n with
  | O => EmptyString
  | S n' => String "0"%char (zeros n')
  end.

(** [f"{v:0wX}"] for a non-negative [v]. *)
Definition format_0X (w : nat) (v : Z) : string :=
  let digits := format_X v in
  (zeros (w - String.length digits) ++ digits)%string.

(** An entry of the list that [read_dtcs] returns. *)
Record DTC : Type := mkDTC {
  code : Z;
  text : string;
  status : Z
}.

(** The entry appended in the KWP2000 parsing loop of [read_dtcs]. *)
Definition kwp_dtc (status dtc_high dtc_low : Z) : DTC :=
  let dtc_code := Z.lor (Z.shiftl dtc_high 8) dtc_low in
  let dtc_text := String "P"%char (format_0X 4 dtc_code) in
  mkDTC dtc_code dtc_text status.

(** The body of the KWP2000 parsing loop of [read_dtcs] at index [i]. *)
Definition kwp_dtc_at (response : bytes) (i : Z) : list DTC :=
  if i + 2 <? len response then
    let status := nth (Z.to_nat i) response 0 in
    let dtc_high := nth (Z.to_nat (i + 1)) response 0 in
    let dtc_low := nth (Z.to_nat (i + 2)) response 0 in
    [kwp_dtc status dtc_high dtc_low]
  else [].

(** The entry appended in the UDS parsing loop of [read_dtcs]. *)
Definition uds_dtc (dtc_high dtc_mid dtc_low status : Z) : DTC :=
  let dtc_code :=
    Z.lor (Z.lor (Z.shiftl dtc_high 16) (Z.shiftl dtc_mid 8)) dtc_low in
  let dtc_type :=
    if Z.land dtc_high 0xC0 =? 0x00 then "P"%char
    else if Z.land dtc_high 0xC0 =? 0x40 then "C"%char
    else if Z.land dtc_high 0xC0 =? 0x80 then "B"%char
    else "U"%char in
  let dtc_text :=
    String dtc_type
      (format_X (Z.land dtc_high 0x3F)
       ++ format_0X 2 dtc_mid ++ format_0X 2 dtc_low)%string in
  mkDTC dtc_code dtc_text status.

(** The body of the UDS parsing loop of [read_dtcs] at index [i]. *)
Definition uds_dtc_at (response : bytes) (i : Z) : list DTC :=
  if i + 3 <? len response then
    let dtc_high := nth (Z.to_nat i) response 0 in
    let dtc_mid := nth (Z.to_nat (i + 1)) response 0 in
    let dtc_low := nth (Z.to_nat (i + 2)) response 0 in
    let status := nth (Z.to_nat (i + 3)) response 0 in
    [uds_dtc dtc_high dtc_mid dtc_low status]
  else [].

(** The two parsing loops of [read_dtcs]. *)
Definition parse_kwp_dtcs (response : bytes) : list DTC :=
  flat_map (kwp_dtc_at response) (py_range_from 2 (len response) 3).

Definition parse_uds_dtcs (response : bytes) : list DTC :=
  flat_map (uds_dtc_at response) (py_range_from 3 (len response) 4).

Section Services.

Context {L : Type} `{Link L}.

Variable connect : M (BMWFlasher L) bool.

Definition set_protocol (p : Protocol) (s : BMWFlasher L) : BMWFlasher L :=
  mkFlasher (isotp s) (connected s) (Some p) (security_level s)
    (session_type s) (ecu_type s) (ecu_memory_map s) (sent s).

(** [response and response[0] == service_id + POSITIVE_RESPONSE] *)
Definition is_positive (response : option bytes) (service_id : Z) : bool :=
  negb (not_positive response service_id).

(** [_try_uds_communication] *)
Definition _try_uds_communication : M (BMWFlasher L) bool :=
  response <- _send_uds_command UDS_TESTER_PRESENT [0x00] ;;
  if is_positive response UDS_TESTER_PRESENT then ret true
  else
    response <- _send_uds_command UDS_DIAGNOSTIC_SESSION_CONTROL
                  [SESSION_DEFAULT] ;;
    if is_positive response UDS_DIAGNOSTIC_SESSION_CONTROL then ret true
    else ret false.

(** [_try_kwp_communication] *)
Definition _try_kwp_communication : M (BMWFlasher L) bool :=
  response <- _send_kwp_command KWP_TESTER_PRESENT [0x00] ;;
  if is_positive response KWP_TESTER_PRESENT then ret true
  else
    response <- _send_kwp_command KWP_START_DIAGNOSTIC_SESSION [0x81] ;;
    if is_positive response KWP_START_DIAGNOSTIC_SESSION then ret true
    else ret false.

(** [_initialize_communication] *)
Definition _initialize_communication : M (BMWFlasher L) bool :=
  ok <- _try_uds_communication ;;
  if ok then modify (set_protocol UDS) ;;; ret true
  else
    ok <- _try_kwp_communication ;;
    if ok then modify (set_protocol KWP2000) ;;; ret true
    else ret false.

(** [reset_ecu] *)
Definition reset_ecu : M (BMWFlasher L) bool :=
  p <- gets protocol ;;
  if is_kwp p then _send_kwp_command KWP_ECU_RESET [0x01] ;;; ret true
  else _send_uds_command UDS_ECU_RESET [0x01] ;;; ret true.

(** [clear_dtcs] *)
Definition clear_dtcs : M (BMWFlasher L) bool :=
  no <- cannot_connect connect ;;
  if no then raise ConnectionError
  else
    p <- gets protocol ;;
    if is_kwp p then
      response <- _send_kwp_command KWP_CLEAR_DIAGNOSTIC_INFORMATION
                    [0xFF; 0xFF; 0xFF] ;;
      if not_positive response KWP_CLEAR_DIAGNOSTIC_INFORMATION
      then ret false else ret true
    else
      response <- _send_uds_command UDS_CLEAR_DTC [0xFF; 0xFF; 0xFF] ;;
      if not_positive response UDS_CLEAR_DTC then ret false else ret true.

(** [read_dtcs] *)
Definition read_dtcs : M (BMWFlasher L) (list DTC) :=
  no <- cannot_connect connect ;;
  if no then raise ConnectionError
  else
    p <- gets protocol ;;
    if is_kwp p then
      response <- _send_kwp_command KWP_READ_DTC_BY_STATUS [0x00] ;;
      if not_positive response KWP_READ_DTC_BY_STATUS then ret []
      else ret (parse_kwp_dtcs (body response))
    else
      response <- _send_uds_command UDS_READ_DTC [0x02; 0xFF] ;;
      if not_positive response UDS_READ_DTC then ret []
      else ret (parse_uds_dtcs (body response)).

(** A method of the flasher run while the backup file is open; the second
    component of the state is what has been written to the file. *)
Definition with_file {A : Type} (m : M (BMWFlasher L) A)
  : M (BMWFlasher L * bytes) A :=
  fun st => let (s', r) := m (fst st) in ((s', snd st), r).

Fixpoint for_all_file {A : Type} (xs : list A)
    (f : A -> M (BMWFlasher L * bytes) unit) : M (BMWFlasher L * bytes) unit :=
  match xs with
  | [] => ret tt
  | x :: rest => f x ;;; for_all_file rest f
  end.

(** One turn of the block loop of [backup_ecu] (lines 992-1014), without
    the progress callback. *)
Definition backup_block (sector_start sector_size block_size offset : Z)
  : M (BMWFlasher L * bytes) unit :=
  let address := sector_start + offset in
  let size := Z.min block_size (sector_size - offset) in
  block_data <- with_file (_read_memory address size) ;;
  if falsy block_data then raise (RuntimeError "Failed to read memory")
  else
    modify (fun st => (fst st, snd st ++ body block_data)) ;;;
    with_file (keep_alive offset).

(** One turn of the sector loop of [backup_ecu]. *)
Definition backup_sector (mm : MemoryMap) (sector : Sector)
  : M (BMWFlasher L * bytes) unit :=
  let block_size := Z.min (transfer_size mm) 0x1000 in
  offsets <- lift (py_range (size sector) block_size) ;;
  for_all_file offsets
    (backup_block (start sector) (size sector) block_size).

(** [backup_ecu], from the selection of the memory map on.  As for
    [flash_ecu], the identity reads of lines 951-953 are not part of the
    model: the flasher is taken with its identity known.  The state carries
    the content of the backup file, which is empty when the file is
    opened. *)
Definition backup_ecu : M (BMWFlasher L * bytes) unit :=
  no <- with_file (cannot_connect connect) ;;
  if no then raise ConnectionError
  else
    mmo <- with_file (gets ecu_memory_map) ;;
    match mmo with
     | None => et <- with_file (gets ecu_type) ;;
               with_file (modify (set_ecu_memory_map (_get_memory_map et)))
     | Some _ => ret tt
     end ;;;
    no <- with_file (cannot_program connect) ;;
    if no then raise (RuntimeError "Could not enter programming session for backup")
    else
      lvl <- with_file (gets security_level) ;;
      ok <- (if lvl <? SECURITY_LEVEL_PROGRAMMING
             then with_file (security_access connect) else ret true) ;;
      if negb ok then raise (RuntimeError "Could not get security access for backup")
      else
        mmo <- with_file (gets ecu_memory_map) ;;
        match mmo with
        | None => raise AttributeError
        | Some mm => for_all_file (sectors mm) (backup_sector mm)
        end.

End Services.

(** A reply that keeps the response-pending loop of [_send_uds_command]
    going: [response[0] == 0x7F and response[2] == 0x78]. *)
Definition keeps_waiting (r : bytes) : bool :=
  match r with
  | r0 :: _ :: r2 :: _ =>
      (r0 =? NEGATIVE_RESPONSE) && (r2 =? NRC_RESPONSE_PENDING)
  | _ => false
  end.

(** A reply, or a timeout, at which the loop ends with that reply as the
    result. *)
Definition settles (o : option bytes) : bool :=
  match o with
  | None => true
  | Some [] => true
  | Some (r0 :: t) =>
      negb (r0 =? NEGATIVE_RESPONSE)
      || match t with
         | _ :: r2 :: _ => negb (r2 =? NRC_RESPONSE_PENDING)
         | _ => false
         end
  end.

(** The records of a DTC report on the wire: status, high and low byte in
    the KWP2000 dialect; high, middle and low byte and the status in the
    UDS dialect. *)
Definition kwp_dtc_wire (recs : list (Z * Z * Z)) : bytes :=
  flat_map (fun '(st, hi, lo) => [st; hi; lo]) recs.

Definition uds_dtc_wire (recs : list (Z * Z * Z * Z)) : bytes :=
  flat_map (fun '(hi, mid, lo, st) => [hi; mid; lo; st]) recs.

(** [s'] is [s] after one request was handed to its link: the request is
    logged and only the link may have changed. *)
Definition dispatched_to {L : Type} (msg : bytes) (s s' : BMWFlasher L)
  : Prop :=
  isotp s' <> None
  /\ sent s' = sent s ++ [msg]
  /\ connected s' = connected s
  /\ protocol s' = protocol s
  /\ security_level s' = security_level s
  /\ session_type s' = session_type s
  /\ ecu_type s' = ecu_type s
  /\ ecu_memory_map s' = ecu_memory_map s.

(** The ways a read that cannot be made ends: with the value of a failed
    read, or with the exception of the size or of the request bytes. *)
Definition read_refused {A : Type} (r : result A) (none : A) : Prop :=
  r = Ok none \/ r = Raise OverflowError \/ r = Raise ValueError.

(** A request that is neither an erase routine, nor a write by address,
    nor a Request-Download. *)
Definition neither_erases_nor_writes (msg : bytes) : Prop :=
  match msg with
  | [] => True
  | sid :: _ => sid <> 0x3D /\ sid <> 0x31 /\ sid <> 0x34
  end.

(** * Properties *)

Ltac unfold_monad :=
  unfold bind, ret, raise, lift, gets, modify, catch, on_isotp in *.

(** ** Security keys *)

(** C9: for every seed [s] the xor key is [((s XOR 0x5A3C) + 0x7F1B) mod 2^32],
    and the crc key of seed 0 is 0. *)
Theorem calculate_key_xor_and_crc_zero :
  (forall s : Z,
      _calculate_key s "xor" = (Z.lxor s 0x5A3C + 0x7F1B) mod 2 ^ 32)
  /\ _calculate_key 0 "crc" = 0.
Proof.
  split.
  - intro s. unfold _calculate_key. simpl String.eqb. cbv iota.
    change 0xFFFFFFFF with (Z.ones 32).
    apply Z.land_ones. lia.
  - vm_compute. reflexivity.
Qed.

(** ** Frames from another CAN identifier *)

Section ForeignFrame.

Variable h : ISOTPHandler.
Variables b0 b1 b2 b3 dlc : Z.
Variable rest : bytes.

Hypothesis Hrx : rx (port h) = b0 :: b1 :: b2 :: b3 :: dlc :: rest.
Hypothesis Hid : from_bytes [b0; b1; b2; b3] <> rx_id h.

Lemma receive_can_frame_foreign :
  _receive_can_frame (Some (rx_id h)) h = (after_header h rest, Ok None).
Proof.
  unfold _receive_can_frame, serial_read, after_header.
  rewrite Hrx.
  change (Z.to_nat 5) with 5%nat. cbn [firstn skipn len List.length].
  change (Z.of_nat 5 =? 5) with true. cbn [negb nth].
  apply Z.eqb_neq in Hid. rewrite Hid. reflexivity.
Qed.

Lemma receive_isotp_foreign : _receive_isotp h = (after_header h rest, Ok None).
Proof.
  unfold _receive_isotp. unfold_monad.
  rewrite receive_can_frame_foreign. reflexivity.
Qed.

Lemma receive_consecutive_foreign :
  forall (fuel : nat) (length : Z) (response_data : bytes) (expected : Z),
    len response_data < length ->
    receive_consecutive (S fuel) length response_data expected h
    = (after_header h rest, Ok None).
Proof.
  intros fuel length response_data expected Hlt.
  cbn [receive_consecutive].
  apply Z.ltb_lt in Hlt. rewrite Hlt. unfold_monad.
  rewrite receive_can_frame_foreign. reflexivity.
Qed.

End ForeignFrame.

Lemma send_can_frame_rx :
  forall (id : Z) (data : bytes) (h h' : ISOTPHandler) (r : result unit),
    _send_can_frame id data h = (h', r) ->
    rx (port h') = rx (port h) /\ rx_id h' = rx_id h.
Proof.
  intros id data h h' r. unfold _send_can_frame. unfold_monad.
  destruct (pack_u32 id); [|intro E; inversion E; auto].
  destruct (mk_bytes [len data]); intro E; inversion E; auto.
Qed.

(** C10: a frame whose identifier differs from the expected one makes the
    frame read fail at once, with only its header consumed; the ISO-TP
    receive, a reassembly in progress and a whole [send] then yield no
    reply. *)
Theorem foreign_can_id_aborts_exchange :
  forall (h : ISOTPHandler) (b0 b1 b2 b3 dlc : Z) (rest : bytes),
    rx (port h) = b0 :: b1 :: b2 :: b3 :: dlc :: rest ->
    from_bytes [b0; b1; b2; b3] <> rx_id h ->
    _receive_can_frame (Some (rx_id h)) h
      = (after_header h rest, Ok None)
    /\ _receive_isotp h = (after_header h rest, Ok None)
    /\ (forall fuel length response_data expected,
           len response_data < length ->
           receive_consecutive (S fuel) length response_data expected h
           = (after_header h rest, Ok None))
    /\ (forall data reply, snd (send data h) <> Ok (Some reply)).
Proof.
  intros h b0 b1 b2 b3 dlc rest Hrx Hid.
  split; [|split; [|split]].
  - eapply receive_can_frame_foreign; eauto.
  - eapply receive_isotp_foreign; eauto.
  - intros. eapply receive_consecutive_foreign; eauto.
  - intros data reply. unfold send.
    destruct (len data <=? 7).
    + unfold _send_single_frame. unfold_monad.
      destruct (mk_bytes [Z.lor 0 (len data)]); [|simpl; discriminate].
      destruct (_send_can_frame (tx_id h) (pad8 (a ++ data)) h) as [h' r] eqn:E.
      destruct (send_can_frame_rx _ _ _ _ _ E) as [Hrx' Hid'].
      destruct r; [|simpl; discriminate].
      rewrite (receive_isotp_foreign h' b0 b1 b2 b3 dlc rest)
        by congruence.
      simpl. discriminate.
    + unfold _send_multi_frame. unfold_monad.
      destruct (mk_bytes _); [|simpl; discriminate].
      destruct (_send_can_frame (tx_id h) (a ++ py_slice data 0 6) h)
        as [h' r] eqn:E.
      destruct (send_can_frame_rx _ _ _ _ _ E) as [Hrx' Hid'].
      destruct r; [|simpl; discriminate].
      rewrite (receive_can_frame_foreign h' b0 b1 b2 b3 dlc rest)
        by congruence.
      simpl. discriminate.
Qed.

Lemma foreign_can_id_aborts_exchange_witness :
  let h := new_isotp
             (mkSerial [0; 0; 0x01; 0x23; 8; 0x02; 0x50; 0x03; 0; 0; 0; 0; 0]
                       [] true)
             CAN_ID_REQUEST CAN_ID_RESPONSE in
  _receive_isotp h
  = (after_header h [0x02; 0x50; 0x03; 0; 0; 0; 0; 0], Ok None).
Proof.
  intro h.
  apply (foreign_can_id_aborts_exchange h 0 0 0x01 0x23 8
           [0x02; 0x50; 0x03; 0; 0; 0; 0; 0]).
  - reflexivity.
  - vm_compute. discriminate.
Defined.

(** ** Response pending *)

(** C4: an erase request answered by "response pending" and then by a
    positive reply.  The UDS dispatcher reads on and returns the positive
    reply; the KWP2000 dispatcher returns the pending reply at once and
    leaves the positive one unread, so that the erase is reported failed. *)
Theorem kwp_dispatcher_does_not_await_pending :
  let script : Script := [pending 0x31; positive 0x31] in
  let args := [0x00; 0x00; 0x81; 0x00; 0x00; 0x00; 0x04; 0x00; 0x00] in
  let kwp := unlocked_flasher script KWP2000 MSD80_MAP in
  let uds := unlocked_flasher script UDS MSD80_MAP in
  snd (_send_uds_command 0x31 args uds) = Ok (positive 0x31)
  /\ isotp (fst (_send_uds_command 0x31 args uds)) = Some []
  /\ snd (_send_kwp_command 0x31 args kwp) = Ok (pending 0x31)
  /\ isotp (fst (_send_kwp_command 0x31 args kwp)) = Some [positive 0x31]
  /\ snd (_erase_memory_sector 0x810000 0x40000 kwp) = Ok false.
Proof.
  vm_compute. repeat split.
Qed.

(** ** Flow-control block size *)

(** C7: a 20-byte payload and a flow control with block size 2.  With one
    flow control on the line the sender stops after the first frame and a
    single consecutive frame, waiting for a second flow control that a
    receiver sends only after two frames; with two flow controls on the line
    it reads the second one between the two consecutive frames. *)
Theorem block_size_two_waits_after_one_frame :
  let payload := map Z.of_nat (seq 1 20) in
  let fc := encode_can CAN_ID_RESPONSE [0x30; 2; 10; 0; 0; 0; 0; 0] in
  let ff := encode_can CAN_ID_REQUEST [0x10; 20; 1; 2; 3; 4; 5; 6] in
  let cf1 := encode_can CAN_ID_REQUEST [0x21; 7; 8; 9; 10; 11; 12; 13] in
  let cf2 := encode_can CAN_ID_REQUEST [0x22; 14; 15; 16; 17; 18; 19; 20] in
  let h1 := new_isotp (mkSerial fc [] true) CAN_ID_REQUEST CAN_ID_RESPONSE in
  let h2 := new_isotp (mkSerial (fc ++ fc) [] true)
              CAN_ID_REQUEST CAN_ID_RESPONSE in
  (snd (_send_multi_frame payload h1) = Ok None
   /\ tx (port (fst (_send_multi_frame payload h1))) = ff ++ cf1
   /\ rx (port (fst (_send_multi_frame payload h1))) = [])
  /\ (tx (port (fst (_send_multi_frame payload h2))) = ff ++ cf1 ++ cf2
      /\ rx (port (fst (_send_multi_frame payload h2))) = []).
Proof.
  vm_compute. repeat split.
Qed.

(** ** Session and security state *)

Section Disconnect.

Context {L : Type} `{Link L}.

Lemma disconnect_resets :
  forall s : BMWFlasher L,
    snd (disconnect s) = Ok tt
    /\ session_type (fst (disconnect s)) = SESSION_DEFAULT
    /\ security_level (fst (disconnect s)) = 0
    /\ connected (fst (disconnect s)) = false
    /\ isotp (fst (disconnect s)) = None.
Proof.
  intro s. unfold disconnect. unfold_monad.
  destruct (isotp s) as [l|]; cbn; [|repeat split].
  destruct (link_is_open l); cbn; [|repeat split].
  destruct (negb (session_type s =? SESSION_DEFAULT)); cbn; [|repeat split].
  match goal with
  | |- context [match ?m s with _ => _ end] => destruct (m s) as [s1 [u|e]]
  end; cbn; repeat split.
Qed.

End Disconnect.



(** ** ISO-TP loopback *)

Section Slices.

Context {A : Type}.

Lemma len_nonneg : forall l : list A, 0 <= len l.
Proof. intro l. unfold len. lia. Qed.

Lemma len_app : forall l1 l2 : list A, len (l1 ++ l2) = len l1 + len l2.
Proof. intros. unfold len. rewrite length_app. lia. Qed.

Lemma len_cons : forall (x : A) (l : list A), len (x :: l) = 1 + len l.
Proof. intros. unfold len. cbn [List.length]. lia. Qed.

(** [l[a:a+k]] for non-negative [a] and [k]. *)
Lemma py_slice_from_count :
  forall (l : list A) (a k : Z),
    0 <= a -> 0 <= k ->
    py_slice l a (a + k) = firstn (Z.to_nat k) (skipn (Z.to_nat a) l).
Proof.
  intros l a k Ha Hk. unfold py_slice, clamp.
  pose proof (len_nonneg l) as Hn.
  destruct (a <? 0) eqn:E1; [apply Z.ltb_lt in E1; lia|].
  destruct (a + k <? 0) eqn:E2; [apply Z.ltb_lt in E2; lia|].
  destruct (Z.le_gt_cases a (len l)) as [Hle|Hgt].
  - rewrite (Z.min_l a) by lia.
    destruct (Z.le_gt_cases (a + k) (len l)) as [Hle2|Hgt2].
    + rewrite Z.min_l by lia. f_equal. lia.
    + rewrite Z.min_r by lia.
      rewrite !firstn_all2; auto; rewrite length_skipn; unfold len in *; lia.
  - rewrite !Z.min_r by lia.
    rewrite (skipn_all2 (n := Z.to_nat a)) by (unfold len in *; lia).
    rewrite firstn_nil. rewrite Z.sub_diag. reflexivity.
Qed.

Lemma firstn_app_exact :
  forall (n : nat) (l1 l2 : list A),
    List.length l1 = n -> firstn n (l1 ++ l2) = l1.
Proof.
  intros n l1 l2 Hn. rewrite firstn_app, Hn, Nat.sub_diag.
  rewrite firstn_all2 by lia. cbn. apply app_nil_r.
Qed.

Lemma skipn_app_exact :
  forall (n : nat) (l1 l2 : list A),
    List.length l1 = n -> skipn n (l1 ++ l2) = l2.
Proof.
  intros n l1 l2 Hn. rewrite skipn_app, Hn, Nat.sub_diag.
  rewrite skipn_all2 by lia. reflexivity.
Qed.

Lemma py_slice_prefix :
  forall (l : list A) (k : Z),
    0 <= k -> py_slice l 0 k = firstn (Z.to_nat k) l.
Proof.
  intros l k Hk.
  change k with (0 + k) at 1.
  rewrite py_slice_from_count by lia. reflexivity.
Qed.

End Slices.

Local Arguments Z.lor : simpl never.
Local Arguments Z.land : simpl never.
Local Arguments Z.shiftl : simpl never.
Local Arguments Z.shiftr : simpl never.
Local Arguments Z.mul : simpl never.
Local Arguments Z.add : simpl never.
Local Arguments Z.sub : simpl never.
Local Arguments Z.of_nat : simpl never.
Local Arguments Z.to_nat : simpl never.

Lemma emit_emit :
  forall (a b : bytes) (h : ISOTPHandler), emit b (emit a h) = emit (a ++ b) h.
Proof.
  intros a b [[r t o] ti ri st bs].
  unfold emit, set_port, serial_write. cbn. rewrite app_assoc. reflexivity.
Qed.

Lemma emit_nil : forall h : ISOTPHandler, emit [] h = h.
Proof.
  intros [[r t o] ti ri st bs].
  unfold emit, set_port, serial_write. cbn. rewrite app_nil_r. reflexivity.
Qed.

Lemma with_rx_same :
  forall (h : ISOTPHandler) (r : bytes), rx (port h) = r -> with_rx r h = h.
Proof.
  intros [[r0 t o] ti ri st bs] r Hr. cbn in Hr. subst.
  reflexivity.
Qed.

Lemma send_can_frame_ok :
  forall (id : Z) (fr : bytes) (h : ISOTPHandler),
    pack_u32 id = Ok (be_digits 4 id) ->
    len fr = 8 ->
    _send_can_frame id fr h = (emit (encode_can id fr) h, Ok tt).
Proof.
  intros id fr h Hid Hlen. unfold _send_can_frame. unfold_monad.
  rewrite Hid. unfold mk_bytes. rewrite Hlen.
  change (forallb is_byte [8]) with true. cbv iota.
  unfold emit, encode_can. rewrite Hlen. reflexivity.
Qed.

Lemma receive_can_frame_encoded :
  forall (id d0 d1 d2 d3 : Z) (fr more : bytes) (h : ISOTPHandler),
    be_digits 4 id = [d0; d1; d2; d3] ->
    from_bytes [d0; d1; d2; d3] = id ->
    len fr = 8 ->
    rx (port h) = encode_can id fr ++ more ->
    _receive_can_frame (Some id) h = (with_rx more h, Ok (Some fr)).
Proof.
  intros id d0 d1 d2 d3 fr more h Hd Hv Hlen Hrx.
  unfold _receive_can_frame, serial_read. rewrite Hrx.
  unfold encode_can. rewrite Hd, Hlen.
  change (Z.to_nat 5) with 5%nat. cbn [app firstn skipn nth rx tx is_open].
  change (len [d0; d1; d2; d3; 8]) with 5. cbn [Z.eqb Pos.eqb negb].
  rewrite Hv, Z.eqb_refl. cbn [negb].
  change (Z.to_nat 8) with 8%nat.
  assert (Hn : List.length fr = 8%nat) by (unfold len in Hlen; lia).
  rewrite (firstn_app_exact 8 fr more Hn), (skipn_app_exact 8 fr more Hn).
  rewrite Hlen. cbn [Z.eqb Pos.eqb negb].
  reflexivity.
Qed.

Lemma cf_wire_nil : forall (fuel : nat) (s : Z), cf_wire fuel s [] = [].
Proof. destruct fuel; reflexivity. Qed.

Lemma land15_range : forall s : Z, 0 <= Z.land s 0x0F < 16.
Proof.
  intro s. change 0x0F with (Z.ones 4). rewrite Z.land_ones by lia.
  apply Z.mod_pos_bound. lia.
Qed.

Lemma cf_head_facts :
  forall s : Z,
    0 <= s < 16 ->
    is_byte (Z.lor 0x20 (Z.land s 0x0F)) = true
    /\ Z.land (Z.lor 0x20 (Z.land s 0x0F)) 0xF0 = 0x20
    /\ Z.land (Z.lor 0x20 (Z.land s 0x0F)) 0x0F = s.
Proof.
  intros s Hs.
  assert (H : s = 0 \/ s = 1 \/ s = 2 \/ s = 3 \/ s = 4 \/ s = 5 \/ s = 6
              \/ s = 7 \/ s = 8 \/ s = 9 \/ s = 10 \/ s = 11 \/ s = 12
              \/ s = 13 \/ s = 14 \/ s = 15) by lia.
  repeat (destruct H as [H|H]; [subst s; vm_compute; auto|]).
  subst s; vm_compute; auto.
Qed.

Lemma ff_head_ok_all : forall n : Z, 0 <= n < 4096 -> ff_head_ok n = true.
Proof.
  intros n Hn.
  assert (Hall : forallb ff_head_ok (map Z.of_nat (seq 0 4096)) = true)
    by (vm_compute; reflexivity).
  rewrite forallb_forall in Hall. apply Hall.
  replace n with (Z.of_nat (Z.to_nat n)) by lia.
  apply in_map. apply in_seq. lia.
Qed.

Lemma len_pad7 : forall x : bytes, len x <= 7 -> len (pad7 x) = 7.
Proof.
  intros x Hx. unfold pad7. pose proof (len_nonneg x).
  destruct (len x <? 7) eqn:E.
  - apply Z.ltb_lt in E. rewrite len_app. unfold len at 2.
    rewrite repeat_length. lia.
  - apply Z.ltb_ge in E. lia.
Qed.

Lemma pad8_cons :
  forall (c : Z) (x : bytes), len x <= 7 -> pad8 (c :: x) = c :: pad7 x.
Proof.
  intros c x Hx. unfold pad8, pad7. rewrite len_cons.
  destruct (len x <? 7) eqn:E.
  - apply Z.ltb_lt in E.
    replace (1 + len x <? 8) with true by (symmetry; apply Z.ltb_lt; lia).
    replace (8 - (1 + len x)) with (7 - len x) by lia. reflexivity.
  - apply Z.ltb_ge in E.
    replace (1 + len x <? 8) with false by (symmetry; apply Z.ltb_ge; lia).
    reflexivity.
Qed.

Lemma len_firstn_le :
  forall (n : nat) (l : bytes), len (firstn n l) <= Z.of_nat n.
Proof.
  intros n l. unfold len. rewrite length_firstn. lia.
Qed.

Lemma skipn_cons_of_lt :
  forall (l : bytes) (i : Z),
    0 <= i < len l ->
    exists x rest, skipn (Z.to_nat i) l = x :: rest.
Proof.
  intros l i Hi.
  destruct (skipn (Z.to_nat i) l) as [|x rest] eqn:E.
  - apply (f_equal (@List.length Z)) in E. rewrite length_skipn in E.
    unfold len in Hi. cbn in E. lia.
  - eauto.
Qed.

Lemma send_consecutive_unlimited :
  forall (fuel : nat) (p : bytes) (s idx : Z) (h : ISOTPHandler),
    block_size h = 0 ->
    tx_id h = CAN_ID_REQUEST ->
    0 <= s < 16 ->
    0 <= idx ->
    (Z.to_nat (len p - idx) <= fuel)%nat ->
    send_consecutive fuel p (len p) s idx h
    = (emit (cf_wire fuel s (skipn (Z.to_nat idx) p)) h, Ok None).
Proof.
  induction fuel as [|fuel IH]; intros p s idx h Hbs Htx Hs Hidx Hfuel.
  - cbn [send_consecutive cf_wire].
    replace (idx <? len p) with false by (symmetry; apply Z.ltb_ge; lia).
    rewrite emit_nil. reflexivity.
  - cbn [send_consecutive].
    destruct (idx <? len p) eqn:E.
    + apply Z.ltb_lt in E.
      destruct (skipn_cons_of_lt p idx (conj Hidx E)) as (x & rest & Hsk).
      destruct (cf_head_facts s Hs) as (Hb & _ & _).
      unfold_monad. unfold mk_bytes. cbn [forallb]. rewrite Hb. cbn [andb].
      rewrite py_slice_from_count by lia.
      change (Z.to_nat 7) with 7%nat. cbn [app].
      rewrite pad8_cons by apply (len_firstn_le 7).
      rewrite Htx.
      rewrite send_can_frame_ok;
        [|reflexivity
         |rewrite len_cons, len_pad7; [lia|apply (len_firstn_le 7)]].
      replace (block_size (emit _ h)) with 0
        by (destruct h as [[r t o] ti ri st bs]; cbn in *; congruence).
      cbn [Z.eqb negb andb].
      rewrite IH.
      * rewrite emit_emit. f_equal. f_equal.
        rewrite Hsk. cbn [cf_wire]. rewrite <- Hsk.
        f_equal. f_equal. rewrite skipn_skipn. f_equal. lia.
      * destruct h as [[r t o] ti ri st bs]; cbn in *; congruence.
      * destruct h as [[r t o] ti ri st bs]; cbn in *; congruence.
      * apply land15_range.
      * lia.
      * lia.
    + apply Z.ltb_ge in E.
      rewrite skipn_all2 by (unfold len in E; lia).
      rewrite cf_wire_nil, emit_nil. reflexivity.
Qed.

Lemma with_rx_with_rx :
  forall (a b : bytes) (h : ISOTPHandler), with_rx b (with_rx a h) = with_rx b h.
Proof. intros a b [[r t o] ti ri st bs]. reflexivity. Qed.

Lemma length_encode_can :
  forall (id : Z) (fr : bytes),
    List.length (encode_can id fr) = (5 + List.length fr)%nat.
Proof. intros. unfold encode_can. rewrite !length_app. reflexivity. Qed.

Lemma receive_consecutive_done :
  forall (fuel : nat) (acc : bytes) (s : Z) (h : ISOTPHandler),
    receive_consecutive fuel (len acc) acc s h = (h, Ok (Some acc)).
Proof.
  intros fuel acc s h.
  destruct fuel; cbn [receive_consecutive]; rewrite Z.ltb_irrefl;
    unfold ret; rewrite py_slice_prefix by apply len_nonneg;
    rewrite firstn_all2 by (unfold len; lia); reflexivity.
Qed.

Lemma receive_consecutive_wire :
  forall (fuelw : nat) (rest acc : bytes) (s : Z) (h : ISOTPHandler)
         (fuel : nat),
    rx_id h = CAN_ID_REQUEST ->
    0 <= s < 16 ->
    (List.length rest <= fuelw)%nat ->
    rx (port h) = cf_wire fuelw s rest ->
    (List.length (rx (port h)) < fuel)%nat ->
    receive_consecutive fuel (len acc + len rest) acc s h
    = (with_rx [] h, Ok (Some (acc ++ rest))).
Proof.
  induction fuelw as [|fuelw IH];
    intros rest acc s h fuel Hid Hs Hlen Hrx Hfuel;
    (destruct fuel as [|fuel]; [lia|]).
  - destruct rest; [|cbn in Hlen; lia].
    replace (len acc + len []) with (len acc) by (unfold len; cbn; lia).
    rewrite receive_consecutive_done, app_nil_r, with_rx_same; auto.
  - destruct rest as [|x rest0].
    + replace (len acc + len []) with (len acc) by (unfold len; cbn; lia).
      rewrite cf_wire_nil in Hrx.
      rewrite receive_consecutive_done, app_nil_r, with_rx_same; auto.
    + remember (x :: rest0) as rest eqn:Hrest.
      assert (Hpos : 1 <= len rest)
        by (subst rest; rewrite len_cons; pose proof (len_nonneg rest0); lia).
      assert (Hw : rx (port h)
                   = encode_can CAN_ID_REQUEST
                       (Z.lor 0x20 (Z.land s 0x0F) :: pad7 (firstn 7 rest))
                     ++ cf_wire fuelw (Z.land (s + 1) 0x0F) (skipn 7 rest))
        by (rewrite Hrx; subst rest; reflexivity).
      clear Hrx.
      assert (Hfr : len (Z.lor 0x20 (Z.land s 0x0F) :: pad7 (firstn 7 rest)) = 8)
        by (rewrite len_cons, len_pad7; [lia|apply (len_firstn_le 7)]).
      destruct (cf_head_facts s Hs) as (_ & Htype & Hseq).
      cbn [receive_consecutive].
      replace (len acc <? len acc + len rest) with true
        by (symmetry; apply Z.ltb_lt; lia).
      unfold_monad. rewrite Hid.
      rewrite (receive_can_frame_encoded CAN_ID_REQUEST 0 0 6 241 _ _ h
                 eq_refl eq_refl Hfr Hw).
      rewrite Htype, Hseq, !Z.eqb_refl. cbn [negb].
      change 8 with (1 + 7) at 1.
      rewrite py_slice_from_count by lia.
      change (Z.to_nat 1) with 1%nat. change (Z.to_nat 7) with 7%nat.
      rewrite skipn_cons, skipn_O.
      rewrite (firstn_all2 (n := 7) (pad7 (firstn 7 rest)))
        by (pose proof (len_pad7 (firstn 7 rest) (len_firstn_le 7 rest));
            unfold len in *; lia).
      destruct (Z.le_gt_cases (len rest) 7) as [Hshort|Hlong].
      * (* the last frame *)
        assert (Hf : firstn 7 rest = rest)
          by (apply firstn_all2; unfold len in Hshort; lia).
        assert (Hk : skipn 7 rest = [])
          by (apply skipn_all2; unfold len in Hshort; lia).
        rewrite Hf, Hk, cf_wire_nil.
        destruct fuel as [|fuel']; cbn [receive_consecutive];
          (replace (len (acc ++ pad7 rest) <? len acc + len rest) with false
             by (symmetry; apply Z.ltb_ge; rewrite len_app, len_pad7; lia));
          unfold ret; rewrite py_slice_prefix
            by (pose proof (len_nonneg acc); lia);
          (replace (firstn (Z.to_nat (len acc + len rest)) (acc ++ pad7 rest))
             with (acc ++ rest);
           [reflexivity|]);
          unfold pad7;
          (destruct (len rest <? 7);
           [rewrite app_assoc|]);
          symmetry; apply firstn_app_exact || apply firstn_all2;
          rewrite ?length_app; unfold len; lia.
      * (* more frames follow *)
        assert (Hp : pad7 (firstn 7 rest) = firstn 7 rest).
        { unfold pad7.
          replace (len (firstn 7 rest) <? 7) with false; [reflexivity|].
          symmetry. apply Z.ltb_ge. unfold len. rewrite length_firstn.
          unfold len in Hlong. lia. }
        rewrite Hp.
        replace (len acc + len rest)
          with (len (acc ++ firstn 7 rest) + len (skipn 7 rest))
          by (rewrite len_app; unfold len;
              rewrite length_firstn, length_skipn; unfold len in Hlong; lia).
        rewrite IH.
        -- rewrite with_rx_with_rx. rewrite <- app_assoc, firstn_skipn.
           reflexivity.
        -- destruct h as [[r t o] ti ri st bs]; cbn in *; congruence.
        -- apply land15_range.
        -- rewrite length_skipn. subst rest. cbn [List.length] in *. lia.
        -- destruct h as [[r t o] ti ri st bs]; reflexivity.
        -- replace (rx (port (with_rx _ h)))
             with (cf_wire fuelw (Z.land (s + 1) 0x0F) (skipn 7 rest))
             by (destruct h as [[r t o] ti ri st bs]; reflexivity).
           rewrite Hw, length_app, length_encode_can in Hfuel. lia.
Qed.

Lemma receive_isotp_silent :
  forall h : ISOTPHandler,
    rx (port h) = [] -> _receive_isotp h = (h, Ok None).
Proof.
  intros [[r t o] ti ri st bs] Hr. cbn in Hr. subst r. reflexivity.
Qed.

Lemma ff_head_facts :
  forall n : Z,
    0 <= n < 4096 ->
    exists f0 f1,
      ff_head n = [f0; f1]
      /\ mk_bytes [f0; f1] = Ok [f0; f1]
      /\ Z.land f0 0xF0 = 0x10
      /\ Z.lor (Z.shiftl (Z.land f0 0x0F) 8) f1 = n.
Proof.
  intros n Hn. pose proof (ff_head_ok_all n Hn) as Hok.
  unfold ff_head_ok in Hok. unfold ff_head in *.
  eexists; eexists; split; [reflexivity|].
  apply andb_true_iff in Hok. destruct Hok as [Hok H3].
  apply andb_true_iff in Hok. destruct Hok as [H1 H2].
  unfold mk_bytes. rewrite H1.
  apply Z.eqb_eq in H2. apply Z.eqb_eq in H3. auto.
Qed.

(** What the sender of a multi-frame payload leaves on the wire. *)
Lemma multi_frame_sender_wire :
  forall p : bytes,
    8 <= len p <= 4095 ->
    tx (port (fst (send p (loopback_sender p))))
    = encode_can CAN_ID_REQUEST (ff_head (len p) ++ firstn 6 p)
      ++ cf_wire (Z.to_nat (len p)) 1 (skipn 6 p).
Proof.
  intros p Hp.
  destruct (ff_head_facts (len p)) as (f0 & f1 & Hff & Hmk & _); [lia|].
  unfold send, loopback_sender, loopback_flow_control.
  replace (len p <=? 7) with false by (symmetry; apply Z.leb_gt; lia).
  unfold _send_multi_frame. unfold_monad.
  unfold ff_head in Hff. rewrite Hff, Hmk.
  rewrite py_slice_prefix by lia. change (Z.to_nat 6) with 6%nat.
  cbn [tx_id new_isotp].
  assert (Hlen : len ([f0; f1] ++ firstn 6 p) = 8).
  { rewrite len_app. unfold len. rewrite length_firstn.
    unfold len in Hp. cbn [List.length]. lia. }
  rewrite send_can_frame_ok; [|reflexivity|exact Hlen].
  cbn [rx_id emit set_port new_isotp].
  rewrite (receive_can_frame_encoded CAN_ID_RESPONSE 0 0 6 249
             flow_control_frame [] _ eq_refl eq_refl eq_refl)
    by (symmetry; apply app_nil_r).
  change (bad_flow_control (Some flow_control_frame)) with false.
  change (nth 1 flow_control_frame 0) with 0.
  change (nth 2 flow_control_frame 0) with 0.
  cbv beta iota.
  rewrite send_consecutive_unlimited;
    [|reflexivity|reflexivity|lia|lia|lia].
  rewrite receive_isotp_silent by reflexivity.
  change (Z.to_nat 6) with 6%nat.
  unfold ff_head. rewrite Hff. cbn. reflexivity.
Qed.

(** What the peer makes of that wire image. *)
Lemma multi_frame_receiver :
  forall p : bytes,
    8 <= len p <= 4095 ->
    let wire := encode_can CAN_ID_REQUEST (ff_head (len p) ++ firstn 6 p)
                ++ cf_wire (Z.to_nat (len p)) 1 (skipn 6 p) in
    snd (_receive_isotp (loopback_receiver wire)) = Ok (Some p)
    /\ tx (port (fst (_receive_isotp (loopback_receiver wire))))
       = encode_can CAN_ID_RESPONSE flow_control_frame.
Proof.
  intros p Hp wire.
  destruct (ff_head_facts (len p)) as (f0 & f1 & Hff & _ & Htype & Hlen);
    [lia|].
  assert (Hfr : len ([f0; f1] ++ firstn 6 p) = 8).
  { rewrite len_app. unfold len. rewrite length_firstn.
    unfold len in Hp. cbn [List.length]. lia. }
  subst wire. rewrite Hff.
  unfold _receive_isotp. unfold_monad.
  cbn [rx_id loopback_receiver new_isotp].
  rewrite (receive_can_frame_encoded CAN_ID_REQUEST 0 0 6 241
             ([f0; f1] ++ firstn 6 p)
             (cf_wire (Z.to_nat (len p)) 1 (skipn 6 p))
             (loopback_receiver
                (encode_can CAN_ID_REQUEST ([f0; f1] ++ firstn 6 p)
                 ++ cf_wire (Z.to_nat (len p)) 1 (skipn 6 p)))
             eq_refl eq_refl Hfr eq_refl).
  cbn [app]. rewrite Htype. cbn [Z.eqb Pos.eqb index nth_error].
  rewrite Hlen.
  change ([48; 0; 0] ++ repeat 0 (Z.to_nat (8 - len [48; 0; 0])))
    with flow_control_frame.
  cbn [tx_id with_rx set_port loopback_receiver new_isotp].
  rewrite send_can_frame_ok; [|reflexivity|reflexivity].
  change (48 :: 0 :: 0 :: repeat 0 (Z.to_nat (8 - len [48; 0; 0])))
    with flow_control_frame.
  assert (Hsl : py_slice (f0 :: f1 :: firstn 6 p) 2 8 = firstn 6 p).
  { change 8 with (2 + 6). rewrite py_slice_from_count by lia.
    change (Z.to_nat 2) with 2%nat. change (Z.to_nat 6) with 6%nat.
    rewrite !skipn_cons, skipn_O.
    apply firstn_all2. rewrite length_firstn. lia. }
  rewrite Hsl.
  assert (Hn : len p = len (firstn 6 p) + len (skipn 6 p))
    by (unfold len; rewrite length_firstn, length_skipn;
        unfold len in Hp; lia).
  set (w := cf_wire (Z.to_nat (len p)) 1 (skipn 6 p)).
  rewrite Hn.
  rewrite (receive_consecutive_wire (Z.to_nat (len p)));
    [| reflexivity | lia
     | rewrite length_skipn; unfold len; lia
     | reflexivity
     | cbn; lia ].
  rewrite firstn_skipn. split; reflexivity.
Qed.

(** C6: for every payload of 1 to 4095 bytes, the frames written by [send]
    (a single frame up to seven bytes, a first frame and consecutive frames
    above, each padded to eight bytes) are reassembled by the receive path of
    the peer into the payload itself; the peer writes exactly the flow
    control that the sender was given. *)
Theorem isotp_loopback_roundtrip :
  forall p : bytes,
    1 <= len p <= 4095 ->
    isotp_loopback p = (Ok (Some p), loopback_flow_control p).
Proof.
  intros p Hp.
  destruct (Z.le_gt_cases (len p) 7) as [Hsmall|Hlarge].
  - destruct p as [|a1 [|a2 [|a3 [|a4 [|a5 [|a6 [|a7 [|a8 p]]]]]]]];
      try (unfold len in *; cbn [List.length] in *; lia);
      vm_compute; reflexivity.
  - unfold isotp_loopback.
    pose proof (multi_frame_sender_wire p) as Hwire.
    destruct (send p (loopback_sender p)) as [a r].
    cbn [fst] in Hwire. rewrite Hwire by lia.
    destruct (multi_frame_receiver p) as [Hr Ht]; [lia|].
    destruct (_receive_isotp _) as [b rb].
    cbn [fst snd] in Hr, Ht. subst rb. rewrite Ht.
    unfold loopback_flow_control.
    replace (len p <=? 7) with false by (symmetry; apply Z.leb_gt; lia).
    reflexivity.
Qed.

Lemma isotp_loopback_roundtrip_witness :
  isotp_loopback [0x36; 0x01; 0xDE; 0xAD; 0xBE; 0xEF; 0x00; 0x11; 0x22; 0x33]
  = (Ok (Some [0x36; 0x01; 0xDE; 0xAD; 0xBE; 0xEF; 0x00; 0x11; 0x22; 0x33]),
     encode_can CAN_ID_RESPONSE flow_control_frame).
Proof.
  apply (isotp_loopback_roundtrip
           [0x36; 0x01; 0xDE; 0xAD; 0xBE; 0xEF; 0x00; 0x11; 0x22; 0x33]).
  vm_compute. split; discriminate.
Defined.

(** *** The loops do not run out of their recursion budget *)

Lemma receive_can_frame_consumes :
  forall (e : option Z) (h h' : ISOTPHandler) (c : Z) (t : bytes),
    _receive_can_frame e h = (h', Ok (Some (c :: t))) ->
    (List.length (rx (port h')) < List.length (rx (port h)))%nat.
Proof.
  intros e h h' c t. unfold _receive_can_frame, serial_read.
  cbn [rx tx is_open].
  destruct (negb (len (firstn (Z.to_nat 5) (rx (port h))) =? 5)) eqn:E5;
    [intro X; inversion X|].
  match goal with
  | |- (if ?cnd then _ else _) = _ -> _ =>
      destruct cnd; [intro X; inversion X|]
  end.
  match goal with
  | |- (if ?cnd then _ else _) = _ -> _ =>
      destruct cnd; intro X; [discriminate|]
  end.
  apply (f_equal fst) in X. cbn [fst] in X. rewrite <- X.
  destruct h as [[r0 t0 o0] ti ri st bs]. cbn [rx port set_port] in *.
  apply negb_false_iff, Z.eqb_eq in E5. unfold len in E5.
  rewrite length_firstn in E5.
  rewrite !length_skipn. lia.
Qed.

Lemma receive_can_frame_returns :
  forall (e : option Z) (h : ISOTPHandler),
    exists h' o, _receive_can_frame e h = (h', Ok o).
Proof.
  intros e h. unfold _receive_can_frame.
  destruct (serial_read 5 (port h)) as [p1 header].
  destruct (negb (len header =? 5)); [eauto|].
  destruct (match e with Some e0 => _ | None => false end); [eauto|].
  destruct (serial_read (nth 4 header 0) p1) as [p2 data].
  destruct (negb (len data =? nth 4 header 0)); eauto.
Qed.

Lemma send_can_frame_in_budget :
  forall (id : Z) (data : bytes) (h h' : ISOTPHandler) (e : exn),
    _send_can_frame id data h = (h', Raise e) -> e <> OutOfFuel.
Proof.
  intros id data h h' e. unfold _send_can_frame, pack_u32, to_bytes, mk_bytes.
  unfold_monad.
  destruct ((0 <=? id) && (id <? 256 ^ Z.of_nat 4));
    [|intro X; inversion X; discriminate].
  destruct (forallb is_byte [len data]); intro X; inversion X; discriminate.
Qed.

(** A step that raised something else than the budget marker. *)
Ltac frame_sent h1 :=
  match goal with
  | |- context [_send_can_frame ?i ?d ?h] =>
      let Es := fresh "Es" in
      let e := fresh "e" in
      destruct (_send_can_frame i d h) as [h1 [?|e]] eqn:Es;
      [|cbn; intro X; inversion X; subst e;
        eapply send_can_frame_in_budget; eauto]
  end.

Lemma receive_consecutive_total :
  forall (fuel : nat) (n : Z) (acc : bytes) (s : Z) (h : ISOTPHandler),
    (List.length (rx (port h)) < fuel)%nat ->
    snd (receive_consecutive fuel n acc s h) <> Raise OutOfFuel.
Proof.
  induction fuel as [|fuel IH]; intros n acc s h Hfuel; [lia|].
  cbn [receive_consecutive].
  destruct (len acc <? n); [|cbn; discriminate].
  unfold_monad.
  destruct (receive_can_frame_returns (Some (rx_id h)) h) as (h' & o & E).
  rewrite E.
  destruct o as [[|c t]|]; try (cbn; discriminate).
  destruct (negb (Z.land c 240 =? 32)); [cbn; discriminate|].
  destruct (negb (Z.land c 15 =? s)); [cbn; discriminate|].
  apply IH. apply receive_can_frame_consumes in E. lia.
Qed.

Lemma receive_isotp_total :
  forall h : ISOTPHandler, snd (_receive_isotp h) <> Raise OutOfFuel.
Proof.
  intro h. unfold _receive_isotp. unfold_monad.
  destruct (receive_can_frame_returns (Some (rx_id h)) h) as (h' & o & E).
  rewrite E.
  destruct o as [[|c t]|]; try (cbn; discriminate).
  destruct (Z.land c 240 =? 0); [cbn; discriminate|].
  destruct (Z.land c 240 =? 16); [|cbn; discriminate].
  unfold index. destruct (nth_error (c :: t) 1); [|cbn; discriminate].
  frame_sent h''.
  apply receive_consecutive_total. lia.
Qed.

Lemma send_consecutive_total :
  forall (fuel : nat) (data : bytes) (s idx : Z) (h : ISOTPHandler),
    (Z.to_nat (len data - idx) <= fuel)%nat ->
    snd (send_consecutive fuel data (len data) s idx h) <> Raise OutOfFuel.
Proof.
  induction fuel as [|fuel IH]; intros data s idx h Hfuel.
  - cbn [send_consecutive].
    replace (idx <? len data) with false by (symmetry; apply Z.ltb_ge; lia).
    cbn. discriminate.
  - cbn [send_consecutive].
    destruct (idx <? len data); [|cbn; discriminate].
    unfold_monad. unfold mk_bytes.
    destruct (forallb is_byte _); [|cbn; discriminate].
    frame_sent h1.
    destruct (negb (block_size h1 =? 0)
              && (Z.land (s + 1) 15 mod block_size h1 =? 0)
              && (idx + 7 <? len data)).
    + destruct (receive_can_frame_returns (Some (rx_id h1)) h1)
        as (h2 & o & E).
      rewrite E.
      destruct (bad_flow_control o); [cbn; discriminate|].
      apply IH. lia.
    + apply IH. lia.
Qed.

(** [send] and [_receive_isotp] always come back with a reply, with [None]
    or with a Python exception: the recursion budget of their loops is never
    used up. *)
Lemma send_total :
  forall (data : bytes) (h : ISOTPHandler),
    snd (send data h) <> Raise OutOfFuel.
Proof.
  intros data h. unfold send.
  destruct (len data <=? 7).
  - unfold _send_single_frame. unfold_monad. unfold mk_bytes.
    destruct (forallb is_byte _); [|cbn; discriminate].
    frame_sent h1.
    apply receive_isotp_total.
  - unfold _send_multi_frame. unfold_monad. unfold mk_bytes.
    destruct (forallb is_byte _); [|cbn; discriminate].
    frame_sent h1.
    destruct (receive_can_frame_returns (Some (rx_id h1)) h1) as (h2 & o & E).
    rewrite E.
    destruct (bad_flow_control o); [cbn; discriminate|].
    match goal with
    | |- context [send_consecutive ?f data (len data) ?s ?i ?hh] =>
        pose proof (send_consecutive_total f data s i hh) as Hc;
        destruct (send_consecutive f data (len data) s i hh)
          as [h3 [[v|]|e]]
    end.
    + cbn. discriminate.
    + apply receive_isotp_total.
    + cbn. intro X. inversion X. subst e. apply Hc; [lia|reflexivity].
Qed.

(** ** Requests dispatched by the orchestrator *)

Lemma from_bytes_be_digits_4 :
  forall v : Z, 0 <= v < 2 ^ 32 -> from_bytes (be_digits 4 v) = v.
Proof.
  intros v Hv. unfold from_bytes, be_digits. cbn [fold_left].
  change (256 ^ Z.of_nat 3) with 16777216.
  change (256 ^ Z.of_nat 2) with 65536.
  change (256 ^ Z.of_nat 1) with 256.
  change (256 ^ Z.of_nat 0) with 1.
  change (2 ^ 32) with 4294967296 in Hv.
  rewrite Z.div_1_r.
  pose proof (Z.div_mod v 256 ltac:(lia)) as H0.
  pose proof (Z.div_mod (v / 256) 256 ltac:(lia)) as H1.
  pose proof (Z.div_mod (v / 256 / 256) 256 ltac:(lia)) as H2.
  rewrite Z.div_div in H1, H2 by lia.
  rewrite Z.div_div in H2 by lia.
  change (256 * 256) with 65536 in *. change (65536 * 256) with 16777216 in *.
  assert (H3 : (v / 16777216) mod 256 = v / 16777216).
  { apply Z.mod_small. split.
    - apply Z.div_pos; lia.
    - apply Z.div_lt_upper_bound; lia. }
  rewrite H3. lia.
Qed.

Lemma to_bytes_4_spec :
  forall (v : Z) (b : bytes),
    to_bytes 4 v = Ok b ->
    List.length b = 4%nat /\ from_bytes b = v /\ 0 <= v < 2 ^ 32.
Proof.
  intros v b. unfold to_bytes.
  destruct ((0 <=? v) && (v <? 256 ^ Z.of_nat 4)) eqn:E; [|discriminate].
  intro X. inversion X; subst. clear X.
  apply andb_true_iff in E. destruct E as [E1 E2].
  apply Z.leb_le in E1. apply Z.ltb_lt in E2.
  change (256 ^ Z.of_nat 4) with (2 ^ 32) in E2.
  split; [reflexivity|]. split; [|lia].
  apply from_bytes_be_digits_4. lia.
Qed.

Section Safe.

Context {L : Type} {LK : Link L}.
Variable connect : M (BMWFlasher L) bool.
Variable p0 : option Protocol.
Variable mm0 : option MemoryMap.
Variable P : bytes -> Prop.

(** Requests of the services that neither write nor erase. *)
Hypothesis P_other :
  forall (sid : Z) (rest : bytes),
    sid <> 0x3D -> sid <> 0x31 -> sid <> 0x34 -> P (sid :: rest).

Lemma extends_refl : forall s : BMWFlasher L, extends P s s.
Proof.
  intro s. repeat split. exists []. rewrite app_nil_r. auto.
Qed.

Lemma extends_trans :
  forall s1 s2 s3 : BMWFlasher L,
    extends P s1 s2 -> extends P s2 s3 -> extends P s1 s3.
Proof.
  intros s1 s2 s3 (Hc1 & Hp1 & Hm1 & n1 & Hs1 & Hf1)
    (Hc2 & Hp2 & Hm2 & n2 & Hs2 & Hf2).
  repeat split; try congruence.
  exists (n1 ++ n2). split.
  - rewrite Hs2, Hs1, app_assoc. reflexivity.
  - apply Forall_app. auto.
Qed.

Lemma safe_ret :
  forall (A : Type) (a : A), @safe_step L A p0 mm0 P (ret a).
Proof. intros A a s s' r _ _ _ E. inversion E. apply extends_refl. Qed.

Lemma safe_raise :
  forall (A : Type) (e : exn), @safe_step L A p0 mm0 P (raise e).
Proof. intros A e s s' r _ _ _ E. inversion E. apply extends_refl. Qed.

Lemma safe_lift :
  forall (A : Type) (x : result A), @safe_step L A p0 mm0 P (lift x).
Proof. intros A x s s' r _ _ _ E. inversion E. apply extends_refl. Qed.

Lemma safe_gets :
  forall (A : Type) (f : BMWFlasher L -> A), safe_step p0 mm0 P (gets f).
Proof. intros A f s s' r _ _ _ E. inversion E. apply extends_refl. Qed.

Lemma safe_modify :
  forall f : BMWFlasher L -> BMWFlasher L,
    (forall s, connected (f s) = connected s /\ protocol (f s) = protocol s
               /\ ecu_memory_map (f s) = ecu_memory_map s
               /\ sent (f s) = sent s) ->
    safe_step p0 mm0 P (modify f).
Proof.
  intros f Hf s s' r _ _ _ E. inversion E. subst.
  destruct (Hf s) as (H1 & H2 & H3 & H4).
  repeat split; auto. exists []. rewrite app_nil_r. auto.
Qed.

Lemma safe_bind :
  forall (A B : Type) (m : M (BMWFlasher L) A) (k : A -> M (BMWFlasher L) B),
    safe_step p0 mm0 P m ->
    (forall a, safe_step p0 mm0 P (k a)) ->
    safe_step p0 mm0 P (bind m k).
Proof.
  intros A B m k Hm Hk s s' r Hc Hp Hmm. unfold bind.
  destruct (m s) as [s1 [a|e]] eqn:E; intro X.
  - pose proof (Hm _ _ _ Hc Hp Hmm E) as H1.
    destruct H1 as (Hc1 & Hp1 & Hm1 & Hrest).
    apply (extends_trans s s1 s').
    + unfold extends. auto.
    + eapply Hk; eauto; congruence.
  - inversion X; subst. eapply Hm; eauto.
Qed.

Lemma catch_on_isotp :
  forall (A : Type) (m : M L A) (l : L) (d : A) (s0 : BMWFlasher L),
    exists l' a, catch (on_isotp l m) d s0 = (set_isotp (Some l') s0, Ok a).
Proof.
  intros. unfold catch, on_isotp. destruct (m l) as [l' [a|e]]; eauto.
Qed.

(** What a dispatcher call leaves behind. *)
Lemma uds_command_cases :
  forall (sid : Z) (data : list Z) (s : BMWFlasher L),
    _send_uds_command sid data s = (s, Ok None)
    \/ _send_uds_command sid data s = (s, Raise ValueError)
    \/ exists l' o,
         _send_uds_command sid data s
         = (set_isotp (Some l') (log_request (sid :: data) s), Ok o).
Proof.
  intros sid data s. unfold _send_uds_command.
  unfold bind, gets, lift, modify, ret, mk_bytes.
  destruct (isotp s) as [l|]; [|auto].
  destruct (forallb is_byte (sid :: data)); [|auto].
  right. right.
  match goal with
  | |- context [catch (on_isotp ?l ?m) ?d ?s0] =>
      destruct (catch_on_isotp _ m l d s0) as (l' & a & Heq); rewrite Heq
  end.
  eauto.
Qed.

Lemma kwp_command_cases :
  forall (sid : Z) (data : list Z) (s : BMWFlasher L),
    _send_kwp_command sid data s = (s, Ok None)
    \/ _send_kwp_command sid data s = (s, Raise ValueError)
    \/ exists l' o,
         _send_kwp_command sid data s
         = (set_isotp (Some l') (log_request (sid :: data) s), Ok o).
Proof.
  intros sid data s. unfold _send_kwp_command.
  unfold bind, gets, lift, modify, ret, mk_bytes.
  destruct (isotp s) as [l|]; [|auto].
  destruct (forallb is_byte (sid :: data)); [|auto].
  right. right.
  match goal with
  | |- context [catch (on_isotp ?l ?m) ?d ?s0] =>
      destruct (catch_on_isotp _ m l d s0) as (l' & a & Heq); rewrite Heq
  end.
  eauto.
Qed.

Lemma safe_uds :
  forall (sid : Z) (data : list Z),
    P (sid :: data) -> safe_step p0 mm0 P (_send_uds_command sid data).
Proof.
  intros sid data HP s s' r _ _ _ E.
  destruct (uds_command_cases sid data s) as [H|[H|(l' & o & H)]];
    rewrite H in E; inversion E; subst; try apply extends_refl.
  repeat split. exists [sid :: data]. split; [reflexivity|auto].
Qed.

Lemma safe_kwp :
  forall (sid : Z) (data : list Z),
    P (sid :: data) -> safe_step p0 mm0 P (_send_kwp_command sid data).
Proof.
  intros sid data HP s s' r _ _ _ E.
  destruct (kwp_command_cases sid data s) as [H|[H|(l' & o & H)]];
    rewrite H in E; inversion E; subst; try apply extends_refl.
  repeat split. exists [sid :: data]. split; [reflexivity|auto].
Qed.

Lemma safe_cannot_connect : safe_step p0 mm0 P (cannot_connect connect).
Proof.
  intros s s' r Hc _ _ E. unfold cannot_connect in E. unfold_monad.
  rewrite Hc in E. inversion E. apply extends_refl.
Qed.

Ltac safe :=
  repeat first
    [ apply safe_ret | apply safe_raise | apply safe_lift | apply safe_gets
    | apply safe_cannot_connect
    | apply safe_modify; intros ?; repeat split
    | apply safe_uds; apply P_other; unfold UDS_TESTER_PRESENT,
        UDS_DIAGNOSTIC_SESSION_CONTROL, UDS_SECURITY_ACCESS,
        UDS_READ_MEMORY_BY_ADDRESS, UDS_TRANSFER_DATA,
        UDS_REQUEST_TRANSFER_EXIT; lia
    | apply safe_kwp; apply P_other; unfold KWP_TESTER_PRESENT,
        KWP_START_DIAGNOSTIC_SESSION, KWP_SECURITY_ACCESS,
        KWP_READ_MEMORY_BY_ADDRESS; lia
    | apply safe_bind; [|intros ?]
    | match goal with
      | |- safe_step _ _ _ (if ?c then _ else _) => destruct c
      | |- safe_step _ _ _ (match ?x with _ => _ end) => destruct x
      end ].

Lemma safe_tester_present : safe_step p0 mm0 P tester_present.
Proof. unfold tester_present. safe. Qed.

Lemma safe_keep_alive : forall offset, safe_step p0 mm0 P (keep_alive offset).
Proof. intro. unfold keep_alive. safe. Qed.

Lemma safe_read_memory :
  forall address size, safe_step p0 mm0 P (_read_memory address size).
Proof. intros. unfold _read_memory. safe. Qed.

Lemma safe_enter_programming_session :
  safe_step p0 mm0 P (enter_programming_session connect).
Proof. unfold enter_programming_session. safe. Qed.

Lemma safe_cannot_program : safe_step p0 mm0 P (cannot_program connect).
Proof.
  unfold cannot_program. safe.
Qed.

Lemma safe_security_access : safe_step p0 mm0 P (security_access connect).
Proof.
  unfold security_access, seed_key_exchange. safe.
Qed.

Lemma safe_for_each :
  forall (A R : Type) (xs : list A) (f : A -> M (BMWFlasher L) (option R)),
    (forall x, In x xs -> safe_step p0 mm0 P (f x)) ->
    safe_step p0 mm0 P (for_each xs f).
Proof.
  induction xs as [|x xs IH]; intros f Hf; cbn [for_each].
  - apply safe_ret.
  - apply safe_bind; [apply Hf; left; reflexivity|].
    intros [v|]; [apply safe_ret|].
    apply IH. intros y Hy. apply Hf. right. exact Hy.
Qed.

Lemma safe_for_all :
  forall (A : Type) (xs : list A) (f : A -> M (BMWFlasher L) unit),
    (forall x, In x xs -> safe_step p0 mm0 P (f x)) ->
    safe_step p0 mm0 P (for_all xs f).
Proof.
  induction xs as [|x xs IH]; intros f Hf; cbn [for_all].
  - apply safe_ret.
  - apply safe_bind; [apply Hf; left; reflexivity|].
    intros _. apply IH. intros y Hy. apply Hf. right. exact Hy.
Qed.

Lemma safe_verify_flash :
  forall flash_data, safe_step p0 mm0 P (_verify_flash flash_data).
Proof.
  intro flash_data. unfold _verify_flash. safe.
  apply safe_for_each. intros sec _.
  unfold verify_sector. safe.
  apply safe_for_each. intros offset _.
  unfold verify_block. safe. apply safe_keep_alive.
Qed.

Lemma safe_transfer_blocks :
  forall offsets data bs counter,
    safe_step p0 mm0 P (transfer_blocks offsets data bs counter).
Proof.
  induction offsets as [|i offsets IH]; intros data bs counter;
    cbn [transfer_blocks]; safe. apply IH.
Qed.

End Safe.

(** *** Shape of [range] and of the sector image *)

Lemma py_range_bounds :
  forall (n bs : Z) (offsets : list Z) (o : Z),
    py_range n bs = Ok offsets -> In o offsets -> 0 <= o < n /\ 0 < bs.
Proof.
  intros n bs offsets o. unfold py_range.
  destruct (bs =? 0) eqn:E0; [discriminate|].
  destruct ((bs <? 0) || (n <=? 0)) eqn:E1.
  - intro X. inversion X. subst. intros [].
  - intro X. inversion X. subst. clear X.
    apply orb_false_iff in E1. destruct E1 as [E1 E2].
    apply Z.eqb_neq in E0. apply Z.ltb_ge in E1. apply Z.leb_gt in E2.
    intro Hin. apply in_map_iff in Hin. destruct Hin as (i & Ho & Hi).
    apply in_seq in Hi. subst o.
    assert (Hbs : 0 < bs) by lia.
    pose proof (Z.mul_div_le (n + bs - 1) bs Hbs) as Hd.
    assert (Hk : 0 <= (n + bs - 1) / bs) by (apply Z.div_pos; lia).
    split; [|lia]. split; [lia|].
    assert (Hi' : Z.of_nat i + 1 <= (n + bs - 1) / bs) by lia.
    nia.
Qed.

Lemma len_py_slice_block :
  forall (d : bytes) (o bs : Z),
    0 <= o < len d -> 0 < bs ->
    0 < len (py_slice d o (o + bs)) <= len d - o.
Proof.
  intros d o bs Ho Hbs. rewrite py_slice_from_count by lia.
  unfold len in *. rewrite length_firstn, length_skipn. lia.
Qed.

Lemma len_sector_image :
  forall (mm : MemoryMap) (flash_data : bytes) (sec : Sector),
    flash_start mm <= start sec -> 0 <= size sec ->
    start sec - flash_start mm < len flash_data ->
    len (sector_image mm flash_data sec) = size sec.
Proof.
  intros mm fd sec Hs Hz Hlt. unfold sector_image.
  set (ds := start sec - flash_start mm) in *.
  set (sl := py_slice fd ds (Z.min (ds + size sec) (len fd))).
  assert (Hsl : len sl <= size sec).
  { subst sl.
    replace (Z.min (ds + size sec) (len fd))
      with (ds + (Z.min (ds + size sec) (len fd) - ds)) by lia.
    rewrite py_slice_from_count by lia.
    unfold len in *. rewrite length_firstn, length_skipn. lia. }
  destruct (len sl <? size sec) eqn:E.
  - rewrite len_app. unfold len at 2. rewrite repeat_length.
    pose proof (len_nonneg sl). lia.
  - apply Z.ltb_ge in E. lia.
Qed.

(** *** Sectors of a well-formed map *)

Lemma ascending_head :
  forall (tl : list Sector) (a b : Sector),
    ascending (a :: tl) = true ->
    (forall s, In s tl -> 0 <= size s) ->
    In b tl -> start a + size a <= start b.
Proof.
  induction tl as [|y tl IH]; intros a b Hasc Hsz Hin; [destruct Hin|].
  cbn [ascending] in Hasc. apply andb_true_iff in Hasc.
  destruct Hasc as [H1 H2]. apply Z.leb_le in H1.
  destruct Hin as [->|Hin]; [exact H1|].
  assert (start y + size y <= start b).
  { apply IH; auto. intros s Hs. apply Hsz. right. exact Hs. }
  assert (0 <= size y) by (apply Hsz; left; reflexivity).
  lia.
Qed.

Lemma ascending_tail :
  forall (a : Sector) (tl : list Sector),
    ascending (a :: tl) = true -> ascending tl = true.
Proof.
  intros a [|b tl] H; [reflexivity|].
  cbn [ascending] in H. apply andb_true_iff in H. tauto.
Qed.

Lemma ascending_disjoint :
  forall (ss : list Sector) (a b : Sector),
    ascending ss = true ->
    (forall s, In s ss -> 0 <= size s) ->
    In a ss -> In b ss ->
    a = b \/ start a + size a <= start b \/ start b + size b <= start a.
Proof.
  induction ss as [|x ss IH]; intros a b Hasc Hsz Ha Hb; [destruct Ha|].
  assert (Hsz' : forall s, In s ss -> 0 <= size s)
    by (intros s Hs; apply Hsz; right; exact Hs).
  destruct Ha as [->|Ha]; destruct Hb as [->|Hb].
  - left. reflexivity.
  - right. left. eapply ascending_head; eauto.
  - right. right. eapply ascending_head; eauto.
  - apply IH; auto. eapply ascending_tail; eauto.
Qed.

Lemma well_formed_sector :
  forall (mm : MemoryMap) (sec : Sector),
    well_formed mm = true -> In sec (sectors mm) ->
    flash_start mm <= start sec /\ 0 < size sec.
Proof.
  intros mm sec Hwf Hin. unfold well_formed in Hwf.
  apply andb_true_iff in Hwf. destruct Hwf as [Hall _].
  rewrite forallb_forall in Hall. specialize (Hall sec Hin).
  unfold sector_ok in Hall.
  apply andb_true_iff in Hall. destruct Hall as [Hall _].
  apply andb_true_iff in Hall. destruct Hall as [H1 H2].
  apply Z.leb_le in H1. apply Z.ltb_lt in H2. auto.
Qed.

Lemma well_formed_disjoint :
  forall (mm : MemoryMap) (a b : Sector),
    well_formed mm = true -> In a (sectors mm) -> In b (sectors mm) ->
    a = b \/ start a + size a <= start b \/ start b + size b <= start a.
Proof.
  intros mm a b Hwf Ha Hb.
  apply (ascending_disjoint (sectors mm)); auto.
  - unfold well_formed in Hwf. apply andb_true_iff in Hwf. tauto.
  - intros s Hs. destruct (well_formed_sector mm s Hwf Hs). lia.
Qed.

(** Every map that [_get_memory_map] can select is well formed. *)
Lemma registry_well_formed :
  forall ecu_type : option string,
    well_formed (_get_memory_map ecu_type) = true.
Proof.
  intros [t|]; [|reflexivity].
  unfold _get_memory_map, ECU_MEMORY_MAPS. cbn [dict_get].
  repeat match goal with
         | |- context [String.eqb ?a ?b] => destruct (String.eqb a b)
         end; reflexivity.
Qed.

(** *** Ranges of the write and erase requests *)

Ltac four_bytes b H :=
  destruct b as [|? [|? [|? [|? [|? ?]]]]]; try discriminate H.

Lemma range_kwp_erase :
  forall ab sb : bytes,
    List.length ab = 4%nat -> List.length sb = 4%nat ->
    request_range true (0x31 :: [0x00] ++ ab ++ sb)
    = Some (from_bytes ab, from_bytes sb).
Proof.
  intros ab sb Ha Hs. four_bytes ab Ha. four_bytes sb Hs. reflexivity.
Qed.

Lemma range_uds_erase :
  forall ab sb : bytes,
    List.length ab = 4%nat -> List.length sb = 4%nat ->
    request_range false
      (UDS_ROUTINE_CONTROL :: [0x01] ++ [0xFF; 0x02] ++ ab ++ sb)
    = Some (from_bytes ab, from_bytes sb).
Proof.
  intros ab sb Ha Hs. four_bytes ab Ha. four_bytes sb Hs. reflexivity.
Qed.

Lemma range_kwp_write :
  forall ab data : bytes,
    List.length ab = 4%nat ->
    request_range true (KWP_WRITE_MEMORY_BY_ADDRESS :: ab ++ data)
    = Some (from_bytes ab, len data).
Proof.
  intros ab data Ha. four_bytes ab Ha. reflexivity.
Qed.

Lemma range_uds_download :
  forall ab sb : bytes,
    List.length ab = 4%nat -> List.length sb = 4%nat ->
    request_range false
      (UDS_REQUEST_DOWNLOAD :: [0x00; 0x24] ++ ab ++ [0x24] ++ sb)
    = Some (from_bytes ab, from_bytes sb).
Proof.
  intros ab sb Ha Hs. four_bytes ab Ha. four_bytes sb Hs. reflexivity.
Qed.

(** *** No request reaches a protected sector *)

Section Protected.

Context {L : Type} {LK : Link L}.
Variable connect : M (BMWFlasher L) bool.
Variable p0 : option Protocol.
Variable mm : MemoryMap.
Hypothesis Hwf : well_formed mm = true.

Local Abbreviation P := (in_writable_sector (is_kwp p0) mm).
Local Abbreviation safe := (@safe_step L _ p0 (Some mm) P).

Lemma harmless :
  forall (sid : Z) (rest : bytes),
    sid <> 0x3D -> sid <> 0x31 -> sid <> 0x34 -> P (sid :: rest).
Proof.
  intros sid rest H1 H2 H3 a n. unfold request_range.
  apply Z.eqb_neq in H1, H2, H3. rewrite H1, H2, H3.
  destruct (is_kwp p0); discriminate.
Qed.

Lemma safe_with_protocol :
  forall (A : Type) (k : option Protocol -> M (BMWFlasher L) A),
    safe (k p0) -> safe (bind (gets protocol) k).
Proof.
  intros A k Hk s s' r Hc Hp Hm E. unfold bind, gets in E.
  rewrite Hp in E. eapply Hk; eauto.
Qed.

Lemma safe_with_map :
  forall (A : Type) (k : option MemoryMap -> M (BMWFlasher L) A),
    safe (k (Some mm)) -> safe (bind (gets ecu_memory_map) k).
Proof.
  intros A k Hk s s' r Hc Hp Hm E. unfold bind, gets in E.
  rewrite Hm in E. eapply Hk; eauto.
Qed.

Lemma safe_lift_bind :
  forall (A B : Type) (x : result A) (k : A -> M (BMWFlasher L) B),
    (forall a, x = Ok a -> safe (k a)) -> safe (bind (lift x) k).
Proof.
  intros A B x k Hk s s' r Hc Hp Hm E. unfold bind, lift in E.
  destruct x as [a|e].
  - eapply Hk; eauto.
  - inversion E. apply extends_refl.
Qed.

Lemma safe_if_kwp :
  forall (A : Type) (a b : M (BMWFlasher L) A),
    (is_kwp p0 = true -> safe a) -> (is_kwp p0 = false -> safe b) ->
    safe (if is_kwp p0 then a else b).
Proof.
  intros A a b Ha Hb s s' r Hc Hp Hm E.
  assert (Hcase : is_kwp p0 = true \/ is_kwp p0 = false)
    by (destruct (is_kwp p0); auto).
  destruct Hcase as [Hk|Hk]; rewrite Hk in E;
    [eapply Ha|eapply Hb]; eauto.
Qed.

Lemma erase_request_writable :
  forall (sec : Sector) (ab sb : bytes),
    In sec (sectors mm) -> protected sec = false ->
    to_bytes 4 (start sec) = Ok ab -> to_bytes 4 (size sec) = Ok sb ->
    (is_kwp p0 = true -> P (0x31 :: [0x00] ++ ab ++ sb))
    /\ (is_kwp p0 = false ->
        P (UDS_ROUTINE_CONTROL :: [0x01] ++ [0xFF; 0x02] ++ ab ++ sb)).
Proof.
  intros sec ab sb Hin Hprot Ha Hs.
  destruct (to_bytes_4_spec _ _ Ha) as (Hla & Hva & _).
  destruct (to_bytes_4_spec _ _ Hs) as (Hls & Hvs & _).
  destruct (well_formed_sector mm sec Hwf Hin) as [_ Hpos].
  split; intros Hk a n; rewrite Hk;
    [rewrite range_kwp_erase by assumption
    |rewrite range_uds_erase by assumption];
    rewrite Hva, Hvs; intro X; inversion X; subst;
    exists sec; repeat split; auto; lia.
Qed.

Lemma write_request_writable :
  forall (sec : Sector) (address : Z) (data ab : bytes),
    In sec (sectors mm) -> protected sec = false ->
    start sec <= address -> 0 < len data ->
    address + len data <= start sec + size sec ->
    to_bytes 4 address = Ok ab ->
    (is_kwp p0 = true -> P (KWP_WRITE_MEMORY_BY_ADDRESS :: ab ++ data))
    /\ (forall sb, to_bytes 4 (len data) = Ok sb ->
                   is_kwp p0 = false ->
                   P (UDS_REQUEST_DOWNLOAD
                        :: [0x00; 0x24] ++ ab ++ [0x24] ++ sb)).
Proof.
  intros sec address data ab Hin Hprot Hlo Hpos Hhi Ha.
  destruct (to_bytes_4_spec _ _ Ha) as (Hla & Hva & _).
  split.
  - intros Hk a n. rewrite Hk, range_kwp_write by assumption. rewrite Hva.
    intro X. inversion X. subst. exists sec. repeat split; auto; lia.
  - intros sb Hs Hk a n.
    destruct (to_bytes_4_spec _ _ Hs) as (Hls & Hvs & _).
    rewrite Hk, range_uds_download by assumption. rewrite Hva, Hvs.
    intro X. inversion X. subst. exists sec. repeat split; auto; lia.
Qed.

Lemma safe_erase :
  forall sec : Sector,
    In sec (sectors mm) -> protected sec = false ->
    safe (_erase_memory_sector (start sec) (size sec)).
Proof.
  intros sec Hin Hprot. unfold _erase_memory_sector.
  apply safe_with_protocol.
  apply safe_if_kwp; intro Hk.
  - apply safe_lift_bind. intros ab Ha.
    apply safe_lift_bind. intros sb Hs.
    apply safe_bind.
    + apply safe_kwp.
      apply (erase_request_writable sec ab sb Hin Hprot Ha Hs). exact Hk.
    + intros response. destruct (not_positive response 49); apply safe_ret.
  - apply safe_lift_bind. intros rb Hr.
    vm_compute in Hr. inversion Hr. subst rb. clear Hr.
    apply safe_lift_bind. intros ab Ha.
    apply safe_lift_bind. intros sb Hs.
    apply safe_bind.
    + apply safe_uds.
      apply (erase_request_writable sec ab sb Hin Hprot Ha Hs); auto.
    + intros response.
      destruct (not_positive response UDS_ROUTINE_CONTROL); apply safe_ret.
Qed.

Lemma safe_write :
  forall (sec : Sector) (address : Z) (data : bytes),
    In sec (sectors mm) -> protected sec = false ->
    start sec <= address -> 0 < len data ->
    address + len data <= start sec + size sec ->
    safe (_write_memory address data).
Proof.
  intros sec address data Hin Hprot Hlo Hpos Hhi. unfold _write_memory.
  apply safe_with_protocol.
  apply safe_if_kwp; intro Hk.
  - apply safe_lift_bind. intros ab Ha.
    apply safe_bind.
    + apply safe_kwp.
      apply (write_request_writable sec address data ab); auto.
    + intros response.
      destruct (not_positive response KWP_WRITE_MEMORY_BY_ADDRESS);
        apply safe_ret.
  - apply safe_lift_bind. intros ab Ha.
    apply safe_lift_bind. intros sb Hs.
    apply safe_bind.
    + apply safe_uds.
      apply (write_request_writable sec address data ab); auto.
    + intros response.
      destruct (not_positive response UDS_REQUEST_DOWNLOAD);
        [apply safe_ret|].
      apply safe_bind; [apply safe_lift|]. intros offsets.
      apply safe_bind; [apply safe_transfer_blocks; apply harmless|].
      intros ok. destruct (negb ok); [apply safe_ret|].
      apply safe_bind.
      * apply safe_uds. apply harmless; unfold UDS_REQUEST_TRANSFER_EXIT; lia.
      * intros response'.
        destruct (not_positive response' UDS_REQUEST_TRANSFER_EXIT);
          apply safe_ret.
Qed.

Lemma safe_flash_sector :
  forall (flash_data : bytes) (sec : Sector),
    In sec (sectors mm) -> safe (flash_sector mm flash_data sec).
Proof.
  intros flash_data sec Hin. unfold flash_sector.
  destruct (protected sec) eqn:Hprot; [apply safe_ret|].
  destruct (start sec - flash_start mm >=? len flash_data) eqn:Hreach;
    [apply safe_ret|].
  destruct (well_formed_sector mm sec Hwf Hin) as [Hstart Hsize].
  assert (Hlen : len (sector_image mm flash_data sec) = size sec).
  { apply len_sector_image; lia. }
  apply safe_bind.
  - destruct (erase_required mm); [apply safe_erase; auto|apply safe_ret].
  - intros erased. destruct (negb erased); [apply safe_raise|].
    apply safe_lift_bind. intros offsets Hoff.
    apply safe_for_all. intros offset Ho.
    destruct (py_range_bounds _ _ _ _ Hoff Ho) as [Hob Hbs].
    pose proof (len_py_slice_block (sector_image mm flash_data sec)
                  offset (transfer_size mm) Hob Hbs) as Hblock.
    unfold flash_block.
    apply safe_bind.
    + apply (safe_write sec); auto; lia.
    + intros ok. destruct (negb ok); [apply safe_raise|].
      apply safe_keep_alive. apply harmless.
Qed.

Lemma safe_flash_body :
  forall flash_data : bytes,
    safe (no <- cannot_program connect ;;
          if no then raise (RuntimeError "Could not enter programming session")
          else
            lvl <- gets security_level ;;
            ok <- (if lvl <? SECURITY_LEVEL_PROGRAMMING
                   then security_access connect else ret true) ;;
            if negb ok
            then raise (RuntimeError "Could not get security access")
            else
              mmo <- gets ecu_memory_map ;;
              match mmo with
              | None => raise AttributeError
              | Some mm =>
                  if len flash_data >? flash_size mm then raise ValueError
                  else
                    for_all (sectors mm) (flash_sector mm flash_data) ;;;
                    ok <- _verify_flash flash_data ;;
                    if negb ok
                    then raise (RuntimeError "Flash verification failed")
                    else ret true
              end).
Proof.
  intro flash_data.
  apply safe_bind; [apply safe_cannot_program; apply harmless|].
  intros no. destruct no; [apply safe_raise|].
  apply safe_bind; [apply safe_gets|]. intros lvl.
  apply safe_bind.
  - destruct (lvl <? SECURITY_LEVEL_PROGRAMMING);
      [apply safe_security_access; apply harmless|apply safe_ret].
  - intros ok. destruct (negb ok); [apply safe_raise|].
    apply safe_with_map.
    destruct (len flash_data >? flash_size mm); [apply safe_raise|].
    apply safe_bind.
    + apply safe_for_all. intros sec Hin. apply safe_flash_sector. exact Hin.
    + intros _. apply safe_bind; [apply safe_verify_flash; apply harmless|].
      intros ok'. destruct (negb ok'); [apply safe_raise|apply safe_ret].
Qed.

End Protected.



(** ** Traces of the transfer *)

Section Traces.

Context {L : Type} {LK : Link L}.

Lemma grows_ret : forall (A : Type) (a : A), @grows L A (ret a).
Proof.
  intros A a s s' r E. inversion E. split; [reflexivity|].
  exists []. symmetry. apply app_nil_r.
Qed.

Lemma grows_raise : forall (A : Type) (e : exn), @grows L A (raise e).
Proof.
  intros A e s s' r E. inversion E. split; [reflexivity|].
  exists []. symmetry. apply app_nil_r.
Qed.

Lemma grows_lift : forall (A : Type) (x : result A), @grows L A (lift x).
Proof.
  intros A x s s' r E. inversion E. split; [reflexivity|].
  exists []. symmetry. apply app_nil_r.
Qed.

Lemma grows_gets :
  forall (A : Type) (f : BMWFlasher L -> A), grows (gets f).
Proof.
  intros A f s s' r E. inversion E. split; [reflexivity|].
  exists []. symmetry. apply app_nil_r.
Qed.

Lemma grows_bind :
  forall (A B : Type) (m : M (BMWFlasher L) A) (k : A -> M (BMWFlasher L) B),
    grows m -> (forall a, grows (k a)) -> grows (bind m k).
Proof.
  intros A B m k Hm Hk s s' r. unfold bind.
  destruct (m s) as [s1 [a|e]] eqn:E; intro X.
  - destruct (Hm _ _ _ E) as (Hp1 & m1 & Hs1).
    destruct (Hk a _ _ _ X) as (Hp2 & m2 & Hs2).
    split; [congruence|].
    exists (m1 ++ m2). rewrite Hs2, Hs1, app_assoc. reflexivity.
  - inversion X; subst. eapply Hm; eauto.
Qed.

Lemma grows_uds :
  forall (sid : Z) (data : list Z), grows (_send_uds_command sid data).
Proof.
  intros sid data s s' r E.
  destruct (uds_command_cases sid data s) as [H|[H|(l' & o & H)]];
    rewrite H in E; inversion E; subst;
    (split; [reflexivity|]);
    [exists []|exists []|exists [sid :: data]];
    cbn; rewrite ?app_nil_r; reflexivity.
Qed.

Lemma grows_kwp :
  forall (sid : Z) (data : list Z), grows (_send_kwp_command sid data).
Proof.
  intros sid data s s' r E.
  destruct (kwp_command_cases sid data s) as [H|[H|(l' & o & H)]];
    rewrite H in E; inversion E; subst;
    (split; [reflexivity|]);
    [exists []|exists []|exists [sid :: data]];
    cbn; rewrite ?app_nil_r; reflexivity.
Qed.

Lemma grows_for_all :
  forall (A : Type) (xs : list A) (f : A -> M (BMWFlasher L) unit),
    (forall x, grows (f x)) -> grows (for_all xs f).
Proof.
  induction xs as [|x xs IH]; intros f Hf; cbn [for_all].
  - apply grows_ret.
  - apply grows_bind; [apply Hf|]. intros _. apply IH. exact Hf.
Qed.

Ltac grow :=
  repeat first
    [ apply grows_ret | apply grows_raise | apply grows_lift
    | apply grows_gets | apply grows_uds | apply grows_kwp
    | apply grows_bind; [|intros ?]
    | apply grows_for_all; intros ?
    | match goal with
      | |- grows (if ?c then _ else _) => destruct c
      | |- grows (match ?x with _ => _ end) => destruct x
      end ].

Lemma grows_keep_alive : forall offset : Z, @grows L _ (keep_alive offset).
Proof. intro. unfold keep_alive, tester_present. grow. Qed.

Lemma grows_transfer_blocks :
  forall offsets data bs counter,
    @grows L _ (transfer_blocks offsets data bs counter).
Proof.
  induction offsets as [|i offsets IH]; intros data bs counter;
    cbn [transfer_blocks]; grow. apply IH.
Qed.

Lemma grows_write_memory :
  forall address data, @grows L _ (_write_memory address data).
Proof.
  intros. unfold _write_memory. grow. apply grows_transfer_blocks.
Qed.

Lemma grows_flash_block :
  forall sector_start sector_data bs offset,
    @grows L _ (flash_block sector_start sector_data bs offset).
Proof.
  intros. unfold flash_block.
  apply grows_bind; [apply grows_write_memory|].
  intros ok. destruct (negb ok); [apply grows_raise|apply grows_keep_alive].
Qed.

(** A dispatcher call that comes back with a reply has put its request on
    the trace and kept the dialect. *)
Lemma uds_answered :
  forall (sid : Z) (data : list Z) (s s' : BMWFlasher L) (o : option bytes),
    _send_uds_command sid data s = (s', Ok o) ->
    falsy o = false ->
    sent s' = sent s ++ [sid :: data] /\ protocol s' = protocol s.
Proof.
  intros sid data s s' o E Ho.
  destruct (uds_command_cases sid data s) as [H|[H|(l' & o' & H)]];
    rewrite H in E; inversion E; subst; try discriminate.
  split; reflexivity.
Qed.

Lemma kwp_answered :
  forall (sid : Z) (data : list Z) (s s' : BMWFlasher L) (o : option bytes),
    _send_kwp_command sid data s = (s', Ok o) ->
    falsy o = false ->
    sent s' = sent s ++ [sid :: data] /\ protocol s' = protocol s.
Proof.
  intros sid data s s' o E Ho.
  destruct (kwp_command_cases sid data s) as [H|[H|(l' & o' & H)]];
    rewrite H in E; inversion E; subst; try discriminate.
  split; reflexivity.
Qed.

Lemma positive_not_falsy :
  forall (o : option bytes) (sid : Z),
    not_positive o sid = false -> falsy o = false.
Proof. intros [[|r0 r]|] sid H; cbn in *; congruence. Qed.

End Traces.

(** ** Erasing before writing *)

Lemma be_digits_bytes :
  forall (n : nat) (v : Z), forallb is_byte (be_digits n v) = true.
Proof.
  induction n as [|n IH]; intro v; [reflexivity|].
  cbn [be_digits forallb]. rewrite IH, andb_true_r. unfold is_byte.
  pose proof (Z.mod_pos_bound (v / 256 ^ Z.of_nat n) 256 ltac:(lia)) as Hb.
  apply andb_true_iff. split; [apply Z.leb_le|apply Z.ltb_lt]; lia.
Qed.

Lemma to_bytes_bytes :
  forall (n : nat) (v : Z) (b : bytes),
    to_bytes n v = Ok b -> forallb is_byte b = true.
Proof.
  intros n v b. unfold to_bytes.
  destruct ((0 <=? v) && (v <? 256 ^ Z.of_nat n)); [|discriminate].
  intro X. inversion X. apply be_digits_bytes.
Qed.

Section Erase.

Context {L : Type} {LK : Link L}.

Lemma uds_dispatched :
  forall (sid : Z) (data : list Z) (s : BMWFlasher L),
    isotp s <> None -> forallb is_byte (sid :: data) = true ->
    exists l' o,
      _send_uds_command sid data s
      = (set_isotp (Some l') (log_request (sid :: data) s), Ok o).
Proof.
  intros sid data s Hl Hb. unfold _send_uds_command.
  unfold bind, gets, lift, modify, ret, mk_bytes.
  destruct (isotp s) as [l|]; [|contradiction]. rewrite Hb.
  match goal with
  | |- context [catch (on_isotp ?l ?m) ?d ?s0] =>
      destruct (catch_on_isotp _ m l d s0) as (l' & a & Heq); rewrite Heq
  end.
  eauto.
Qed.

Lemma kwp_dispatched :
  forall (sid : Z) (data : list Z) (s : BMWFlasher L),
    isotp s <> None -> forallb is_byte (sid :: data) = true ->
    exists l' o,
      _send_kwp_command sid data s
      = (set_isotp (Some l') (log_request (sid :: data) s), Ok o).
Proof.
  intros sid data s Hl Hb. unfold _send_kwp_command.
  unfold bind, gets, lift, modify, ret, mk_bytes.
  destruct (isotp s) as [l|]; [|contradiction]. rewrite Hb.
  match goal with
  | |- context [catch (on_isotp ?l ?m) ?d ?s0] =>
      destruct (catch_on_isotp _ m l d s0) as (l' & a & Heq); rewrite Heq
  end.
  eauto.
Qed.

(** The erase request of the dialect goes out, and [_erase_memory_sector]
    reports whether the reply to it is positive. *)
Lemma erase_run :
  forall (address size : Z) (s : BMWFlasher L) (ab sb : bytes),
    isotp s <> None ->
    to_bytes 4 address = Ok ab -> to_bytes 4 size = Ok sb ->
    exists s1 response,
      (if is_kwp (protocol s)
       then _send_kwp_command 0x31 (0x00 :: ab ++ sb) s
       else _send_uds_command UDS_ROUTINE_CONTROL
              (0x01 :: 0xFF :: 0x02 :: ab ++ sb) s)
      = (s1, Ok response)
      /\ sent s1 = sent s ++ [erase_request (is_kwp (protocol s)) ab sb]
      /\ protocol s1 = protocol s
      /\ _erase_memory_sector address size s
         = (s1, Ok (negb (not_positive response 0x31))).
Proof.
  intros address size s ab sb Hl Ha Hs.
  assert (Hb : forallb is_byte (ab ++ sb) = true).
  { rewrite forallb_app, (to_bytes_bytes _ _ _ Ha), (to_bytes_bytes _ _ _ Hs).
    reflexivity. }
  unfold _erase_memory_sector, erase_request.
  unfold bind at 1. unfold gets at 1.
  destruct (is_kwp (protocol s)) eqn:Hk.
  - destruct (kwp_dispatched 0x31 (0x00 :: ab ++ sb) s Hl) as (l' & o & Hd).
    { cbn [forallb]. rewrite Hb. reflexivity. }
    exists (set_isotp (Some l') (log_request (0x31 :: 0x00 :: ab ++ sb) s)), o.
    split; [exact Hd|]. split; [reflexivity|]. split; [reflexivity|].
    unfold bind, lift. rewrite Ha, Hs. cbn [app]. rewrite Hd.
    destruct (not_positive o 49); reflexivity.
  - destruct (uds_dispatched UDS_ROUTINE_CONTROL
                (0x01 :: 0xFF :: 0x02 :: ab ++ sb) s Hl) as (l' & o & Hd).
    { cbn [forallb]. rewrite Hb. reflexivity. }
    exists (set_isotp (Some l')
              (log_request
                 (UDS_ROUTINE_CONTROL :: 0x01 :: 0xFF :: 0x02 :: ab ++ sb) s)),
      o.
    split; [exact Hd|]. split; [reflexivity|]. split; [reflexivity|].
    unfold bind, lift.
    change (to_bytes 2 ROUTINE_ERASE_MEMORY_SECTOR) with (Ok [0xFF; 0x02]).
    rewrite Ha, Hs. cbn [app]. rewrite Hd.
    destruct (not_positive o UDS_ROUTINE_CONTROL) eqn:E;
      unfold UDS_ROUTINE_CONTROL in E; rewrite E; reflexivity.
Qed.

End Erase.

(** C3 as stated fails in the KWP2000 dialect: the erase request of the
    first writable sector of the MSD80 map carries the one-byte routine 0x00,
    not the routine 0xFF02 that the UDS dialect sends. *)
Lemma kwp_erase_uses_routine_zero :
  let kwp := unlocked_flasher tt KWP2000 MSD80_MAP in
  let uds := unlocked_flasher tt UDS MSD80_MAP in
  sent (fst (_erase_memory_sector 0x810000 0x40000 kwp))
    = [[0x31; 0x00; 0x00; 0x81; 0x00; 0x00; 0x00; 0x04; 0x00; 0x00]]
  /\ sent (fst (_erase_memory_sector 0x810000 0x40000 uds))
    = [[0x31; 0x01; 0xFF; 0x02; 0x00; 0x81; 0x00; 0x00; 0x00; 0x04; 0x00; 0x00]]
  /\ ~ (forall (p : Protocol) (msg : bytes),
           In msg (sent (fst (_erase_memory_sector 0x810000 0x40000
                                (unlocked_flasher tt p MSD80_MAP)))) ->
           exists control,
             msg = [0x31] ++ control ++ [0xFF; 0x02]
                   ++ [0x00; 0x81; 0x00; 0x00] ++ [0x00; 0x04; 0x00; 0x00]).
Proof.
  cbv zeta. split; [vm_compute; reflexivity|].
  split; [vm_compute; reflexivity|].
  intro Hclaim.
  destruct (Hclaim KWP2000
              [0x31; 0x00; 0x00; 0x81; 0x00; 0x00; 0x00; 0x04; 0x00; 0x00])
    as (control & Hc).
  - vm_compute. left. reflexivity.
  - destruct control as [|c0 control]; [discriminate Hc|].
    apply (f_equal (@List.length Z)) in Hc.
    cbn [app List.length] in Hc. rewrite length_app in Hc.
    cbn [List.length] in Hc. lia.
Qed.

(** C3, amended: when the map requires erasing, the first request of every
    writable sector that the image reaches is the erase routine of the
    dialect, service 0x31 with [0x01, 0xFF, 0x02, start, size] in UDS and
    with [0x00, start, size] in KWP2000; every other request of the sector
    follows it, and when the reply to it is not positive nothing follows and
    the run raises. *)
Theorem erase_first_then_write_only_if_positive :
  forall (L : Type) (LK : Link L) (mm : MemoryMap) (flash_data : bytes)
         (sec : Sector) (s s' : BMWFlasher L) (r : result unit)
         (ab sb : bytes),
    protected sec = false ->
    start sec - flash_start mm < len flash_data ->
    erase_required mm = true ->
    isotp s <> None ->
    to_bytes 4 (start sec) = Ok ab ->
    to_bytes 4 (size sec) = Ok sb ->
    flash_sector mm flash_data sec s = (s', r) ->
    exists (s1 : BMWFlasher L) (response : option bytes) (more : list bytes),
      (if is_kwp (protocol s)
       then _send_kwp_command 0x31 (0x00 :: ab ++ sb) s
       else _send_uds_command UDS_ROUTINE_CONTROL
              (0x01 :: 0xFF :: 0x02 :: ab ++ sb) s)
      = (s1, Ok response)
      /\ sent s1 = sent s ++ [erase_request (is_kwp (protocol s)) ab sb]
      /\ sent s' = sent s1 ++ more
      /\ (not_positive response 0x31 = true ->
          more = [] /\ r = Raise (RuntimeError "Failed to erase sector")).
Proof.
  intros L LK mm flash_data sec s s' r ab sb Hprot Hreach Hreq Hl Ha Hs E.
  destruct (erase_run (start sec) (size sec) s ab sb Hl Ha Hs)
    as (s1 & response & Hd & Hsent & Hp & Herase).
  exists s1, response.
  unfold flash_sector in E. rewrite Hprot, Hreq in E.
  replace (start sec - flash_start mm >=? len flash_data) with false in E
    by (symmetry; rewrite Z.geb_leb; apply Z.leb_gt; lia).
  unfold bind at 1 in E. rewrite Herase in E.
  destruct (not_positive response 49) eqn:Hneg; cbn [negb] in E.
  - inversion E. subst. exists []. rewrite app_nil_r. auto.
  - assert (Hg : grows
                   (offsets <- lift (py_range
                                       (len (sector_image mm flash_data sec))
                                       (transfer_size mm)) ;;
                    for_all offsets
                      (flash_block (start sec)
                         (sector_image mm flash_data sec) (transfer_size mm)))).
    { apply grows_bind; [apply grows_lift|]. intros offsets.
      apply grows_for_all. intros offset. apply grows_flash_block. }
    destruct (Hg _ _ _ E) as (_ & more & Hmore).
    exists more.
    split; [exact Hd|]. split; [exact Hsent|]. split; [exact Hmore|].
    intro X. discriminate X.
Qed.

Lemma erase_first_then_write_only_if_positive_witness :
  let s := unlocked_flasher
             ([Some [0x7F; 0x31; 0x22]] : Script) KWP2000 MSD80_MAP in
  let sec := mkSector "Calibration" 0x810000 0x40000 false in
  let flash_data := repeat 0 (Z.to_nat 0x10001) in
  exists (s1 : BMWFlasher Script) (response : option bytes)
         (more : list bytes),
    (if is_kwp (protocol s)
     then _send_kwp_command 0x31
            (0x00 :: [0x00; 0x81; 0x00; 0x00] ++ [0x00; 0x04; 0x00; 0x00]) s
     else _send_uds_command UDS_ROUTINE_CONTROL
            (0x01 :: 0xFF :: 0x02
               :: [0x00; 0x81; 0x00; 0x00] ++ [0x00; 0x04; 0x00; 0x00]) s)
    = (s1, Ok response)
    /\ sent s1
       = sent s ++ [erase_request (is_kwp (protocol s))
                      [0x00; 0x81; 0x00; 0x00] [0x00; 0x04; 0x00; 0x00]]
    /\ sent (fst (flash_sector MSD80_MAP flash_data sec s)) = sent s1 ++ more
    /\ (not_positive response 0x31 = true ->
        more = []
        /\ snd (flash_sector MSD80_MAP flash_data sec s)
           = Raise (RuntimeError "Failed to erase sector")).
Proof.
  intros s sec flash_data.
  apply (erase_first_then_write_only_if_positive Script _ MSD80_MAP
           flash_data sec s
           (fst (flash_sector MSD80_MAP flash_data sec s))
           (snd (flash_sector MSD80_MAP flash_data sec s))
           [0x00; 0x81; 0x00; 0x00] [0x00; 0x04; 0x00; 0x00]).
  - reflexivity.
  - vm_compute. reflexivity.
  - reflexivity.
  - vm_compute. discriminate.
  - reflexivity.
  - reflexivity.
  - apply surjective_pairing.
Defined.

(** ** What a successful transfer writes *)

Lemma concat_blocks :
  forall (k : nat) (d : bytes) (bs : Z),
    0 < bs -> len d <= Z.of_nat k * bs ->
    List.concat (map (fun o => py_slice d o (o + bs))
                (map (fun i => Z.of_nat i * bs) (seq 0 k)))
    = d.
Proof.
  induction k as [|k IH]; intros d bs Hbs Hlen.
  - destruct d; [reflexivity|]. rewrite len_cons in Hlen.
    pose proof (len_nonneg d). lia.
  - cbn [seq map List.concat]. rewrite <- seq_shift, !map_map.
    rewrite (map_ext
               (fun i => py_slice d (Z.of_nat (S i) * bs)
                           (Z.of_nat (S i) * bs + bs))
               (fun i => py_slice (skipn (Z.to_nat bs) d) (Z.of_nat i * bs)
                           (Z.of_nat i * bs + bs))).
    + rewrite <- map_map with (f := fun i => Z.of_nat i * bs)
                              (g := fun o => py_slice (skipn (Z.to_nat bs) d)
                                              o (o + bs)).
      rewrite IH.
      * change (Z.of_nat 0 * bs) with (0 * bs). rewrite Z.mul_0_l.
        rewrite py_slice_prefix by lia. apply firstn_skipn.
      * exact Hbs.
      * unfold len in *. rewrite length_skipn. lia.
    + intro i. rewrite !py_slice_from_count by lia.
      rewrite skipn_skipn. f_equal. f_equal. lia.
Qed.

Lemma blocks_cover :
  forall (d : bytes) (bs : Z) (offsets : list Z),
    py_range (len d) bs = Ok offsets -> 0 < bs ->
    List.concat (map (fun o => py_slice d o (o + bs)) offsets) = d.
Proof.
  intros d bs offsets. unfold py_range.
  destruct (bs =? 0); [discriminate|].
  destruct ((bs <? 0) || (len d <=? 0)) eqn:E.
  - intros X Hbs. inversion X. subst.
    apply orb_true_iff in E. destruct E as [E|E].
    + apply Z.ltb_lt in E. lia.
    + apply Z.leb_le in E. destruct d; [reflexivity|].
      rewrite len_cons in E. pose proof (len_nonneg d). lia.
  - intros X Hbs. inversion X. subst. apply concat_blocks; [exact Hbs|].
    pose proof (len_nonneg d) as Hn.
    assert (Hq : 0 <= (len d + bs - 1) / bs) by (apply Z.div_pos; lia).
    rewrite Z2Nat.id by exact Hq.
    pose proof (Z.div_mod (len d + bs - 1) bs ltac:(lia)) as Hdm.
    pose proof (Z.mod_pos_bound (len d + bs - 1) bs Hbs) as Hr.
    nia.
Qed.

Lemma written_transfer_requests :
  forall (offsets : list Z) (data : bytes) (bs counter : Z),
    written_data false (transfer_requests data bs counter offsets)
    = List.concat (map (fun o => py_slice data o (o + bs)) offsets).
Proof.
  induction offsets as [|i offsets IH]; intros data bs counter;
    [reflexivity|].
  cbn [transfer_requests map List.concat]. unfold written_data in *.
  cbn [flat_map]. rewrite IH. reflexivity.
Qed.

Lemma count_transfer_requests :
  forall (offsets : list Z) (data : bytes) (bs counter sid : Z),
    sid <> UDS_TRANSFER_DATA ->
    count_service sid (transfer_requests data bs counter offsets) = 0%nat.
Proof.
  induction offsets as [|i offsets IH]; intros data bs counter sid Hsid;
    [reflexivity|].
  cbn [transfer_requests]. unfold count_service in *. cbn [filter].
  replace (UDS_TRANSFER_DATA =? sid) with false
    by (symmetry; apply Z.eqb_neq; congruence).
  apply IH. exact Hsid.
Qed.

Lemma written_data_app :
  forall (kwp : bool) (a b : list bytes),
    written_data kwp (a ++ b) = written_data kwp a ++ written_data kwp b.
Proof. intros. unfold written_data. apply flat_map_app. Qed.

Lemma count_service_app :
  forall (sid : Z) (a b : list bytes),
    count_service sid (a ++ b)
    = (count_service sid a + count_service sid b)%nat.
Proof.
  intros. unfold count_service. rewrite filter_app, length_app. reflexivity.
Qed.

Section Transfer.

Context {L : Type} {LK : Link L}.

Lemma transfer_blocks_trace :
  forall (offsets : list Z) (data : bytes) (bs counter : Z)
         (s s' : BMWFlasher L),
    transfer_blocks offsets data bs counter s = (s', Ok true) ->
    sent s' = sent s ++ transfer_requests data bs counter offsets
    /\ protocol s' = protocol s.
Proof.
  induction offsets as [|i offsets IH]; intros data bs counter s s' E.
  - inversion E. cbn. rewrite app_nil_r. auto.
  - cbn [transfer_blocks] in E. unfold bind at 1 in E.
    destruct (_send_uds_command UDS_TRANSFER_DATA
                ([counter] ++ py_slice data i (i + bs)) s)
      as [s1 [o|e]] eqn:Ed; [|discriminate].
    destruct (not_positive o UDS_TRANSFER_DATA) eqn:Hneg; [discriminate|].
    destruct (uds_answered _ _ _ _ _ Ed (positive_not_falsy _ _ Hneg))
      as [Hs1 Hp1].
    destruct (IH _ _ _ _ _ E) as [Hs' Hp'].
    split; [|congruence].
    rewrite Hs', Hs1, <- app_assoc. reflexivity.
Qed.

(** A write in the KWP2000 dialect that reports success. *)
Lemma write_memory_kwp_trace :
  forall (address : Z) (data : bytes) (s s' : BMWFlasher L),
    is_kwp (protocol s) = true ->
    _write_memory address data s = (s', Ok true) ->
    exists ab,
      to_bytes 4 address = Ok ab
      /\ sent s' = sent s ++ [KWP_WRITE_MEMORY_BY_ADDRESS :: ab ++ data]
      /\ protocol s' = protocol s.
Proof.
  intros address data s s' Hk E. unfold _write_memory in E.
  unfold bind at 1, gets at 1 in E. rewrite Hk in E.
  unfold bind at 1, lift at 1 in E.
  destruct (to_bytes 4 address) as [ab|e] eqn:Ha; [|discriminate].
  unfold bind at 1 in E.
  destruct (_send_kwp_command KWP_WRITE_MEMORY_BY_ADDRESS (ab ++ data) s)
    as [s1 [o|e]] eqn:Ed; [|discriminate].
  destruct (not_positive o KWP_WRITE_MEMORY_BY_ADDRESS) eqn:Hneg;
    [discriminate|].
  inversion E. subst s1.
  destruct (kwp_answered _ _ _ _ _ Ed (positive_not_falsy _ _ Hneg))
    as [Hs1 Hp1].
  exists ab. auto.
Qed.

(** A write in the UDS dialect that reports success: one Request-Download,
    the Transfer-Data requests numbered from 1 in blocks of the size read
    from the reply, one Request-Transfer-Exit. *)
Lemma write_memory_uds_trace :
  forall (address : Z) (data : bytes) (s s' : BMWFlasher L),
    is_kwp (protocol s) = false ->
    _write_memory address data s = (s', Ok true) ->
    exists (ab sb : bytes) (s1 : BMWFlasher L) (response : option bytes)
           (offsets : list Z),
      to_bytes 4 address = Ok ab
      /\ to_bytes 4 (len data) = Ok sb
      /\ _send_uds_command UDS_REQUEST_DOWNLOAD
           ([0x00; 0x24] ++ ab ++ [0x24] ++ sb) s = (s1, Ok response)
      /\ not_positive response UDS_REQUEST_DOWNLOAD = false
      /\ py_range (len data) (download_block_size response (len data))
         = Ok offsets
      /\ sent s'
         = sent s
           ++ [UDS_REQUEST_DOWNLOAD :: [0x00; 0x24] ++ ab ++ [0x24] ++ sb]
           ++ transfer_requests data
                (download_block_size response (len data)) 1 offsets
           ++ [[UDS_REQUEST_TRANSFER_EXIT]]
      /\ protocol s' = protocol s.
Proof.
  intros address data s s' Hk E. unfold _write_memory in E.
  unfold bind at 1, gets at 1 in E. rewrite Hk in E.
  unfold bind at 1, lift at 1 in E.
  destruct (to_bytes 4 address) as [ab|e] eqn:Ha; [|discriminate].
  unfold bind at 1, lift at 1 in E.
  destruct (to_bytes 4 (len data)) as [sb|e] eqn:Hs; [|discriminate].
  unfold bind at 1 in E.
  destruct (_send_uds_command UDS_REQUEST_DOWNLOAD
              ([0x00; 0x24] ++ ab ++ [0x24] ++ sb) s)
    as [s1 [response|e]] eqn:Ed; [|discriminate].
  destruct (not_positive response UDS_REQUEST_DOWNLOAD) eqn:Hneg;
    [discriminate|].
  unfold bind at 1, lift at 1 in E.
  destruct (py_range (len data) (download_block_size response (len data)))
    as [offsets|e] eqn:Hr; [|discriminate].
  unfold bind at 1 in E.
  destruct (transfer_blocks offsets data
              (download_block_size response (len data)) 1 s1)
    as [s2 [ok|e]] eqn:Et; [|discriminate].
  destruct ok; cbn [negb] in E; [|discriminate].
  unfold bind at 1 in E.
  destruct (_send_uds_command UDS_REQUEST_TRANSFER_EXIT [] s2)
    as [s3 [o|e]] eqn:Ex; [|discriminate].
  destruct (not_positive o UDS_REQUEST_TRANSFER_EXIT) eqn:Hneg';
    [discriminate|].
  inversion E. subst s3.
  destruct (uds_answered _ _ _ _ _ Ed (positive_not_falsy _ _ Hneg))
    as [Hs1 Hp1].
  destruct (transfer_blocks_trace _ _ _ _ _ _ Et) as [Hs2 Hp2].
  destruct (uds_answered _ _ _ _ _ Ex (positive_not_falsy _ _ Hneg'))
    as [Hs3 Hp3].
  exists ab, sb, s1, response, offsets.
  repeat (split; [assumption || reflexivity|]).
  split; [|congruence].
  rewrite Hs3, Hs2, Hs1, <- !app_assoc. reflexivity.
Qed.

(** The keep-alive adds at most a tester-present request. *)
Lemma keep_alive_trace :
  forall (offset : Z) (s s' : BMWFlasher L) (r : result unit),
    keep_alive offset s = (s', r) ->
    protocol s' = protocol s
    /\ (sent s' = sent s \/ sent s' = sent s ++ [[0x3E; 0x00]]).
Proof.
  intros offset s s' r. unfold keep_alive, tester_present.
  destruct ((offset mod 65536 =? 0) && (offset >? 0));
    [|intro X; inversion X; auto].
  unfold bind at 1, gets at 1.
  destruct (is_uds (protocol s)); unfold bind.
  - destruct (uds_command_cases UDS_TESTER_PRESENT [0x00] s)
      as [H|[H|(l' & o & H)]]; rewrite H; intro X; inversion X; subst; auto.
  - destruct (kwp_command_cases KWP_TESTER_PRESENT [0x00] s)
      as [H|[H|(l' & o & H)]]; rewrite H; intro X; inversion X; subst; auto.
Qed.

End Transfer.

Lemma download_block_size_pos :
  forall (response : option bytes) (n : Z),
    0 <= n -> download_block_size response n <> 0 ->
    0 < download_block_size response n.
Proof.
  intros response n Hn. unfold download_block_size.
  cbv zeta.
  set (m := if len (body response) >=? 3
            then from_bytes (py_from (body response) 2) else 0).
  destruct (m >? 0) eqn:E.
  - apply Z.gtb_lt in E. lia.
  - lia.
Qed.

Lemma py_range_step :
  forall (n bs : Z) (offsets : list Z),
    py_range n bs = Ok offsets -> bs <> 0.
Proof.
  intros n bs offsets. unfold py_range.
  destruct (bs =? 0) eqn:E; [discriminate|].
  intros _. apply Z.eqb_neq. exact E.
Qed.

Section Summary.

Context {L : Type} {LK : Link L}.

(** What one turn of the block loop adds to the trace when it succeeds:
    the data written are the block, and in the UDS dialect there is one
    Request-Download and one Request-Transfer-Exit. *)
Lemma flash_block_summary :
  forall (sector_start : Z) (sector_data : bytes) (bs offset : Z)
         (s s' : BMWFlasher L),
    flash_block sector_start sector_data bs offset s = (s', Ok tt) ->
    exists new : list bytes,
      sent s' = sent s ++ new
      /\ protocol s' = protocol s
      /\ written_data (is_kwp (protocol s)) new
         = py_slice sector_data offset (offset + bs)
      /\ count_service UDS_REQUEST_DOWNLOAD new
         = (if is_kwp (protocol s) then 0 else 1)%nat
      /\ count_service UDS_REQUEST_TRANSFER_EXIT new
         = (if is_kwp (protocol s) then 0 else 1)%nat.
Proof.
  intros sector_start sector_data bs offset s s' E.
  unfold flash_block in E. unfold bind at 1 in E.
  set (block := py_slice sector_data offset (offset + bs)) in *.
  destruct (_write_memory (sector_start + offset) block s)
    as [s1 [ok|e]] eqn:Ew; [|discriminate].
  destruct ok; cbn [negb] in E; [|discriminate].
  destruct (keep_alive_trace _ _ _ _ E) as [Hp2 Hk2].
  assert (Hka : exists ka, sent s' = sent s1 ++ ka
                           /\ (ka = [] \/ ka = [[0x3E; 0x00]])).
  { destruct Hk2 as [H|H]; [exists []|exists [[0x3E; 0x00]]];
      rewrite ?app_nil_r; auto. }
  destruct Hka as (ka & Hs2 & Hka).
  destruct (is_kwp (protocol s)) eqn:Hk.
  - destruct (write_memory_kwp_trace _ _ _ _ Hk Ew) as (ab & Ha & Hs1 & Hp1).
    destruct (to_bytes_4_spec _ _ Ha) as (Hla & _ & _).
    exists ([KWP_WRITE_MEMORY_BY_ADDRESS :: ab ++ block] ++ ka).
    split; [rewrite Hs2, Hs1, <- app_assoc; reflexivity|].
    split; [congruence|].
    rewrite written_data_app, !count_service_app.
    assert (Hw : written_data true
                   [KWP_WRITE_MEMORY_BY_ADDRESS :: ab ++ block] = block).
    { unfold written_data. cbn [flat_map written_payload].
      rewrite Z.eqb_refl, app_nil_r. apply skipn_app_exact. exact Hla. }
    rewrite Hw.
    destruct Hka as [->| ->]; rewrite ?app_nil_r; repeat split; reflexivity.
  - destruct (write_memory_uds_trace _ _ _ _ Hk Ew)
      as (ab & sb & s0 & response & offsets & Ha & Hsb & Hd & Hneg & Hr
          & Hs1 & Hp1).
    pose proof (py_range_step _ _ _ Hr) as Hnz.
    pose proof (download_block_size_pos response (len block)
                  (len_nonneg block) Hnz) as Hpos.
    exists (([UDS_REQUEST_DOWNLOAD :: [0x00; 0x24] ++ ab ++ [0x24] ++ sb]
             ++ transfer_requests block
                  (download_block_size response (len block)) 1 offsets
             ++ [[UDS_REQUEST_TRANSFER_EXIT]]) ++ ka).
    split; [rewrite Hs2, Hs1, <- !app_assoc; reflexivity|].
    split; [congruence|].
    rewrite !written_data_app, !count_service_app.
    rewrite written_transfer_requests, (blocks_cover _ _ _ Hr Hpos).
    rewrite !count_transfer_requests
      by (unfold UDS_REQUEST_DOWNLOAD, UDS_REQUEST_TRANSFER_EXIT,
            UDS_TRANSFER_DATA; lia).
    destruct Hka as [->| ->]; repeat split;
      cbn; rewrite ?app_nil_r; reflexivity.
Qed.

Lemma flash_blocks_summary :
  forall (offsets : list Z) (sector_start : Z) (sector_data : bytes)
         (bs : Z) (s s' : BMWFlasher L),
    for_all offsets (flash_block sector_start sector_data bs) s
    = (s', Ok tt) ->
    exists new : list bytes,
      sent s' = sent s ++ new
      /\ protocol s' = protocol s
      /\ written_data (is_kwp (protocol s)) new
         = List.concat
             (map (fun o => py_slice sector_data o (o + bs)) offsets)
      /\ count_service UDS_REQUEST_DOWNLOAD new
         = (if is_kwp (protocol s) then 0 else List.length offsets)%nat
      /\ count_service UDS_REQUEST_TRANSFER_EXIT new
         = (if is_kwp (protocol s) then 0 else List.length offsets)%nat.
Proof.
  induction offsets as [|o offsets IH];
    intros sector_start sector_data bs s s' E.
  - inversion E. exists []. rewrite app_nil_r.
    destruct (is_kwp (protocol s')); repeat split; reflexivity.
  - cbn [for_all] in E. unfold bind at 1 in E.
    destruct (flash_block sector_start sector_data bs o s)
      as [s1 [[]|e]] eqn:Eb; [|discriminate].
    destruct (flash_block_summary _ _ _ _ _ _ Eb)
      as (n1 & Hs1 & Hp1 & Hw1 & Hc1 & Hx1).
    destruct (IH _ _ _ _ _ E) as (n2 & Hs2 & Hp2 & Hw2 & Hc2 & Hx2).
    rewrite Hp1 in Hw2, Hc2, Hx2.
    exists (n1 ++ n2).
    split; [rewrite Hs2, Hs1, app_assoc; reflexivity|].
    split; [congruence|].
    rewrite written_data_app, !count_service_app, Hw1, Hw2, Hc1, Hc2,
      Hx1, Hx2.
    cbn [map List.concat List.length].
    destruct (is_kwp (protocol s)); repeat split; reflexivity.
Qed.

(** An erase that reports success has put one request of service 0x31 on
    the trace. *)
Lemma erase_trace :
  forall (address size : Z) (s s' : BMWFlasher L),
    _erase_memory_sector address size s = (s', Ok true) ->
    exists args : bytes,
      sent s' = sent s ++ [0x31 :: args] /\ protocol s' = protocol s.
Proof.
  intros address size s s' E. unfold _erase_memory_sector in E.
  unfold bind at 1, gets at 1 in E.
  destruct (is_kwp (protocol s)).
  - unfold bind at 1, lift at 1 in E.
    destruct (to_bytes 4 address) as [ab|e]; [|discriminate].
    unfold bind at 1, lift at 1 in E.
    destruct (to_bytes 4 size) as [sb|e]; [|discriminate].
    unfold bind at 1 in E.
    destruct (_send_kwp_command 49 ([0] ++ ab ++ sb) s)
      as [s1 [o|e]] eqn:Ed; [|discriminate].
    destruct (not_positive o 49) eqn:Hneg; inversion E. subst s1.
    destruct (kwp_answered _ _ _ _ _ Ed (positive_not_falsy _ _ Hneg)).
    eauto.
  - unfold bind at 1, lift at 1 in E.
    destruct (to_bytes 2 ROUTINE_ERASE_MEMORY_SECTOR) as [rb|e];
      [|discriminate].
    unfold bind at 1, lift at 1 in E.
    destruct (to_bytes 4 address) as [ab|e]; [|discriminate].
    unfold bind at 1, lift at 1 in E.
    destruct (to_bytes 4 size) as [sb|e]; [|discriminate].
    unfold bind at 1 in E.
    destruct (_send_uds_command UDS_ROUTINE_CONTROL
                ([1] ++ rb ++ ab ++ sb) s)
      as [s1 [o|e]] eqn:Ed; [|discriminate].
    destruct (not_positive o UDS_ROUTINE_CONTROL) eqn:Hneg; inversion E.
    subst s1.
    destruct (uds_answered _ _ _ _ _ Ed (positive_not_falsy _ _ Hneg)).
    eauto.
Qed.

End Summary.

(** ** Request-Download and the transfer blocks *)

(** C2 as stated fails: flashing the calibration sector of the MG1 map
    (0x30000 bytes in transfer blocks of 0x400) on an ECU that accepts every
    request sends 192 Request-Downloads and 192 Request-Transfer-Exits for
    the one sector, and every Transfer-Data request carries the sequence
    counter 1. *)
Lemma request_download_repeats_within_sector :
  let s := unlocked_flasher tt UDS MG1_MAP in
  let sec := mkSector "Calibration" 0x810000 0x30000 false in
  let run := flash_sector MG1_MAP (repeat 0 (Z.to_nat 0x10001)) sec s in
  snd run = Ok tt
  /\ count_service UDS_REQUEST_DOWNLOAD (sent (fst run)) = 192%nat
  /\ count_service UDS_REQUEST_DOWNLOAD (sent (fst run)) <> 1%nat
  /\ count_service UDS_REQUEST_TRANSFER_EXIT (sent (fst run)) = 192%nat
  /\ count_service UDS_TRANSFER_DATA (sent (fst run)) = 192%nat
  /\ forallb (fun msg => match msg with
                         | sid :: counter :: _ =>
                             negb (sid =? UDS_TRANSFER_DATA) || (counter =? 1)
                         | _ => true
                         end) (sent (fst run)) = true.
Proof.
  vm_compute. repeat split. discriminate.
Qed.

(** C2, amended: in the UDS path every transfer block of a sector (each
    turn of the block loop, [transfer_size] bytes) is one download of its
    own.  A write that succeeds sends Request-Download 0x34 with
    [0x00, 0x24, addr, 0x24, size] once, takes the block size from the
    positive response, sends the Transfer-Data requests 0x36 with a counter
    that starts at 1 and wraps mod 256 within that block, and sends
    Request-Transfer-Exit 0x37 once; a sector flashed with success carries
    as many Request-Downloads and Request-Transfer-Exits as it has transfer
    blocks. *)
Theorem request_download_once_per_transfer_block :
  forall (L : Type) (LK : Link L),
    (forall (address : Z) (data : bytes) (s s' : BMWFlasher L),
        is_kwp (protocol s) = false ->
        _write_memory address data s = (s', Ok true) ->
        exists (ab sb : bytes) (s1 : BMWFlasher L) (response : option bytes)
               (offsets : list Z),
          to_bytes 4 address = Ok ab
          /\ to_bytes 4 (len data) = Ok sb
          /\ _send_uds_command UDS_REQUEST_DOWNLOAD
               ([0x00; 0x24] ++ ab ++ [0x24] ++ sb) s = (s1, Ok response)
          /\ not_positive response UDS_REQUEST_DOWNLOAD = false
          /\ py_range (len data) (download_block_size response (len data))
             = Ok offsets
          /\ sent s'
             = sent s
               ++ [UDS_REQUEST_DOWNLOAD
                     :: [0x00; 0x24] ++ ab ++ [0x24] ++ sb]
               ++ transfer_requests data
                    (download_block_size response (len data)) 1 offsets
               ++ [[UDS_REQUEST_TRANSFER_EXIT]])
    /\ (forall (mm : MemoryMap) (flash_data : bytes) (sec : Sector)
               (s s' : BMWFlasher L),
           is_kwp (protocol s) = false ->
           protected sec = false ->
           start sec - flash_start mm < len flash_data ->
           flash_sector mm flash_data sec s = (s', Ok tt) ->
           exists (offsets : list Z) (new : list bytes),
             py_range (len (sector_image mm flash_data sec))
               (transfer_size mm) = Ok offsets
             /\ sent s' = sent s ++ new
             /\ count_service UDS_REQUEST_DOWNLOAD new = List.length offsets
             /\ count_service UDS_REQUEST_TRANSFER_EXIT new
                = List.length offsets).
Proof.
  intros L LK. split.
  - intros address data s s' Hk E.
    destruct (write_memory_uds_trace _ _ _ _ Hk E)
      as (ab & sb & s1 & response & offsets & H1 & H2 & H3 & H4 & H5 & H6
          & _).
    exists ab, sb, s1, response, offsets. auto 10.
  - intros mm flash_data sec s s' Hk Hprot Hreach E.
    unfold flash_sector in E. rewrite Hprot in E.
    replace (start sec - flash_start mm >=? len flash_data) with false in E
      by (symmetry; rewrite Z.geb_leb; apply Z.leb_gt; lia).
    unfold bind at 1 in E.
    destruct ((if erase_required mm
               then _erase_memory_sector (start sec) (size sec)
               else ret true) s) as [s1 [erased|e]] eqn:Ee; [|discriminate].
    destruct erased; cbn [negb] in E; [|discriminate].
    assert (H1 : exists n1, sent s1 = sent s ++ n1
                            /\ protocol s1 = protocol s
                            /\ count_service UDS_REQUEST_DOWNLOAD n1 = 0%nat
                            /\ count_service UDS_REQUEST_TRANSFER_EXIT n1
                               = 0%nat).
    { destruct (erase_required mm).
      - destruct (erase_trace _ _ _ _ Ee) as (args & Hs & Hp).
        exists [0x31 :: args]. repeat split; auto.
      - inversion Ee. subst. exists []. rewrite app_nil_r.
        repeat split; auto. }
    destruct H1 as (n1 & Hs1 & Hp1 & Hc1 & Hx1).
    unfold bind at 1, lift at 1 in E.
    destruct (py_range (len (sector_image mm flash_data sec))
                (transfer_size mm)) as [offsets|e] eqn:Hr; [|discriminate].
    destruct (flash_blocks_summary _ _ _ _ _ _ E)
      as (n2 & Hs2 & Hp2 & _ & Hc2 & Hx2).
    rewrite Hp1, Hk in Hc2, Hx2.
    exists offsets, (n1 ++ n2).
    split; [reflexivity|].
    split; [rewrite Hs2, Hs1, app_assoc; reflexivity|].
    rewrite !count_service_app, Hc1, Hc2, Hx1, Hx2. auto.
Qed.

Lemma request_download_once_per_transfer_block_witness :
  let s := unlocked_flasher tt UDS MG1_MAP in
  let data := [0x11; 0x22; 0x33; 0x44] in
  exists (ab sb : bytes) (s1 : BMWFlasher unit) (response : option bytes)
         (offsets : list Z),
    to_bytes 4 0x810000 = Ok ab
    /\ to_bytes 4 (len data) = Ok sb
    /\ _send_uds_command UDS_REQUEST_DOWNLOAD
         ([0x00; 0x24] ++ ab ++ [0x24] ++ sb) s = (s1, Ok response)
    /\ not_positive response UDS_REQUEST_DOWNLOAD = false
    /\ py_range (len data) (download_block_size response (len data))
       = Ok offsets
    /\ sent (fst (_write_memory 0x810000 data s))
       = sent s
         ++ [UDS_REQUEST_DOWNLOAD :: [0x00; 0x24] ++ ab ++ [0x24] ++ sb]
         ++ transfer_requests data
              (download_block_size response (len data)) 1 offsets
         ++ [[UDS_REQUEST_TRANSFER_EXIT]].
Proof.
  intros s data.
  apply (proj1 (request_download_once_per_transfer_block unit _)
           0x810000 data s (fst (_write_memory 0x810000 data s))).
  - reflexivity.
  - vm_compute. reflexivity.
Defined.

(** ** Short images *)


Section ShortImage.

Context {L : Type} {LK : Link L}.
Variable mm : MemoryMap.
Variable flash_data : bytes.
Variable sec : Sector.

Hypothesis Hprot : protected sec = false.
Hypothesis Hstart : flash_start mm <= start sec.
Hypothesis Hsize : 0 <= size sec.

Lemma sector_image_padded :
  start sec - flash_start mm < len flash_data ->
  sector_image mm flash_data sec
  = py_slice flash_data (start sec - flash_start mm)
      (start sec - flash_start mm + size sec)
    ++ repeat 0xFF
         (Z.to_nat
            (size sec
             - len (py_slice flash_data (start sec - flash_start mm)
                      (start sec - flash_start mm + size sec)))).
Proof.
  intro Hreach. unfold sector_image.
  set (ds := start sec - flash_start mm) in *.
  assert (Hsl : py_slice flash_data ds
                  (Z.min (ds + size sec) (len flash_data))
                = py_slice flash_data ds (ds + size sec)).
  { replace (Z.min (ds + size sec) (len flash_data))
      with (ds + (Z.min (ds + size sec) (len flash_data) - ds)) by lia.
    rewrite !py_slice_from_count by lia.
    destruct (Z.le_gt_cases (ds + size sec) (len flash_data)).
    - f_equal. lia.
    - rewrite !firstn_all2; auto;
        rewrite length_skipn; unfold len in *; lia. }
  rewrite Hsl.
  set (sl := py_slice flash_data ds (ds + size sec)).
  assert (Hle : len sl <= size sec).
  { subst sl. rewrite py_slice_from_count by lia.
    unfold len. rewrite length_firstn. lia. }
  destruct (len sl <? size sec) eqn:E; [reflexivity|].
  apply Z.ltb_ge in E.
  replace (size sec - len sl) with 0 by lia.
  cbn. rewrite app_nil_r. reflexivity.
Qed.

Lemma flash_sector_writes_image :
  forall s s' : BMWFlasher L,
    0 < transfer_size mm ->
    start sec - flash_start mm < len flash_data ->
    flash_sector mm flash_data sec s = (s', Ok tt) ->
    exists new : list bytes,
      sent s' = sent s ++ new
      /\ written_data (is_kwp (protocol s)) new
         = sector_image mm flash_data sec.
Proof.
  intros s s' Hts Hreach E.
  unfold flash_sector in E. rewrite Hprot in E.
  replace (start sec - flash_start mm >=? len flash_data) with false in E
    by (symmetry; rewrite Z.geb_leb; apply Z.leb_gt; lia).
  unfold bind at 1 in E.
  destruct ((if erase_required mm
             then _erase_memory_sector (start sec) (size sec)
             else ret true) s) as [s1 [erased|e]] eqn:Ee; [|discriminate].
  destruct erased; cbn [negb] in E; [|discriminate].
  assert (H1 : exists n1, sent s1 = sent s ++ n1
                          /\ protocol s1 = protocol s
                          /\ written_data (is_kwp (protocol s)) n1 = []).
  { destruct (erase_required mm).
    - destruct (erase_trace _ _ _ _ Ee) as (args & Hs & Hp).
      exists [0x31 :: args]. repeat split; auto.
      destruct (is_kwp (protocol s)); reflexivity.
    - inversion Ee. subst. exists []. rewrite app_nil_r.
      repeat split; auto. }
  destruct H1 as (n1 & Hs1 & Hp1 & Hw1).
  unfold bind at 1, lift at 1 in E.
  destruct (py_range (len (sector_image mm flash_data sec))
              (transfer_size mm)) as [offsets|e] eqn:Hr; [|discriminate].
  destruct (flash_blocks_summary _ _ _ _ _ _ E)
    as (n2 & Hs2 & Hp2 & Hw2 & _).
  rewrite Hp1 in Hw2.
  exists (n1 ++ n2).
  split; [rewrite Hs2, Hs1, app_assoc; reflexivity|].
  rewrite written_data_app, Hw1, Hw2. cbn [app].
  apply blocks_cover; assumption.
Qed.

Lemma sector_beyond_image_skipped :
  forall s : BMWFlasher L,
    len flash_data <= start sec - flash_start mm ->
    flash_sector mm flash_data sec s = (s, Ok tt)
    /\ verify_sector mm flash_data sec s = (s, Ok None).
Proof.
  intros s Hbeyond. unfold flash_sector, verify_sector. rewrite Hprot.
  replace (start sec - flash_start mm >=? len flash_data) with true
    by (symmetry; rewrite Z.geb_leb; apply Z.leb_le; lia).
  split; reflexivity.
Qed.

Lemma verify_block_accepts_equal_only :
  forall (sector_data : bytes) (bs offset : Z) (t t' : BMWFlasher L),
    verify_block (start sec) sector_data bs offset t = (t', Ok None) ->
    exists (t1 : BMWFlasher L) (actual : bytes),
      _read_memory (start sec + offset)
        (len (py_slice sector_data offset (offset + bs))) t
      = (t1, Ok (Some actual))
      /\ actual = py_slice sector_data offset (offset + bs).
Proof.
  intros sector_data bs offset t t' E. unfold verify_block in E.
  unfold bind at 1 in E.
  destruct (_read_memory (start sec + offset)
              (len (py_slice sector_data offset (offset + bs))) t)
    as [t1 [actual|e]] eqn:Er; [|discriminate].
  destruct actual as [[|a0 actual]|]; cbn [falsy] in E;
    try (unfold ret in E; discriminate).
  match type of E with
  | context [if ?d then _ else _] => destruct d as [Heq|Hne]
  end; [|unfold ret in E; discriminate].
  exists t1, (a0 :: actual). split; [reflexivity|exact Heq].
Qed.

End ShortImage.



(** On the maps of the registry the blocks read back by the verification
    (512, 1024 or 2048 bytes) do not fit the single size byte of the read
    request: after a flash that wrote the calibration sector, the first
    verification read raises before anything is sent. *)
Lemma verification_read_size_overflows :
  let flash_data := repeat 0 (Z.to_nat 0x10001) in
  snd (_verify_flash flash_data (unlocked_flasher tt UDS MG1_MAP))
    = Raise OverflowError
  /\ snd (_verify_flash flash_data (unlocked_flasher tt KWP2000 MSD80_MAP))
     = Raise ValueError
  /\ sent (fst (_verify_flash flash_data (unlocked_flasher tt UDS MG1_MAP)))
     = []
  /\ sent (fst (_verify_flash flash_data
                  (unlocked_flasher tt KWP2000 MSD80_MAP)))
     = [].
Proof.
  vm_compute. repeat split.
Qed.

(** * Further properties of the code *)

(** ** The CAN frame codec *)

Lemma pack_u32_ok :
  forall id : Z, 0 <= id < 2 ^ 32 -> pack_u32 id = Ok (be_digits 4 id).
Proof.
  intros id Hid. unfold pack_u32, to_bytes.
  change (256 ^ Z.of_nat 4) with (2 ^ 32).
  replace ((0 <=? id) && (id <? 2 ^ 32)) with true; [reflexivity|].
  symmetry. apply andb_true_iff.
  split; [apply Z.leb_le|apply Z.ltb_lt]; lia.
Qed.

Lemma can_frame_sent :
  forall (id : Z) (data : bytes) (h : ISOTPHandler),
    0 <= id < 2 ^ 32 -> len data < 256 ->
    _send_can_frame id data h = (emit (encode_can id data) h, Ok tt).
Proof.
  intros id data h Hid Hlen. pose proof (len_nonneg data) as Hn.
  unfold _send_can_frame. unfold_monad.
  rewrite (pack_u32_ok id Hid). unfold mk_bytes. cbn [forallb]. unfold is_byte.
  replace ((0 <=? len data) && (len data <? 256)) with true.
  - reflexivity.
  - symmetry. apply andb_true_iff.
    split; [apply Z.leb_le|apply Z.ltb_lt]; lia.
Qed.

Lemma can_frame_received :
  forall (id : Z) (data rest : bytes) (h : ISOTPHandler),
    0 <= id < 2 ^ 32 ->
    rx (port h) = encode_can id data ++ rest ->
    _receive_can_frame (Some id) h = (with_rx rest h, Ok (Some data)).
Proof.
  intros id data rest h Hid Hrx.
  unfold _receive_can_frame, serial_read. rewrite Hrx.
  unfold encode_can. cbn [be_digits app].
  change (Z.to_nat 5) with 5%nat. cbn [firstn skipn nth rx tx is_open].
  unfold len at 1. cbn [List.length]. change (Z.of_nat 5 =? 5) with true.
  cbn [negb].
  match goal with
  | |- context [from_bytes ?l] =>
      change (from_bytes l) with (from_bytes (be_digits 4 id))
  end.
  rewrite (from_bytes_be_digits_4 id Hid), Z.eqb_refl. cbn [negb].
  unfold len. rewrite Nat2Z.id.
  rewrite (firstn_app_exact _ data rest eq_refl).
  rewrite (skipn_app_exact _ data rest eq_refl).
  rewrite Z.eqb_refl. cbn [negb]. reflexivity.
Qed.

(** X1.  A frame written by [_send_can_frame] is read back by
    [_receive_can_frame]: for an identifier of 32 bits and at most 255 data
    bytes the sender appends the header and the data to its output, and a
    handler that expects this identifier and finds these bytes at the head
    of its input returns the same data and leaves what follows unread. *)
Theorem can_frame_roundtrip :
  forall (id : Z) (data rest : bytes) (h h' : ISOTPHandler),
    0 <= id < 2 ^ 32 ->
    len data < 256 ->
    rx (port h') = encode_can id data ++ rest ->
    _send_can_frame id data h = (emit (encode_can id data) h, Ok tt)
    /\ _receive_can_frame (Some id) h' = (with_rx rest h', Ok (Some data)).
Proof.
  intros id data rest h h' Hid Hlen Hrx. split.
  - apply can_frame_sent; assumption.
  - apply can_frame_received; assumption.
Qed.

Lemma can_frame_roundtrip_witness :
  let h := new_isotp (mkSerial [] [] true) CAN_ID_REQUEST CAN_ID_RESPONSE in
  let h' := new_isotp
              (mkSerial (encode_can 0x6F1 [0x02; 0x3E; 0x00] ++ [0xAA]) [] true)
              CAN_ID_RESPONSE CAN_ID_REQUEST in
  _send_can_frame 0x6F1 [0x02; 0x3E; 0x00] h
  = (emit (encode_can 0x6F1 [0x02; 0x3E; 0x00]) h, Ok tt)
  /\ _receive_can_frame (Some 0x6F1) h'
     = (with_rx [0xAA] h', Ok (Some [0x02; 0x3E; 0x00])).
Proof.
  intros h h'.
  apply (can_frame_roundtrip 0x6F1 [0x02; 0x3E; 0x00] [0xAA] h h').
  - lia.
  - vm_compute. reflexivity.
  - reflexivity.
Defined.

(** ** Security keys *)

Lemma land_u32_range : forall v : Z, 0 <= Z.land v 0xFFFFFFFF < 2 ^ 32.
Proof.
  intro v. change 0xFFFFFFFF with (Z.ones 32). rewrite Z.land_ones by lia.
  apply Z.mod_pos_bound. lia.
Qed.

Lemma crc_round_range : forall key : Z, 0 <= crc_round key < 2 ^ 32.
Proof.
  intro key. unfold crc_round.
  destruct (negb (Z.land key 0x80000000 =? 0)); apply land_u32_range.
Qed.

Lemma calculate_key_range :
  forall (seed : Z) (algorithm : string),
    0 <= _calculate_key seed algorithm < 2 ^ 32.
Proof.
  intros seed algorithm. unfold _calculate_key.
  destruct (String.eqb algorithm "xor"); [apply land_u32_range|].
  destruct (String.eqb algorithm "crc"); [|apply land_u32_range].
  change 32%nat with (S 31). rewrite Nat.iter_succ. apply crc_round_range.
Qed.

(** X2.  Whatever the seed and the algorithm name, the key that
    [_calculate_key] returns is an unsigned 32-bit value: its conversion to
    four bytes never overflows, and the four bytes read back as the key. *)
Theorem calculate_key_fits_four_bytes :
  forall (seed : Z) (algorithm : string),
    0 <= _calculate_key seed algorithm < 2 ^ 32
    /\ to_bytes 4 (_calculate_key seed algorithm)
       = Ok (be_digits 4 (_calculate_key seed algorithm))
    /\ from_bytes (be_digits 4 (_calculate_key seed algorithm))
       = _calculate_key seed algorithm.
Proof.
  intros seed algorithm.
  pose proof (calculate_key_range seed algorithm) as Hr.
  split; [exact Hr|]. split.
  - unfold to_bytes. change (256 ^ Z.of_nat 4) with (2 ^ 32).
    replace ((0 <=? _calculate_key seed algorithm)
             && (_calculate_key seed algorithm <? 2 ^ 32)) with true;
      [reflexivity|].
    symmetry. apply andb_true_iff.
    split; [apply Z.leb_le|apply Z.ltb_lt]; lia.
  - apply from_bytes_be_digits_4. exact Hr.
Qed.

Lemma lxor_u16 :
  forall a b : Z, 0 <= a < 2 ^ 16 -> 0 <= b < 2 ^ 16 ->
    0 <= Z.lxor a b < 2 ^ 16.
Proof.
  intros a b Ha Hb.
  assert (H0 : 0 <= Z.lxor a b) by (apply Z.lxor_nonneg; lia).
  split; [exact H0|].
  destruct (Z.eq_dec (Z.lxor a b) 0) as [E|E]; [rewrite E; lia|].
  apply Z.log2_lt_pow2; [lia|].
  pose proof (Z.log2_lxor a b ltac:(lia) ltac:(lia)) as Hl.
  assert (Z.log2 a < 16).
  { destruct (Z.eq_dec a 0) as [->|]; [cbn; lia|].
    apply Z.log2_lt_pow2; lia. }
  assert (Z.log2 b < 16).
  { destruct (Z.eq_dec b 0) as [->|]; [cbn; lia|].
    apply Z.log2_lt_pow2; lia. }
  lia.
Qed.

Lemma xor_key_value :
  forall seed : Z, 0 <= seed < 2 ^ 16 ->
    _calculate_key seed "xor" = Z.lxor seed 0x5A3C + 0x7F1B.
Proof.
  intros seed Hs. unfold _calculate_key. cbn [String.eqb Ascii.eqb Bool.eqb].
  change 0xFFFFFFFF with (Z.ones 32). rewrite Z.land_ones by lia.
  apply Z.mod_small.
  pose proof (lxor_u16 seed 0x5A3C Hs ltac:(lia)). lia.
Qed.

Lemma from_bytes_two :
  forall hi lo : Z, from_bytes [hi; lo] = hi * 256 + lo.
Proof. intros. unfold from_bytes. cbn [fold_left]. lia. Qed.

(** X3.  The key of the [xor] algorithm does not always fit the two bytes
    of its memory maps.  When the ECU answers the seed request with a
    two-byte seed whose exclusive-or with 0x5A3C is 0x80E5 or more,
    [security_access] raises [OverflowError] at the conversion of the key:
    the seed request is the only request dispatched, no key is sent and the
    security level stays 0. *)
Theorem security_access_xor_key_overflow :
  forall (connect : M (BMWFlasher Script) bool) (p : option Protocol)
         (mm : MemoryMap) (et : option string) (trace : list bytes)
         (hi lo : Z) (more : bytes) (script : Script),
    security_algorithm mm = "xor"%string ->
    seed_key_length mm = 2 ->
    0 <= hi < 256 -> 0 <= lo < 256 ->
    0x80E5 <= Z.lxor (hi * 256 + lo) 0x5A3C ->
    security_access connect
      (mkFlasher (Some (Some (0x67 :: 0x01 :: hi :: lo :: more) :: script))
         true p 0 SESSION_PROGRAMMING et (Some mm) trace)
    = (mkFlasher (Some script) true p 0 SESSION_PROGRAMMING et (Some mm)
         (trace ++ [[0x27; 0x01]]),
       Raise OverflowError).
Proof.
  intros connect p mm et trace hi lo more script Halg Hlen Hhi Hlo Hkey.
  assert (Hseed : 0 <= hi * 256 + lo < 2 ^ 16) by lia.
  assert (Hover : to_bytes 2 (_calculate_key (from_bytes [hi; lo]) "xor")
                  = Raise OverflowError).
  { rewrite from_bytes_two, (xor_key_value _ Hseed). unfold to_bytes.
    change (256 ^ Z.of_nat 2) with 65536.
    replace (Z.lxor (hi * 256 + lo) 23100 + 32539 <? 65536) with false.
    - rewrite andb_false_r. reflexivity.
    - symmetry. apply Z.ltb_ge. lia. }
  unfold security_access, cannot_connect, cannot_program, seed_key_exchange.
  unfold_monad.
  cbn -[_send_kwp_command _send_uds_command to_bytes _calculate_key py_slice
        from_bytes].
  rewrite Halg, Hlen.
  destruct p as [[|]|]; cbn [is_kwp].
  all: unfold _send_uds_command, _send_kwp_command; unfold_monad;
    cbn -[to_bytes _calculate_key py_slice from_bytes].
  all: change (UDS_SECURITY_ACCESS + POSITIVE_RESPONSE) with 103;
    change (KWP_SECURITY_ACCESS + POSITIVE_RESPONSE) with 103;
    cbn -[to_bytes _calculate_key py_slice from_bytes].
  all: rewrite (py_slice_from_count _ 2 2) by lia.
  all: change (Z.to_nat 2) with 2%nat; cbn [firstn skipn];
    rewrite Hover; reflexivity.
Qed.

Lemma security_access_xor_key_overflow_witness :
  security_access no_adapter
    (mkFlasher (Some [Some [0x67; 0x01; 0xFF; 0xFF]])
       true (Some KWP2000) 0 SESSION_PROGRAMMING (Some "MSD80"%string)
       (Some MSD80_MAP) [])
  = (mkFlasher (Some ([] : Script)) true (Some KWP2000) 0 SESSION_PROGRAMMING
       (Some "MSD80"%string) (Some MSD80_MAP) ([] ++ [[0x27; 0x01]]),
     Raise OverflowError).
Proof.
  apply (security_access_xor_key_overflow no_adapter (Some KWP2000) MSD80_MAP
           (Some "MSD80"%string) [] 0xFF 0xFF [] []).
  - reflexivity.
  - reflexivity.
  - lia.
  - lia.
  - vm_compute. discriminate.
Defined.

(** ** ECU type *)

(** X4.  [_determine_ecu_type] always names an entry of [ECU_MEMORY_MAPS],
    so that [_get_memory_map] never falls back to the default map for a
    type it returned; the loop over the keys of the registry decides
    nothing: the result is fixed by the five tests before it, and an
    identifier that contains none of the five names gives MSD80. *)
Theorem determine_ecu_type_names_registry_entry :
  forall ecu_id : string,
    In (_determine_ecu_type ecu_id) (map fst ECU_MEMORY_MAPS)
    /\ dict_get ECU_MEMORY_MAPS (_determine_ecu_type ecu_id)
       = Some (_get_memory_map (Some (_determine_ecu_type ecu_id)))
    /\ _determine_ecu_type ecu_id
       = (if contains "MSD80" (upper ecu_id) then "MSD80"
          else if contains "MSD81" (upper ecu_id) then "MSD81"
          else if contains "MEVD17.2" (upper ecu_id) then "MEVD17.2"
          else if contains "MG1" (upper ecu_id) then "MG1"
          else if contains "MD1" (upper ecu_id) then "MD1"
          else "MSD80")%string.
Proof.
  intro ecu_id. unfold _determine_ecu_type.
  destruct (contains "MSD80" (upper ecu_id)) eqn:E1;
    [repeat split; cbn; auto|].
  destruct (contains "MSD81" (upper ecu_id)) eqn:E2;
    [repeat split; cbn; auto|].
  destruct (contains "MEVD17.2" (upper ecu_id)) eqn:E3;
    [repeat split; cbn; auto 6|].
  destruct (contains "MG1" (upper ecu_id)) eqn:E4;
    [repeat split; cbn; auto 6|].
  destruct (contains "MD1" (upper ecu_id)) eqn:E5;
    [repeat split; cbn; auto 6|].
  cbn [ECU_MEMORY_MAPS map fst find].
  rewrite E1, E2, E3, E4, E5. repeat split; cbn; auto.
Qed.

(** ** The dispatchers and the session bracket *)

Section Dispatch.

Context {L : Type} {LK : Link L}.

(** X5.  What a dispatcher call can do.  Without a link it returns [None]
    and leaves the flasher as it is.  With a link, a request that holds a
    value outside [0, 255] raises [ValueError] before anything is logged or
    sent; any other request is handed to the link once and the call
    returns normally, whatever the link does: an exception of the ISO-TP
    layer never leaves the dispatcher. *)
Theorem dispatcher_outcomes :
  forall (sid : Z) (data : list Z) (s : BMWFlasher L),
    (isotp s = None ->
     _send_uds_command sid data s = (s, Ok None)
     /\ _send_kwp_command sid data s = (s, Ok None))
    /\ (isotp s <> None -> forallb is_byte (sid :: data) = false ->
        _send_uds_command sid data s = (s, Raise ValueError)
        /\ _send_kwp_command sid data s = (s, Raise ValueError))
    /\ (isotp s <> None -> forallb is_byte (sid :: data) = true ->
        (exists l' o,
            _send_uds_command sid data s
            = (set_isotp (Some l') (log_request (sid :: data) s), Ok o))
        /\ (exists l' o,
               _send_kwp_command sid data s
               = (set_isotp (Some l') (log_request (sid :: data) s), Ok o))).
Proof.
  intros sid data s. split; [|split].
  - intro Hn. unfold _send_uds_command, _send_kwp_command.
    unfold bind, gets. rewrite Hn. split; reflexivity.
  - intros Hl Hb. unfold _send_uds_command, _send_kwp_command.
    unfold bind, gets, lift, mk_bytes.
    destruct (isotp s) as [l|]; [|congruence].
    rewrite Hb. split; reflexivity.
  - intros Hl Hb. split.
    + apply uds_dispatched; assumption.
    + apply kwp_dispatched; assumption.
Qed.

End Dispatch.

Lemma dispatcher_outcomes_witness :
  let s := unlocked_flasher tt UDS MG1_MAP in
  (exists l' o,
      _send_uds_command 0x3E [0x00] s
      = (set_isotp (Some l') (log_request [0x3E; 0x00] s), Ok o))
  /\ (exists l' o,
         _send_kwp_command 0x3E [0x00] s
         = (set_isotp (Some l') (log_request [0x3E; 0x00] s), Ok o)).
Proof.
  intro s.
  apply (@dispatcher_outcomes unit Accepting_Link 0x3E [0x00] s).
  - discriminate.
  - reflexivity.
Defined.


Section Probes.

Context {L : Type} {LK : Link L}.

Lemma uds_sends :
  forall (sid : Z) (data : list Z) (s : BMWFlasher L),
    isotp s <> None -> forallb is_byte (sid :: data) = true ->
    exists s' o,
      _send_uds_command sid data s = (s', Ok o)
      /\ dispatched_to (sid :: data) s s'.
Proof.
  intros sid data s Hl Hb.
  destruct (uds_dispatched sid data s Hl Hb) as (l' & o & E).
  eexists. exists o. split; [exact E|].
  unfold dispatched_to. cbn. repeat split. discriminate.
Qed.

Lemma kwp_sends :
  forall (sid : Z) (data : list Z) (s : BMWFlasher L),
    isotp s <> None -> forallb is_byte (sid :: data) = true ->
    exists s' o,
      _send_kwp_command sid data s = (s', Ok o)
      /\ dispatched_to (sid :: data) s s'.
Proof.
  intros sid data s Hl Hb.
  destruct (kwp_dispatched sid data s Hl Hb) as (l' & o & E).
  eexists. exists o. split; [exact E|].
  unfold dispatched_to. cbn. repeat split. discriminate.
Qed.

Lemma uds_unlinked :
  forall (sid : Z) (data : list Z) (s : BMWFlasher L),
    isotp s = None -> _send_uds_command sid data s = (s, Ok None).
Proof.
  intros sid data s Hn. unfold _send_uds_command, bind, gets.
  rewrite Hn. reflexivity.
Qed.

Lemma kwp_unlinked :
  forall (sid : Z) (data : list Z) (s : BMWFlasher L),
    isotp s = None -> _send_kwp_command sid data s = (s, Ok None).
Proof.
  intros sid data s Hn. unfold _send_kwp_command, bind, gets.
  rewrite Hn. reflexivity.
Qed.



(** X7.  [reset_ecu] reports success whatever happens: it dispatches the
    hard-reset request [11 01] once when there is a link, sends nothing
    when there is none, ignores the answer and returns [True] in every
    case.  The session type and the security level that the flasher
    records are left as they were. *)
Theorem reset_ecu_always_reports_success :
  forall s : BMWFlasher L,
    exists s' : BMWFlasher L,
      reset_ecu s = (s', Ok true)
      /\ match isotp s with
         | None => s' = s
         | Some _ => dispatched_to [0x11; 0x01] s s'
         end.
Proof.
  intro s. unfold reset_ecu. unfold bind at 1. unfold gets at 1.
  destruct (isotp s) as [l|] eqn:Hl.
  - assert (Hs : isotp s <> None) by congruence.
    destruct (is_kwp (protocol s)).
    + destruct (kwp_sends KWP_ECU_RESET [0x01] s Hs eq_refl)
        as (s1 & o1 & E1 & D1).
      exists s1. unfold bind. rewrite E1. split; [reflexivity|exact D1].
    + destruct (uds_sends UDS_ECU_RESET [0x01] s Hs eq_refl)
        as (s1 & o1 & E1 & D1).
      exists s1. unfold bind. rewrite E1. split; [reflexivity|exact D1].
  - exists s. destruct (is_kwp (protocol s)); unfold bind.
    + rewrite (kwp_unlinked _ _ s Hl). split; reflexivity.
    + rewrite (uds_unlinked _ _ s Hl). split; reflexivity.
Qed.


End Probes.

(** ** The response-pending loop *)

Lemma await_final_settles :
  forall (n : nat) (pend : list bytes) (response final : option bytes)
         (rest : Script),
    (List.length pend < n)%nat ->
    forallb keeps_waiting pend = true ->
    settles final = true ->
    await_final n response (map Some pend ++ final :: rest)
    = (rest, Ok final).
Proof.
  induction n as [|n IH]; intros pend response final rest Hn Hp Hf; [lia|].
  destruct pend as [|r pend].
  - cbn [map app await_final]. unfold bind at 1.
    cbn [link_receive Script_Link script_next].
    destruct final as [[|r0 t]|]; try reflexivity.
    cbn [settles] in Hf.
    destruct (r0 =? NEGATIVE_RESPONSE) eqn:E0; cbn [negb orb] in *;
      [|reflexivity].
    destruct t as [|r1 [|r2 t]]; try discriminate.
    unfold bind, lift, index. cbn [nth_error].
    rewrite Hf. reflexivity.
  - cbn [forallb] in Hp. apply andb_true_iff in Hp. destruct Hp as [Hr Hp].
    destruct r as [|r0 [|r1 [|r2 t]]]; try discriminate.
    cbn [keeps_waiting] in Hr. apply andb_true_iff in Hr.
    destruct Hr as [H0 H2].
    cbn [map app await_final]. unfold bind at 1.
    cbn [link_receive Script_Link script_next].
    rewrite H0. cbn [negb]. unfold bind at 1. unfold lift, index.
    cbn [nth_error]. rewrite H2. cbn [negb].
    apply IH; [cbn [List.length] in Hn; lia|assumption|assumption].
Qed.

Lemma last_default :
  forall (A : Type) (l : list A) (x d d' : A),
    last (x :: l) d = last (x :: l) d'.
Proof.
  intros A l. induction l as [|y l IH]; intros x d d'; [reflexivity|].
  change (last (x :: y :: l) d) with (last (y :: l) d).
  change (last (x :: y :: l) d') with (last (y :: l) d').
  apply IH.
Qed.

Lemma await_final_exhausted :
  forall (n : nat) (pend : list bytes) (response : option bytes)
         (rest : Script),
    List.length pend = n ->
    forallb keeps_waiting pend = true ->
    await_final n response (map Some pend ++ rest)
    = (rest, Ok (last (map Some pend) response)).
Proof.
  induction n as [|n IH]; intros pend response rest Hn Hp.
  - destruct pend; [reflexivity|discriminate].
  - destruct pend as [|r pend]; [discriminate|].
    cbn [forallb] in Hp. apply andb_true_iff in Hp. destruct Hp as [Hr Hp].
    destruct r as [|r0 [|r1 [|r2 t]]]; try discriminate.
    cbn [keeps_waiting] in Hr. apply andb_true_iff in Hr.
    destruct Hr as [H0 H2].
    cbn [map app await_final]. unfold bind at 1.
    cbn [link_receive Script_Link script_next].
    rewrite H0. cbn [negb]. unfold bind at 1. unfold lift, index.
    cbn [nth_error]. rewrite H2. cbn [negb].
    rewrite IH; [|cbn [List.length] in Hn; lia|assumption].
    f_equal. f_equal.
    destruct pend as [|r' pend']; [reflexivity|].
    change (map Some ((r0 :: r1 :: r2 :: t) :: r' :: pend'))
      with (Some (r0 :: r1 :: r2 :: t) :: Some r' :: map Some pend').
    change (map Some (r' :: pend')) with (Some r' :: map Some pend').
    change (last (Some (r0 :: r1 :: r2 :: t) :: Some r' :: map Some pend')
              response)
      with (last (Some r' :: map Some pend') response).
    apply last_default.
Qed.

(** X9.  The response-pending loop of the UDS dispatcher is bounded.  After
    a first reply [7F sid 78] it reads further replies while they are
    [7F .. 78]; a reply that is not (or a timeout) within the next ten
    reads ends the loop and is the result.  After ten further pending
    replies the dispatcher gives up and returns the tenth pending reply;
    what the ECU sends afterwards stays unread. *)
Theorem uds_response_pending_is_bounded :
  forall (sid : Z) (data t0 : bytes) (pend : list bytes)
         (final : option bytes) (rest : Script)
         (c : bool) (p : option Protocol) (lv st : Z) (et : option string)
         (mmo : option MemoryMap) (tr : list bytes),
    forallb is_byte (sid :: data) = true ->
    forallb keeps_waiting pend = true ->
    let first := Some (NEGATIVE_RESPONSE :: sid :: NRC_RESPONSE_PENDING :: t0) in
    let run := _send_uds_command sid data
                 (mkFlasher (Some (first :: map Some pend ++ final :: rest))
                    c p lv st et mmo tr) in
    let after := fun script : Script =>
                   mkFlasher (Some script) c p lv st et mmo
                     (tr ++ [sid :: data]) in
    ((List.length pend <= 9)%nat -> settles final = true ->
     run = (after rest, Ok final))
    /\ (List.length pend = 10%nat ->
        run = (after (final :: rest), Ok (last (map Some pend) None))).
Proof.
  intros sid data t0 pend final rest c p lv st et mmo tr Hb Hp first run after.
  assert (Hrun :
    run = (let (l', r) :=
             await_final 10 first (map Some pend ++ final :: rest) in
           (after l',
            match r with Ok a => Ok a | Raise _ => Ok None end))).
  { unfold run, _send_uds_command. unfold bind at 1. unfold gets at 1.
    cbn [isotp]. unfold bind at 1. unfold lift, mk_bytes. rewrite Hb.
    unfold bind at 1. unfold modify at 1. unfold catch, on_isotp.
    unfold bind at 1. cbn [link_send Script_Link script_next].
    unfold first.
    rewrite !Z.eqb_refl. cbn [andb].
    cbv delta [bytes Script].
    match goal with
    | |- context [await_final ?n ?r ?l] =>
        destruct (await_final n r l) as [l' [a|e]]; reflexivity
    end. }
  split.
  - intros Hlen Hf. rewrite Hrun.
    rewrite await_final_settles by (try assumption; lia). reflexivity.
  - intro Hlen. rewrite Hrun.
    rewrite (await_final_exhausted 10 pend first (final :: rest) Hlen Hp).
    destruct pend as [|r pend]; [discriminate|].
    f_equal. f_equal.
    change (map Some (r :: pend)) with (Some r :: map Some pend).
    apply last_default.
Qed.

Lemma uds_response_pending_is_bounded_witness :
  _send_uds_command 0x31 [0x01]
    (mkFlasher (Some [pending 0x31; pending 0x31; positive 0x31])
       true (Some UDS) 1 2 None None [])
  = (mkFlasher (Some ([] : Script)) true (Some UDS) 1 2 None None
       ([] ++ [[0x31; 0x01]]),
     Ok (positive 0x31)).
Proof.
  refine (proj1 (uds_response_pending_is_bounded 0x31 [0x01] []
                   [[0x7F; 0x31; 0x78]] (positive 0x31) []
                   true (Some UDS) 1 2 None None [] _ _) _ _).
  - reflexivity.
  - reflexivity.
  - cbn. lia.
  - reflexivity.
Defined.

(** ** Trouble codes *)

Lemma lor_shiftl_low :
  forall hi lo n : Z,
    0 <= n -> 0 <= lo < 2 ^ n ->
    Z.lor (Z.shiftl hi n) lo = hi * 2 ^ n + lo.
Proof.
  intros hi lo n Hn Hlo.
  assert (Hland : Z.land (Z.shiftl hi n) lo = 0).
  { apply Z.bits_inj'. intros k Hk. rewrite Z.land_spec, Z.bits_0.
    destruct (Z.lt_ge_cases k n) as [Hlt|Hge].
    - rewrite Z.shiftl_spec_low by lia. reflexivity.
    - assert (Hb : Z.testbit lo k = false).
      { destruct (Z.eq_dec lo 0) as [->|Hnz]; [apply Z.bits_0|].
        apply Z.bits_above_log2; [lia|].
        assert (Z.log2 lo < n) by (apply Z.log2_lt_pow2; lia). lia. }
      rewrite Hb. apply andb_false_r. }
  rewrite <- Z.lxor_lor by exact Hland.
  rewrite <- Z.add_nocarry_lxor by exact Hland.
  rewrite Z.shiftl_mul_pow2 by lia. reflexivity.
Qed.

Lemma nth_after :
  forall (pre : bytes) (k : nat) (rest : bytes) (d : Z),
    nth (Z.to_nat (len pre + Z.of_nat k)) (pre ++ rest) d = nth k rest d.
Proof.
  intros pre k rest d. unfold len. rewrite <- Nat2Z.inj_add, Nat2Z.id.
  rewrite app_nth2 by lia. f_equal. lia.
Qed.

Lemma nth_after_0 :
  forall (pre : bytes) (x : Z) (rest : bytes) (d : Z),
    nth (Z.to_nat (len pre)) (pre ++ x :: rest) d = x.
Proof.
  intros. rewrite <- (Z.add_0_r (len pre)).
  apply (nth_after pre 0 (x :: rest) d).
Qed.

Lemma nth_after_1 :
  forall (pre : bytes) (x y : Z) (rest : bytes) (d : Z),
    nth (Z.to_nat (len pre + 1)) (pre ++ x :: y :: rest) d = y.
Proof. intros. apply (nth_after pre 1 (x :: y :: rest) d). Qed.

Lemma nth_after_2 :
  forall (pre : bytes) (x y z : Z) (rest : bytes) (d : Z),
    nth (Z.to_nat (len pre + 2)) (pre ++ x :: y :: z :: rest) d = z.
Proof. intros. apply (nth_after pre 2 (x :: y :: z :: rest) d). Qed.

Lemma nth_after_3 :
  forall (pre : bytes) (x y z w : Z) (rest : bytes) (d : Z),
    nth (Z.to_nat (len pre + 3)) (pre ++ x :: y :: z :: w :: rest) d = w.
Proof. intros. apply (nth_after pre 3 (x :: y :: z :: w :: rest) d). Qed.

Lemma kwp_dtc_loop :
  forall (recs : list (Z * Z * Z)) (pre tail : bytes) (fuel : nat),
    len tail <= 2 ->
    (List.length recs <= fuel)%nat ->
    flat_map (kwp_dtc_at (pre ++ kwp_dtc_wire recs ++ tail))
      (range_loop fuel (len pre) (len (pre ++ kwp_dtc_wire recs ++ tail)) 3)
    = map (fun '(st, hi, lo) => kwp_dtc st hi lo) recs.
Proof.
  induction recs as [|[[st hi] lo] recs IH]; intros pre tail fuel Ht Hf.
  - cbn [kwp_dtc_wire flat_map app map].
    destruct fuel as [|fuel]; [reflexivity|]. cbn [range_loop].
    rewrite len_app. pose proof (len_nonneg tail) as H0.
    destruct (len pre <? len pre + len tail) eqn:E; [|reflexivity].
    cbn [flat_map]. unfold kwp_dtc_at at 1. rewrite len_app.
    replace (len pre + 2 <? len pre + len tail) with false
      by (symmetry; apply Z.ltb_ge; lia).
    cbn [app].
    destruct fuel as [|fuel]; [reflexivity|]. cbn [range_loop].
    replace (len pre + 3 <? len pre + len tail) with false
      by (symmetry; apply Z.ltb_ge; lia).
    reflexivity.
  - destruct fuel as [|fuel]; [cbn in Hf; lia|].
    change (kwp_dtc_wire ((st, hi, lo) :: recs))
      with ([st; hi; lo] ++ kwp_dtc_wire recs).
    cbn [range_loop].
    pose proof (len_nonneg (kwp_dtc_wire recs ++ tail)) as H0.
    assert (Hlen : len (pre ++ ([st; hi; lo] ++ kwp_dtc_wire recs) ++ tail)
                   = len pre + 3 + len (kwp_dtc_wire recs ++ tail)).
    { rewrite <- app_assoc, !len_app. change (len [st; hi; lo]) with 3. lia. }
    rewrite Hlen.
    replace (len pre <? len pre + 3 + len (kwp_dtc_wire recs ++ tail))
      with true by (symmetry; apply Z.ltb_lt; lia).
    cbn [flat_map map].
    match goal with
    | |- ?a ++ ?b = ?x :: ?l => change (a ++ b = [x] ++ l)
    end.
    f_equal.
    + unfold kwp_dtc_at. rewrite Hlen.
      replace (len pre + 2 <? len pre + 3 + len (kwp_dtc_wire recs ++ tail))
        with true by (symmetry; apply Z.ltb_lt; lia).
      rewrite <- !app_assoc. cbn [app].
      rewrite nth_after_0, nth_after_1, nth_after_2. reflexivity.
    + replace (pre ++ ([st; hi; lo] ++ kwp_dtc_wire recs) ++ tail)
        with ((pre ++ [st; hi; lo]) ++ kwp_dtc_wire recs ++ tail)
        by (rewrite <- !app_assoc; reflexivity).
      replace (len pre + 3 + len (kwp_dtc_wire recs ++ tail))
        with (len ((pre ++ [st; hi; lo]) ++ kwp_dtc_wire recs ++ tail))
        by (rewrite !len_app; change (len [st; hi; lo]) with 3; lia).
      replace (len pre + 3) with (len (pre ++ [st; hi; lo]))
        by (rewrite len_app; reflexivity).
      apply IH; [exact Ht|cbn in Hf; lia].
Qed.

Lemma uds_dtc_loop :
  forall (recs : list (Z * Z * Z * Z)) (pre tail : bytes) (fuel : nat),
    len tail <= 3 ->
    (List.length recs <= fuel)%nat ->
    flat_map (uds_dtc_at (pre ++ uds_dtc_wire recs ++ tail))
      (range_loop fuel (len pre) (len (pre ++ uds_dtc_wire recs ++ tail)) 4)
    = map (fun '(hi, mid, lo, st) => uds_dtc hi mid lo st) recs.
Proof.
  induction recs as [|[[[hi mid] lo] st] recs IH]; intros pre tail fuel Ht Hf.
  - cbn [uds_dtc_wire flat_map app map].
    destruct fuel as [|fuel]; [reflexivity|]. cbn [range_loop].
    rewrite len_app. pose proof (len_nonneg tail) as H0.
    destruct (len pre <? len pre + len tail) eqn:E; [|reflexivity].
    cbn [flat_map]. unfold uds_dtc_at at 1. rewrite len_app.
    replace (len pre + 3 <? len pre + len tail) with false
      by (symmetry; apply Z.ltb_ge; lia).
    cbn [app].
    destruct fuel as [|fuel]; [reflexivity|]. cbn [range_loop].
    replace (len pre + 4 <? len pre + len tail) with false
      by (symmetry; apply Z.ltb_ge; lia).
    reflexivity.
  - destruct fuel as [|fuel]; [cbn in Hf; lia|].
    change (uds_dtc_wire ((hi, mid, lo, st) :: recs))
      with ([hi; mid; lo; st] ++ uds_dtc_wire recs).
    cbn [range_loop].
    pose proof (len_nonneg (uds_dtc_wire recs ++ tail)) as H0.
    assert (Hlen :
      len (pre ++ ([hi; mid; lo; st] ++ uds_dtc_wire recs) ++ tail)
      = len pre + 4 + len (uds_dtc_wire recs ++ tail)).
    { rewrite <- app_assoc, !len_app. change (len [hi; mid; lo; st]) with 4.
      lia. }
    rewrite Hlen.
    replace (len pre <? len pre + 4 + len (uds_dtc_wire recs ++ tail))
      with true by (symmetry; apply Z.ltb_lt; lia).
    cbn [flat_map map].
    match goal with
    | |- ?a ++ ?b = ?x :: ?l => change (a ++ b = [x] ++ l)
    end.
    f_equal.
    + unfold uds_dtc_at. rewrite Hlen.
      replace (len pre + 3 <? len pre + 4 + len (uds_dtc_wire recs ++ tail))
        with true by (symmetry; apply Z.ltb_lt; lia).
      rewrite <- !app_assoc. cbn [app].
      rewrite nth_after_0, nth_after_1, nth_after_2, nth_after_3.
      reflexivity.
    + replace (pre ++ ([hi; mid; lo; st] ++ uds_dtc_wire recs) ++ tail)
        with ((pre ++ [hi; mid; lo; st]) ++ uds_dtc_wire recs ++ tail)
        by (rewrite <- !app_assoc; reflexivity).
      replace (len pre + 4 + len (uds_dtc_wire recs ++ tail))
        with (len ((pre ++ [hi; mid; lo; st]) ++ uds_dtc_wire recs ++ tail))
        by (rewrite !len_app; change (len [hi; mid; lo; st]) with 4; lia).
      replace (len pre + 4) with (len (pre ++ [hi; mid; lo; st]))
        by (rewrite len_app; reflexivity).
      apply IH; [exact Ht|cbn in Hf; lia].
Qed.

Lemma length_kwp_dtc_wire :
  forall recs, List.length (kwp_dtc_wire recs) = (3 * List.length recs)%nat.
Proof.
  induction recs as [|[[st hi] lo] recs IH]; [reflexivity|].
  change (kwp_dtc_wire ((st, hi, lo) :: recs))
    with ([st; hi; lo] ++ kwp_dtc_wire recs).
  rewrite length_app, IH. cbn [List.length]. lia.
Qed.

Lemma length_uds_dtc_wire :
  forall recs, List.length (uds_dtc_wire recs) = (4 * List.length recs)%nat.
Proof.
  induction recs as [|[[[hi mid] lo] st] recs IH]; [reflexivity|].
  change (uds_dtc_wire ((hi, mid, lo, st) :: recs))
    with ([hi; mid; lo; st] ++ uds_dtc_wire recs).
  rewrite length_app, IH. cbn [List.length]. lia.
Qed.

Lemma parse_kwp_dtcs_wire :
  forall (h0 h1 : Z) (recs : list (Z * Z * Z)) (tail : bytes),
    len tail <= 2 ->
    parse_kwp_dtcs (h0 :: h1 :: kwp_dtc_wire recs ++ tail)
    = map (fun '(st, hi, lo) => kwp_dtc st hi lo) recs.
Proof.
  intros h0 h1 recs tail Ht. unfold parse_kwp_dtcs, py_range_from.
  change (h0 :: h1 :: kwp_dtc_wire recs ++ tail)
    with ([h0; h1] ++ kwp_dtc_wire recs ++ tail).
  refine (kwp_dtc_loop recs [h0; h1] tail _ Ht _).
  rewrite len_app. change (len [h0; h1]) with 2.
  unfold len. rewrite length_app, length_kwp_dtc_wire. lia.
Qed.

Lemma parse_uds_dtcs_wire :
  forall (h0 h1 h2 : Z) (recs : list (Z * Z * Z * Z)) (tail : bytes),
    len tail <= 3 ->
    parse_uds_dtcs (h0 :: h1 :: h2 :: uds_dtc_wire recs ++ tail)
    = map (fun '(hi, mid, lo, st) => uds_dtc hi mid lo st) recs.
Proof.
  intros h0 h1 h2 recs tail Ht. unfold parse_uds_dtcs, py_range_from.
  change (h0 :: h1 :: h2 :: uds_dtc_wire recs ++ tail)
    with ([h0; h1; h2] ++ uds_dtc_wire recs ++ tail).
  refine (uds_dtc_loop recs [h0; h1; h2] tail _ Ht _).
  rewrite len_app. change (len [h0; h1; h2]) with 3.
  unfold len. rewrite length_app, length_uds_dtc_wire. lia.
Qed.

Lemma kwp_dtc_code :
  forall st hi lo : Z,
    0 <= lo < 256 -> code (kwp_dtc st hi lo) = hi * 256 + lo.
Proof.
  intros st hi lo Hlo. unfold kwp_dtc. cbn [code].
  rewrite (lor_shiftl_low hi lo 8) by lia. reflexivity.
Qed.

Lemma uds_dtc_code :
  forall hi mid lo st : Z,
    0 <= mid < 256 -> 0 <= lo < 256 ->
    code (uds_dtc hi mid lo st) = hi * 65536 + mid * 256 + lo.
Proof.
  intros hi mid lo st Hmid Hlo. unfold uds_dtc. cbn [code].
  rewrite (Z.shiftl_mul_pow2 mid 8) by lia.
  rewrite (lor_shiftl_low hi (mid * 2 ^ 8) 16) by lia.
  replace (hi * 2 ^ 16 + mid * 2 ^ 8) with (Z.shiftl (hi * 256 + mid) 8)
    by (rewrite Z.shiftl_mul_pow2 by lia; lia).
  rewrite (lor_shiftl_low (hi * 256 + mid) lo 8) by lia. lia.
Qed.

(** X10.  [read_dtcs] in the KWP2000 dialect.  From a positive answer
    [58 n] followed by status/high/low triplets it returns one entry for
    each complete triplet, in the order of the answer, with the status byte
    and the 16-bit code [high * 256 + low], and the text [P] followed by
    the code in four hexadecimal digits; up to two bytes left over after
    the last complete triplet are ignored.  One request, [18 00], is
    dispatched. *)
Theorem read_dtcs_kwp_decodes_triplets :
  forall (connect : M (BMWFlasher Script) bool) (n : Z)
         (recs : list (Z * Z * Z)) (tail : bytes) (script : Script)
         (lv st : Z) (et : option string) (mmo : option MemoryMap)
         (tr : list bytes),
    len tail <= 2 ->
    Forall (fun '(_, _, lo) => 0 <= lo < 256) recs ->
    exists ds : list DTC,
      read_dtcs connect
        (mkFlasher
           (Some (Some (0x58 :: n :: kwp_dtc_wire recs ++ tail) :: script))
           true (Some KWP2000) lv st et mmo tr)
      = (mkFlasher (Some script) true (Some KWP2000) lv st et mmo
           (tr ++ [[0x18; 0x00]]),
         Ok ds)
      /\ map (fun d => (status d, code d)) ds
         = map (fun '(s, hi, lo) => (s, hi * 256 + lo)) recs
      /\ Forall (fun d => text d = String "P" (format_0X 4 (code d))) ds.
Proof.
  intros connect n recs tail script lv st et mmo tr Ht Hb.
  exists (map (fun '(s, hi, lo) => kwp_dtc s hi lo) recs).
  split; [|split].
  - unfold read_dtcs, cannot_connect. unfold_monad. cbn [connected protocol].
    cbn [is_kwp]. unfold _send_kwp_command. unfold_monad.
    cbn [isotp]. unfold mk_bytes.
    change (forallb is_byte [KWP_READ_DTC_BY_STATUS; 0]) with true.
    cbv iota. cbn [link_send Script_Link script_next].
    unfold set_isotp, log_request.
    cbn [isotp connected protocol security_level session_type ecu_type
         ecu_memory_map sent not_positive body].
    change (88 =? KWP_READ_DTC_BY_STATUS + POSITIVE_RESPONSE) with true.
    cbn [negb]. rewrite (parse_kwp_dtcs_wire 88 n recs tail Ht).
    reflexivity.
  - rewrite map_map. apply map_ext_in. intros [[s hi] lo] Hin.
    rewrite Forall_forall in Hb. specialize (Hb _ Hin). cbn beta iota in Hb.
    rewrite kwp_dtc_code by exact Hb. reflexivity.
  - apply Forall_forall. intros d Hd. apply in_map_iff in Hd.
    destruct Hd as ([[s hi] lo] & <- & _). reflexivity.
Qed.

Lemma read_dtcs_kwp_decodes_triplets_witness :
  exists ds : list DTC,
    read_dtcs no_adapter
      (mkFlasher
         (Some [Some (0x58 :: 0x02
                        :: kwp_dtc_wire [(0x20, 0x01, 0x71); (0x60, 0x2A, 0xAF)]
                        ++ [0xFF])])
         true (Some KWP2000) 0 SESSION_DEFAULT None None [])
    = (mkFlasher (Some ([] : Script)) true (Some KWP2000) 0 SESSION_DEFAULT
         None None ([] ++ [[0x18; 0x00]]),
       Ok ds)
    /\ map (fun d => (status d, code d)) ds
       = map (fun '(s, hi, lo) => (s, hi * 256 + lo))
           [(0x20, 0x01, 0x71); (0x60, 0x2A, 0xAF)]
    /\ Forall (fun d => text d = String "P" (format_0X 4 (code d))) ds.
Proof.
  apply (read_dtcs_kwp_decodes_triplets no_adapter 0x02
           [(0x20, 0x01, 0x71); (0x60, 0x2A, 0xAF)] [0xFF] []
           0 SESSION_DEFAULT None None []).
  - vm_compute. discriminate.
  - repeat constructor; vm_compute; congruence.
Defined.

(** X11.  [read_dtcs] in the UDS dialect.  From a positive answer
    [59 xx yy] followed by high/middle/low/status quadruplets it returns
    one entry for each complete quadruplet, in the order of the answer,
    with the status byte and the 24-bit code; up to three bytes left over
    after the last complete quadruplet are ignored.  One request,
    [19 02 FF], is dispatched. *)
Theorem read_dtcs_uds_decodes_quadruplets :
  forall (connect : M (BMWFlasher Script) bool) (h1 h2 : Z)
         (recs : list (Z * Z * Z * Z)) (tail : bytes) (script : Script)
         (p : option Protocol) (lv st : Z) (et : option string)
         (mmo : option MemoryMap) (tr : list bytes),
    is_kwp p = false ->
    len tail <= 3 ->
    Forall (fun '(_, mid, lo, _) => 0 <= mid < 256 /\ 0 <= lo < 256) recs ->
    exists ds : list DTC,
      read_dtcs connect
        (mkFlasher
           (Some (Some (0x59 :: h1 :: h2 :: uds_dtc_wire recs ++ tail)
                    :: script))
           true p lv st et mmo tr)
      = (mkFlasher (Some script) true p lv st et mmo
           (tr ++ [[0x19; 0x02; 0xFF]]),
         Ok ds)
      /\ map (fun d => (status d, code d)) ds
         = map (fun '(hi, mid, lo, s) => (s, hi * 65536 + mid * 256 + lo))
             recs.
Proof.
  intros connect h1 h2 recs tail script p lv st et mmo tr Hp Ht Hb.
  exists (map (fun '(hi, mid, lo, s) => uds_dtc hi mid lo s) recs).
  split.
  - unfold read_dtcs, cannot_connect. unfold_monad. cbn [connected protocol].
    rewrite Hp. unfold _send_uds_command. unfold_monad.
    cbn [isotp]. unfold mk_bytes.
    change (forallb is_byte [UDS_READ_DTC; 2; 255]) with true.
    cbv iota. cbn [link_send Script_Link script_next].
    change (89 =? NEGATIVE_RESPONSE) with false. cbn [andb].
    unfold set_isotp, log_request.
    cbn [isotp connected protocol security_level session_type ecu_type
         ecu_memory_map sent not_positive body].
    change (89 =? UDS_READ_DTC + POSITIVE_RESPONSE) with true.
    cbn [negb]. rewrite (parse_uds_dtcs_wire 89 h1 h2 recs tail Ht).
    reflexivity.
  - rewrite map_map. apply map_ext_in. intros [[[hi mid] lo] s] Hin.
    rewrite Forall_forall in Hb. specialize (Hb _ Hin). cbn beta iota in Hb.
    rewrite uds_dtc_code by tauto. reflexivity.
Qed.

Lemma read_dtcs_uds_decodes_quadruplets_witness :
  exists ds : list DTC,
    read_dtcs no_adapter
      (mkFlasher
         (Some [Some (0x59 :: 0x02 :: 0xFF
                        :: uds_dtc_wire [(0x01, 0x23, 0x45, 0x08);
                                         (0xC1, 0x00, 0x10, 0x2F)]
                        ++ [0x00; 0x01])])
         true (Some UDS) 0 SESSION_DEFAULT None None [])
    = (mkFlasher (Some ([] : Script)) true (Some UDS) 0 SESSION_DEFAULT
         None None ([] ++ [[0x19; 0x02; 0xFF]]),
       Ok ds)
    /\ map (fun d => (status d, code d)) ds
       = map (fun '(hi, mid, lo, s) => (s, hi * 65536 + mid * 256 + lo))
           [(0x01, 0x23, 0x45, 0x08); (0xC1, 0x00, 0x10, 0x2F)].
Proof.
  apply (read_dtcs_uds_decodes_quadruplets no_adapter 0x02 0xFF
           [(0x01, 0x23, 0x45, 0x08); (0xC1, 0x00, 0x10, 0x2F)] [0x00; 0x01]
           [] (Some UDS) 0 SESSION_DEFAULT None None []).
  - reflexivity.
  - vm_compute. discriminate.
  - repeat constructor; vm_compute; congruence.
Defined.

(** ** The size byte of the read request *)

Section ReadSize.

Context {L : Type} {LK : Link L}.

Lemma forallb_is_byte_oversize :
  forall (pre : list Z) (size : Z),
    255 < size -> forallb is_byte (pre ++ [size]) = false.
Proof.
  intros pre size Hs. rewrite forallb_app. cbn [forallb]. unfold is_byte.
  replace (size <? 256) with false by (symmetry; apply Z.ltb_ge; lia).
  rewrite !andb_false_r. reflexivity.
Qed.

Lemma to_bytes_raises :
  forall (n : nat) (v : Z) (e : exn),
    to_bytes n v = Raise e -> e = OverflowError.
Proof.
  intros n v e. unfold to_bytes.
  destruct ((0 <=? v) && (v <? 256 ^ Z.of_nat n)); congruence.
Qed.

Lemma read_memory_oversize_uds :
  forall (address size : Z) (s : BMWFlasher L),
    is_kwp (protocol s) = false ->
    255 < size ->
    _read_memory address size s = (s, Raise OverflowError).
Proof.
  intros address size s Hk Hs. unfold _read_memory.
  unfold bind at 1. unfold gets at 1. rewrite Hk.
  assert (Es : to_bytes 1 size = Raise OverflowError).
  { unfold to_bytes. change (256 ^ Z.of_nat 1) with 256.
    replace (size <? 256) with false by (symmetry; apply Z.ltb_ge; lia).
    rewrite andb_false_r. reflexivity. }
  unfold bind, lift. rewrite Es.
  destruct (to_bytes 4 address) as [ab|e] eqn:Ea; [reflexivity|].
  rewrite (to_bytes_raises _ _ _ Ea). reflexivity.
Qed.

Lemma read_memory_oversize_kwp :
  forall (address size : Z) (s : BMWFlasher L),
    is_kwp (protocol s) = true ->
    255 < size ->
    exists r : result (option bytes),
      _read_memory address size s = (s, r)
      /\ read_refused r None
      /\ (isotp s <> None -> 0 <= address < 2 ^ 32 -> r = Raise ValueError).
Proof.
  intros address size s Hk Hs. unfold _read_memory.
  unfold bind at 1. unfold gets at 1. rewrite Hk.
  unfold bind at 1. unfold lift at 1.
  destruct (to_bytes 4 address) as [ab|e] eqn:Ea.
  - destruct (isotp s) as [l|] eqn:Hl.
    + assert (E : _send_kwp_command KWP_READ_MEMORY_BY_ADDRESS
                    (ab ++ [size]) s = (s, Raise ValueError)).
      { unfold _send_kwp_command, bind, gets, lift, mk_bytes. rewrite Hl.
        change (KWP_READ_MEMORY_BY_ADDRESS :: ab ++ [size])
          with ((KWP_READ_MEMORY_BY_ADDRESS :: ab) ++ [size]).
        rewrite forallb_is_byte_oversize by exact Hs. reflexivity. }
      unfold bind. rewrite E. eexists. split; [reflexivity|].
      unfold read_refused. split; auto.
    + unfold bind. rewrite (kwp_unlinked _ _ s Hl). cbn [not_positive].
      unfold ret. eexists. split; [reflexivity|].
      unfold read_refused. split; [auto|]. intro X. congruence.
  - pose proof (to_bytes_raises _ _ _ Ea). subst e.
    eexists. split; [reflexivity|].
    unfold read_refused. split; [auto|].
    intros _ Ha. exfalso.
    unfold to_bytes in Ea. change (256 ^ Z.of_nat 4) with (2 ^ 32) in Ea.
    replace ((0 <=? address) && (address <? 2 ^ 32)) with true in Ea;
      [discriminate|].
    symmetry. apply andb_true_iff.
    split; [apply Z.leb_le|apply Z.ltb_lt]; lia.
Qed.

Lemma read_memory_oversize :
  forall (address size : Z) (s : BMWFlasher L),
    255 < size ->
    exists r : result (option bytes),
      _read_memory address size s = (s, r) /\ read_refused r None.
Proof.
  intros address size s Hs.
  destruct (is_kwp (protocol s)) eqn:Hk.
  - destruct (read_memory_oversize_kwp address size s Hk Hs)
      as (r & E & Hr & _).
    eauto.
  - exists (Raise OverflowError).
    split; [apply read_memory_oversize_uds; assumption|].
    unfold read_refused. auto.
Qed.

(** X12.  A read of more than 255 bytes is never dispatched: the size does
    not fit the single size byte of the request.  In the UDS branch the
    conversion of the size raises [OverflowError]; in the KWP2000 branch
    the request cannot be made into bytes and [ValueError] is raised, or
    [None] is returned when there is no link.  The flasher is left as it
    was and nothing is sent. *)
Theorem read_memory_refuses_more_than_255_bytes :
  forall (address size : Z) (s : BMWFlasher L),
    255 < size ->
    exists r : result (option bytes),
      _read_memory address size s = (s, r)
      /\ read_refused r None
      /\ (is_kwp (protocol s) = false -> r = Raise OverflowError)
      /\ (is_kwp (protocol s) = true -> isotp s <> None ->
          0 <= address < 2 ^ 32 -> r = Raise ValueError).
Proof.
  intros address size s Hs.
  destruct (is_kwp (protocol s)) eqn:Hk.
  - destruct (read_memory_oversize_kwp address size s Hk Hs)
      as (r & E & Hr & Hv).
    exists r. split; [exact E|]. split; [exact Hr|].
    split; [discriminate|]. intros _. exact Hv.
  - exists (Raise OverflowError).
    split; [apply read_memory_oversize_uds; assumption|].
    split; [unfold read_refused; auto|].
    split; [reflexivity|discriminate].
Qed.

End ReadSize.

Lemma read_memory_refuses_more_than_255_bytes_witness :
  let s := unlocked_flasher tt UDS MG1_MAP in
  exists r : result (option bytes),
    _read_memory 0x810000 0x400 s = (s, r)
    /\ read_refused r None
    /\ (is_kwp (protocol s) = false -> r = Raise OverflowError)
    /\ (is_kwp (protocol s) = true -> isotp s <> None ->
        0 <= 0x810000 < 2 ^ 32 -> r = Raise ValueError).
Proof.
  intro s.
  apply (@read_memory_refuses_more_than_255_bytes unit Accepting_Link
           0x810000 0x400 s).
  lia.
Defined.

Lemma py_range_first :
  forall n bs : Z,
    0 < n -> 0 < bs -> exists rest, py_range n bs = Ok (0 :: rest).
Proof.
  intros n bs Hn Hbs. unfold py_range.
  replace (bs =? 0) with false by (symmetry; apply Z.eqb_neq; lia).
  replace (bs <? 0) with false by (symmetry; apply Z.ltb_ge; lia).
  replace (n <=? 0) with false by (symmetry; apply Z.leb_gt; lia).
  cbn [orb].
  assert (Hk : 1 <= (n + bs - 1) / bs).
  { apply Z.div_le_lower_bound; lia. }
  destruct (Z.to_nat ((n + bs - 1) / bs)) as [|k] eqn:E; [lia|].
  cbn [seq map]. change (Z.of_nat 0) with 0. rewrite Z.mul_0_l. eauto.
Qed.

Lemma len_firstn :
  forall (A : Type) (k : Z) (l : list A),
    0 <= k -> len (firstn (Z.to_nat k) l) = Z.min k (len l).
Proof.
  intros A k l Hk. unfold len. rewrite length_firstn. lia.
Qed.

Section Unreadable.

Context {L : Type} {LK : Link L}.

Lemma verify_block_refused :
  forall (sector_start : Z) (sector_data : bytes) (bs offset : Z)
         (s : BMWFlasher L),
    255 < len (py_slice sector_data offset (offset + bs)) ->
    exists r,
      verify_block sector_start sector_data bs offset s = (s, r)
      /\ read_refused r (Some false).
Proof.
  intros sector_start sector_data bs offset s Hlen. unfold verify_block.
  destruct (read_memory_oversize (sector_start + offset) _ s Hlen)
    as (r & E & [-> | [-> | ->]]); unfold bind; rewrite E;
    eexists; (split; [reflexivity|]); unfold read_refused; auto.
Qed.

Lemma verify_sector_refused :
  forall (mm : MemoryMap) (flash_data : bytes) (sec : Sector)
         (s : BMWFlasher L),
    protected sec = false ->
    start sec - flash_start mm < len flash_data ->
    flash_start mm <= start sec ->
    255 < size sec ->
    255 < transfer_size mm ->
    exists r,
      verify_sector mm flash_data sec s = (s, r)
      /\ read_refused r (Some false).
Proof.
  intros mm flash_data sec s Hprot Hreach Hstart Hsize Hts.
  unfold verify_sector. rewrite Hprot.
  replace (start sec - flash_start mm >=? len flash_data) with false
    by (symmetry; rewrite Z.geb_leb; apply Z.leb_gt; lia).
  assert (Hlen : len (sector_image mm flash_data sec) = size sec)
    by (apply len_sector_image; lia).
  rewrite Hlen.
  destruct (py_range_first (size sec) (Z.min (transfer_size mm) 0x1000))
    as (rest & Hr); [lia|lia|].
  unfold bind at 1. unfold lift at 1. rewrite Hr. cbn [for_each].
  destruct (verify_block_refused (start sec)
              (sector_image mm flash_data sec)
              (Z.min (transfer_size mm) 0x1000) 0 s) as (r & E & Hrf).
  { rewrite py_slice_prefix by lia. rewrite len_firstn by lia.
    rewrite Hlen. lia. }
  unfold bind. rewrite E.
  destruct Hrf as [-> | [-> | ->]]; eexists; (split; [reflexivity|]);
    unfold read_refused; auto.
Qed.

Lemma verify_sectors_refused :
  forall (mm : MemoryMap) (flash_data : bytes) (secs : list Sector)
         (s : BMWFlasher L),
    255 < transfer_size mm ->
    (forall sec, In sec secs -> protected sec = false ->
                 start sec - flash_start mm < len flash_data ->
                 flash_start mm <= start sec /\ 255 < size sec) ->
    exists r,
      for_each secs (verify_sector mm flash_data) s = (s, r)
      /\ ((r = Ok None
           /\ forall sec, In sec secs ->
                protected sec = true
                \/ len flash_data <= start sec - flash_start mm)
          \/ read_refused r (Some false)).
Proof.
  intros mm flash_data secs s Hts. induction secs as [|sec secs IH];
    intro Hall.
  - exists (Ok None). split; [reflexivity|]. left. split; [reflexivity|].
    intros sec [].
  - cbn [for_each].
    destruct (protected sec) eqn:Hprot.
    + assert (E : verify_sector mm flash_data sec s = (s, Ok None)).
      { unfold verify_sector. rewrite Hprot. reflexivity. }
      unfold bind. rewrite E.
      destruct IH as (r & Er & Hr).
      { intros x Hx. apply Hall. right. exact Hx. }
      exists r. split; [exact Er|].
      destruct Hr as [[-> Hsk] | Hr]; [left|right; exact Hr].
      split; [reflexivity|]. intros x [<-|Hx]; auto.
    + destruct (Z_lt_le_dec (start sec - flash_start mm) (len flash_data))
        as [Hreach|Hbeyond].
      * destruct (Hall sec (or_introl eq_refl) Hprot Hreach)
          as [Hstart Hsize].
        destruct (verify_sector_refused mm flash_data sec s Hprot Hreach
                    Hstart Hsize Hts) as (r & E & Hrf).
        unfold bind. rewrite E.
        destruct Hrf as [-> | [-> | ->]]; eexists; (split; [reflexivity|]);
          right; unfold read_refused; auto.
      * destruct (sector_beyond_image_skipped mm flash_data sec Hprot s
                    Hbeyond) as [_ E].
        unfold bind. rewrite E.
        destruct IH as (r & Er & Hr).
        { intros x Hx. apply Hall. right. exact Hx. }
        exists r. split; [exact Er|].
        destruct Hr as [[-> Hsk] | Hr]; [left|right; exact Hr].
        split; [reflexivity|]. intros x [<-|Hx]; auto.
Qed.

Lemma verify_flash_refused :
  forall (mm : MemoryMap) (flash_data : bytes) (s : BMWFlasher L),
    ecu_memory_map s = Some mm ->
    255 < transfer_size mm ->
    (forall sec, In sec (sectors mm) -> protected sec = false ->
                 start sec - flash_start mm < len flash_data ->
                 flash_start mm <= start sec /\ 255 < size sec) ->
    (exists sec, In sec (sectors mm) /\ protected sec = false
                 /\ start sec - flash_start mm < len flash_data) ->
    exists r,
      _verify_flash flash_data s = (s, r) /\ read_refused r false.
Proof.
  intros mm flash_data s Hmm Hts Hall (sec & Hin & Hprot & Hreach).
  unfold _verify_flash. unfold bind at 1. unfold gets at 1. rewrite Hmm.
  destruct (verify_sectors_refused mm flash_data (sectors mm) s Hts Hall)
    as (r & E & Hr).
  unfold bind. rewrite E.
  destruct Hr as [[-> Hsk] | [-> | [-> | ->]]].
  - destruct (Hsk sec Hin) as [X|X]; [congruence|lia].
  - eexists. split; [reflexivity|]. unfold read_refused. auto.
  - eexists. split; [reflexivity|]. unfold read_refused. auto.
  - eexists. split; [reflexivity|]. unfold read_refused. auto.
Qed.

End Unreadable.

(** The maps of the registry: blocks of 512 bytes or more, and a
    calibration sector right behind the 64 KiB of the bootloader. *)
Lemma registry_blocks_unreadable :
  forall (mm : MemoryMap) (flash_data : bytes),
    In mm (map snd ECU_MEMORY_MAPS) ->
    255 < transfer_size mm
    /\ (forall sec, In sec (sectors mm) ->
          flash_start mm <= start sec /\ 255 < size sec)
    /\ (0x10000 < len flash_data ->
        exists sec, In sec (sectors mm) /\ protected sec = false
                    /\ start sec - flash_start mm < len flash_data)
    /\ (len flash_data <= 0x10000 ->
        forall sec, In sec (sectors mm) ->
          protected sec = true
          \/ len flash_data <= start sec - flash_start mm)
    /\ 0x10000 < flash_size mm
    /\ well_formed mm = true
    /\ sectors mm <> [].
Proof.
  intros mm flash_data Hin.
  cbn [ECU_MEMORY_MAPS map snd In] in Hin.
  destruct Hin as [<-|[<-|[<-|[<-|[<-|[]]]]]].
  all: split; [vm_compute; reflexivity|].
  all: split;
    [intros sec Hs; cbn [sectors MSD80_MAP MEVD172_MAP MG1_MAP In] in Hs;
     destruct Hs as [<-|[<-|[<-|[]]]]; split; vm_compute; congruence|].
  all: split;
    [intro Hlen; eexists; split; [right; left; reflexivity|];
     split; [reflexivity|];
     cbn [start flash_start MSD80_MAP MEVD172_MAP MG1_MAP]; lia|].
  all: split;
    [intros Hlen sec Hs;
     cbn [sectors MSD80_MAP MEVD172_MAP MG1_MAP In] in Hs;
     destruct Hs as [<-|[<-|[<-|[]]]];
     cbn [protected start flash_start MSD80_MAP MEVD172_MAP MG1_MAP];
     auto; right; lia|].
  all: split; [vm_compute; reflexivity|].
  all: split; [reflexivity|discriminate].
Qed.

(** ** Runs of [flash_ecu] and [backup_ecu] that cannot succeed *)

Section Runs.

Context {L : Type} {LK : Link L}.
Variable connect : M (BMWFlasher L) bool.
Variable P : bytes -> Prop.
Hypothesis P_other :
  forall (sid : Z) (rest : bytes),
    sid <> 0x3D -> sid <> 0x31 -> sid <> 0x34 -> P (sid :: rest).

(** The session and security bracket of [flash_ecu] and [backup_ecu]: it
    either fails, or hands over a flasher with the same memory map. *)
Lemma bracket_cases :
  forall (A : Type) (e1 e2 : exn) (k : M (BMWFlasher L) A)
         (s0 : BMWFlasher L) (out : BMWFlasher L * result A),
    connected s0 = true ->
    (no <- cannot_program connect ;;
     if no then raise e1
     else
       lvl <- gets security_level ;;
       ok <- (if lvl <? SECURITY_LEVEL_PROGRAMMING
              then security_access connect else ret true) ;;
       if negb ok then raise e2 else k) s0 = out ->
    exists t,
      extends P s0 t /\ (out = k t \/ exists e, out = (t, Raise e)).
Proof.
  intros A e1 e2 k s0 out Hc Eo.
  unfold bind at 1 in Eo.
  destruct (cannot_program connect s0) as [s1 r1] eqn:E1.
  pose proof (safe_cannot_program connect (protocol s0) (ecu_memory_map s0)
                P P_other s0 s1 r1 Hc eq_refl eq_refl E1) as X1.
  destruct r1 as [no|e]; [|subst out; eauto].
  destruct no; [unfold raise in Eo; subst out; eauto|].
  unfold bind at 1 in Eo. unfold gets at 1 in Eo.
  destruct X1 as (Hc1 & Hp1 & Hm1 & X1).
  assert (X1' : extends P s0 s1) by (unfold extends; auto).
  destruct (security_level s1 <? SECURITY_LEVEL_PROGRAMMING).
  - unfold bind at 1 in Eo.
    destruct (security_access connect s1) as [s2 r2] eqn:E2.
    assert (Hc1' : connected s1 = true) by congruence.
    pose proof (safe_security_access connect (protocol s1)
                  (ecu_memory_map s1) P P_other s1 s2 r2 Hc1' eq_refl
                  eq_refl E2) as X2.
    pose proof (extends_trans P s0 s1 s2 X1' X2) as X02.
    destruct r2 as [ok|e]; [|subst out; eauto].
    destruct ok; cbn [negb] in Eo; [subst out; eauto|].
    unfold raise in Eo. subst out. eauto.
  - unfold bind at 1 in Eo. unfold ret at 1 in Eo. cbn [negb] in Eo.
    subst out. eauto.
Qed.

End Runs.

Section FlashRuns.

Context {L : Type} {LK : Link L}.
Variable connect : M (BMWFlasher L) bool.

(** The flasher after the selection of the memory map. *)
Lemma flash_ecu_selects_map :
  forall (flash_data : bytes) (s : BMWFlasher L),
    connected s = true ->
    exists s0 : BMWFlasher L,
      connected s0 = true
      /\ protocol s0 = protocol s
      /\ sent s0 = sent s
      /\ ecu_memory_map s0 = Some (active_memory_map s)
      /\ session_type s0 = session_type s
      /\ security_level s0 = security_level s
      /\ flash_ecu connect flash_data s
         = (no <- cannot_program connect ;;
            if no
            then raise (RuntimeError "Could not enter programming session")
            else
              lvl <- gets security_level ;;
              ok <- (if lvl <? SECURITY_LEVEL_PROGRAMMING
                     then security_access connect else ret true) ;;
              if negb ok
              then raise (RuntimeError "Could not get security access")
              else
                mmo <- gets ecu_memory_map ;;
                match mmo with
                | None => raise AttributeError
                | Some mm =>
                    if len flash_data >? flash_size mm then raise ValueError
                    else
                      for_all (sectors mm) (flash_sector mm flash_data) ;;;
                      ok <- _verify_flash flash_data ;;
                      if negb ok
                      then raise (RuntimeError "Flash verification failed")
                      else ret true
                end) s0.
Proof.
  intros flash_data s Hc. unfold flash_ecu.
  unfold bind at 1. unfold cannot_connect at 1. unfold bind at 1.
  unfold gets at 1. rewrite Hc. unfold ret at 1. cbv iota.
  unfold bind at 1. unfold gets at 1. unfold active_memory_map.
  destruct (ecu_memory_map s) as [mm|] eqn:Hm.
  - exists s. unfold bind at 1. unfold ret at 1.
    repeat split; auto.
  - exists (set_ecu_memory_map (_get_memory_map (ecu_type s)) s).
    unfold bind at 1. unfold bind at 1. unfold gets at 1. unfold modify at 1.
    repeat split; auto.
Qed.

Lemma flash_sectors_keep_map :
  forall (mm : MemoryMap) (flash_data : bytes) (t t' : BMWFlasher L)
         (r : result unit),
    well_formed mm = true ->
    connected t = true ->
    ecu_memory_map t = Some mm ->
    for_all (sectors mm) (flash_sector mm flash_data) t = (t', r) ->
    ecu_memory_map t' = Some mm.
Proof.
  intros mm flash_data t t' r Hwf Hc Hm E.
  assert (X : extends (in_writable_sector (is_kwp (protocol t)) mm) t t').
  { refine (safe_for_all (protocol t) (Some mm) _ _ _ _ _ t t' r Hc eq_refl
              Hm E).
    intros sec Hin. apply safe_flash_sector; assumption. }
  destruct X as (_ & _ & X & _). congruence.
Qed.

End FlashRuns.

(** X13.  On every memory map of the registry the verification of an image
    of more than 0x10000 bytes cannot pass.  The first block it wants to
    read back, in the calibration sector, has 512 bytes or more, and the
    read request has one size byte: [_verify_flash] returns [False] or
    raises [OverflowError] or [ValueError] at this block, and nothing is
    sent. *)
Theorem verify_flash_never_passes_on_registry_maps :
  forall (L : Type) (LK : Link L) (flash_data : bytes) (mm : MemoryMap)
         (s : BMWFlasher L),
    ecu_memory_map s = Some mm ->
    In mm (map snd ECU_MEMORY_MAPS) ->
    0x10000 < len flash_data ->
    exists r : result bool,
      _verify_flash flash_data s = (s, r) /\ read_refused r false.
Proof.
  intros L LK flash_data mm s Hm Hin Hlen.
  destruct (registry_blocks_unreadable mm flash_data Hin)
    as (Hts & Hall & Hex & _).
  apply (verify_flash_refused mm flash_data s Hm Hts).
  - intros sec Hs _ _. apply Hall. exact Hs.
  - apply Hex. exact Hlen.
Qed.

Lemma verify_flash_never_passes_on_registry_maps_witness :
  let s := unlocked_flasher tt KWP2000 MSD80_MAP in
  let flash_data := repeat 0 (Z.to_nat 0x10001) in
  exists r : result bool,
    _verify_flash flash_data s = (s, r) /\ read_refused r false.
Proof.
  intros s flash_data.
  apply (verify_flash_never_passes_on_registry_maps unit Accepting_Link
           flash_data MSD80_MAP s).
  - reflexivity.
  - left. reflexivity.
  - vm_compute. reflexivity.
Defined.






Section Skipped.

Context {L : Type} {LK : Link L}.
Variable connect : M (BMWFlasher L) bool.

Lemma flash_sectors_skipped :
  forall (mm : MemoryMap) (flash_data : bytes) (secs : list Sector)
         (s : BMWFlasher L),
    (forall sec, In sec secs ->
       protected sec = true
       \/ len flash_data <= start sec - flash_start mm) ->
    for_all secs (flash_sector mm flash_data) s = (s, Ok tt)
    /\ for_each secs (verify_sector mm flash_data) s = (s, Ok None).
Proof.
  intros mm flash_data secs s. induction secs as [|sec secs IH]; intro Hall.
  - split; reflexivity.
  - assert (E : flash_sector mm flash_data sec s = (s, Ok tt)
                /\ verify_sector mm flash_data sec s = (s, Ok None)).
    { destruct (protected sec) eqn:Hprot.
      - unfold flash_sector, verify_sector. rewrite Hprot.
        split; reflexivity.
      - destruct (Hall sec (or_introl eq_refl)) as [X|X]; [congruence|].
        apply sector_beyond_image_skipped; assumption. }
    destruct E as [Ef Ev].
    destruct IH as [IHf IHv]; [intros x Hx; apply Hall; right; exact Hx|].
    cbn [for_all for_each]. unfold bind. rewrite Ef, Ev. split; assumption.
Qed.


End Skipped.


Section Backup.

Context {L : Type} {LK : Link L}.
Variable connect : M (BMWFlasher L) bool.

Lemma backup_block_refused :
  forall (sector_start sector_size bs : Z) (t : BMWFlasher L) (f : bytes),
    255 < bs -> 255 < sector_size ->
    exists e,
      backup_block sector_start sector_size bs 0 (t, f) = ((t, f), Raise e).
Proof.
  intros sector_start sector_size bs t f Hbs Hsz. unfold backup_block.
  destruct (read_memory_oversize (sector_start + 0)
              (Z.min bs (sector_size - 0)) t ltac:(lia))
    as (r & E & Hr).
  unfold bind at 1. unfold with_file at 1. cbn [fst snd]. rewrite E.
  destruct Hr as [-> | [-> | ->]]; cbn [falsy]; unfold raise; eauto.
Qed.

Lemma backup_sectors_refused :
  forall (mm : MemoryMap) (sec : Sector) (rest : list Sector)
         (t : BMWFlasher L) (f : bytes),
    255 < transfer_size mm -> 255 < size sec ->
    exists e,
      for_all_file (sec :: rest) (backup_sector mm) (t, f)
      = ((t, f), Raise e).
Proof.
  intros mm sec rest t f Hts Hsz. cbn [for_all_file].
  unfold bind at 1. unfold backup_sector at 1.
  destruct (py_range_first (size sec) (Z.min (transfer_size mm) 0x1000))
    as (offs & Hr); [lia|lia|].
  unfold bind at 1. unfold lift at 1. rewrite Hr. cbn [for_all_file].
  destruct (backup_block_refused (start sec) (size sec)
              (Z.min (transfer_size mm) 0x1000) t f ltac:(lia) Hsz)
    as (e & E).
  unfold bind at 1. rewrite E. eauto.
Qed.

Lemma backup_body_refused :
  forall (mm : MemoryMap) (s0 : BMWFlasher L),
    connected s0 = true ->
    ecu_memory_map s0 = Some mm ->
    In mm (map snd ECU_MEMORY_MAPS) ->
    exists st' e,
      (no <- with_file (cannot_program connect) ;;
       if no
       then raise (RuntimeError
                     "Could not enter programming session for backup")
       else
         lvl <- with_file (gets security_level) ;;
         ok <- (if lvl <? SECURITY_LEVEL_PROGRAMMING
                then with_file (security_access connect) else ret true) ;;
         if negb ok
         then raise (RuntimeError "Could not get security access for backup")
         else
           mmo <- with_file (gets ecu_memory_map) ;;
           match mmo with
           | None => raise AttributeError
           | Some mm => for_all_file (sectors mm) (backup_sector mm)
           end) (s0, []) = (st', Raise e)
      /\ snd st' = [].
Proof.
  intros mm s0 Hc Hm Hin.
  destruct (registry_blocks_unreadable mm [] Hin)
    as (Hts & Hall & _ & _ & _ & _ & Hne).
  assert (Htail : forall t : BMWFlasher L,
             ecu_memory_map t = Some mm ->
             exists st' e,
               (mmo <- with_file (gets ecu_memory_map) ;;
                match mmo with
                | None => raise AttributeError
                | Some mm => for_all_file (sectors mm) (backup_sector mm)
                end) (t, []) = (st', Raise e)
               /\ snd st' = []).
  { intros t Hmt. unfold bind at 1. unfold with_file at 1. unfold gets at 1.
    cbn [fst snd]. rewrite Hmt. cbv beta iota.
    destruct (sectors mm) as [|sec rest] eqn:Hs; [congruence|].
    destruct (backup_sectors_refused mm sec rest t [] Hts) as (e & E).
    { apply Hall. left. reflexivity. }
    rewrite E. eauto. }
  unfold bind at 1. unfold with_file at 1. cbn [fst snd].
  destruct (cannot_program connect s0) as [s1 r1] eqn:E1.
  pose proof (safe_cannot_program connect (protocol s0) (ecu_memory_map s0)
                (fun _ => True) (fun _ _ _ _ _ => I) s0 s1 r1 Hc eq_refl
                eq_refl E1) as (Hc1 & _ & Hm1 & _).
  destruct r1 as [no|e]; [|eauto].
  destruct no; [unfold raise; eauto|].
  unfold bind at 1. unfold with_file at 1. unfold gets at 1. cbn [fst snd].
  destruct (security_level s1 <? SECURITY_LEVEL_PROGRAMMING).
  - unfold bind at 1. unfold with_file at 1. cbn [fst snd].
    destruct (security_access connect s1) as [s2 r2] eqn:E2.
    assert (Hc1' : connected s1 = true) by congruence.
    pose proof (safe_security_access connect (protocol s1)
                  (ecu_memory_map s1) (fun _ => True) (fun _ _ _ _ _ => I)
                  s1 s2 r2 Hc1' eq_refl eq_refl E2) as (_ & _ & Hm2 & _).
    destruct r2 as [ok|e]; [|eauto].
    destruct ok; cbn [negb]; [|unfold raise; eauto].
    apply Htail. congruence.
  - unfold bind at 1. unfold ret at 1. cbn [negb].
    apply Htail. congruence.
Qed.


End Backup.



(** ** Aborted ISO-TP exchanges *)

Lemma emit_fields :
  forall (w : bytes) (h : ISOTPHandler),
    rx (port (emit w h)) = rx (port h)
    /\ rx_id (emit w h) = rx_id h
    /\ tx_id (emit w h) = tx_id h
    /\ tx (port (emit w h)) = tx (port h) ++ w.
Proof. intros w h. repeat split. Qed.

(** X18.  A long message is given up when the ECU does not clear it to
    send.  For a payload of 8 to 4095 bytes [send] writes the First Frame
    and reads one frame; when that frame has the expected identifier but
    is not a flow control with status Continue (it is shorter than three
    bytes, or its first byte is not 0x30: Wait and Overflow included),
    [send] returns [None] and no consecutive frame is written. *)
Theorem send_gives_up_without_continue :
  forall (data fc rest : bytes) (h : ISOTPHandler),
    8 <= len data <= 4095 ->
    0 <= tx_id h < 2 ^ 32 ->
    0 <= rx_id h < 2 ^ 32 ->
    rx (port h) = encode_can (rx_id h) fc ++ rest ->
    bad_flow_control (Some fc) = true ->
    send data h
    = (with_rx rest
         (emit (encode_can (tx_id h) (ff_head (len data) ++ firstn 6 data))
            h),
       Ok None).
Proof.
  intros data fc rest h Hlen Htx Hrxid Hrx Hbad.
  unfold send.
  replace (len data <=? 7) with false by (symmetry; apply Z.leb_gt; lia).
  unfold _send_multi_frame.
  destruct (ff_head_facts (len data) ltac:(lia)) as (f0 & f1 & Hff & Hmk & _).
  change [Z.lor 16 (Z.land (Z.shiftr (len data) 8) 15);
          Z.land (len data) 255] with (ff_head (len data)).
  rewrite Hff, Hmk. unfold bind at 1. unfold lift at 1.
  unfold bind at 1. unfold gets at 1.
  rewrite (py_slice_prefix data 6) by lia. change (Z.to_nat 6) with 6%nat.
  assert (Hfl : len ([f0; f1] ++ firstn 6 data) < 256).
  { rewrite len_app. pose proof (len_firstn_le 6 data).
    change (len [f0; f1]) with 2. change (Z.of_nat 6) with 6 in *. lia. }
  unfold bind at 1.
  rewrite (can_frame_sent (tx_id h) _ h Htx Hfl).
  set (h1 := emit (encode_can (tx_id h) ([f0; f1] ++ firstn 6 data)) h).
  unfold bind at 1. unfold gets at 1.
  change (rx_id h1) with (rx_id h).
  unfold bind at 1.
  rewrite (can_frame_received (rx_id h) fc rest h1 Hrxid Hrx).
  rewrite Hbad. reflexivity.
Qed.

Lemma send_gives_up_without_continue_witness :
  let data := [0x36; 0x01; 1; 2; 3; 4; 5; 6; 7; 8] in
  let h := new_isotp
             (mkSerial (encode_can CAN_ID_RESPONSE [0x31; 0; 0; 0; 0; 0; 0; 0])
                [] true)
             CAN_ID_REQUEST CAN_ID_RESPONSE in
  send data h
  = (with_rx []
       (emit (encode_can (tx_id h) (ff_head (len data) ++ firstn 6 data)) h),
     Ok None).
Proof.
  intros data h.
  apply (send_gives_up_without_continue data [0x31; 0; 0; 0; 0; 0; 0; 0] []
           h).
  - vm_compute. split; discriminate.
  - vm_compute. split; [discriminate|reflexivity].
  - vm_compute. split; [discriminate|reflexivity].
  - reflexivity.
  - reflexivity.
Defined.

Lemma with_rx_emit_with_rx :
  forall (a b w : bytes) (h : ISOTPHandler),
    with_rx b (emit w (with_rx a h)) = with_rx b (emit w h).
Proof. intros a b w [[r t o] ti ri st bs]. reflexivity. Qed.

(** X19.  A consecutive frame out of sequence aborts the reception.  When
    a First Frame announces more data than it carries, [_receive_isotp]
    answers with the flow control frame and reads the next frame; if that
    frame is not a consecutive frame, or its sequence number is not 1, the
    result is [None]: the data received so far are dropped, and the frames
    that follow stay unread. *)
Theorem receive_aborts_on_sequence_error :
  forall (h : ISOTPHandler) (f0 f1 : Z) (d : bytes) (c0 : Z)
         (cd rest : bytes),
    0 <= rx_id h < 2 ^ 32 ->
    0 <= tx_id h < 2 ^ 32 ->
    rx (port h)
    = encode_can (rx_id h) (f0 :: f1 :: d)
      ++ encode_can (rx_id h) (c0 :: cd) ++ rest ->
    Z.land f0 0xF0 = 0x10 ->
    len (py_slice (f0 :: f1 :: d) 2 8)
    < Z.lor (Z.shiftl (Z.land f0 0x0F) 8) f1 ->
    Z.land c0 0xF0 <> 0x20 \/ Z.land c0 0x0F <> 1 ->
    _receive_isotp h
    = (with_rx rest (emit (encode_can (tx_id h) flow_control_frame) h),
       Ok None).
Proof.
  intros h f0 f1 d c0 cd rest Hrid Htid Hrx Hff Hmore Hseq.
  unfold _receive_isotp.
  unfold bind at 1. unfold gets at 1. unfold bind at 1.
  rewrite (can_frame_received (rx_id h) (f0 :: f1 :: d) _ h Hrid Hrx).
  set (h1 := with_rx (encode_can (rx_id h) (c0 :: cd) ++ rest) h).
  rewrite Hff. change (16 =? 0) with false. change (16 =? 16) with true.
  cbv iota.
  unfold bind at 1. unfold lift at 1. unfold index at 1. cbn [nth_error].
  unfold bind at 1. unfold gets at 1.
  change ([48; 0; 0] ++ repeat 0 (Z.to_nat (8 - len [48; 0; 0])))
    with flow_control_frame.
  unfold bind at 1.
  change (tx_id h1) with (tx_id h).
  rewrite (can_frame_sent (tx_id h) flow_control_frame h1 Htid)
    by (vm_compute; reflexivity).
  set (h2 := emit (encode_can (tx_id h) flow_control_frame) h1).
  unfold bind at 1. unfold gets at 1.
  cbn [receive_consecutive].
  replace (len (py_slice (f0 :: f1 :: d) 2 8)
           <? Z.lor (Z.shiftl (Z.land f0 15) 8) f1) with true
    by (symmetry; apply Z.ltb_lt; exact Hmore).
  unfold bind at 1. unfold gets at 1. unfold bind at 1.
  change (rx_id h2) with (rx_id h).
  assert (Hrx2 : rx (port h2) = encode_can (rx_id h) (c0 :: cd) ++ rest)
    by reflexivity.
  rewrite (can_frame_received (rx_id h) (c0 :: cd) rest h2 Hrid Hrx2).
  unfold h2, h1. rewrite with_rx_emit_with_rx.
  destruct (Z.land c0 240 =? 32) eqn:Et; cbn [negb]; [|reflexivity].
  apply Z.eqb_eq in Et.
  destruct Hseq as [Hs|Hs]; [congruence|].
  replace (Z.land c0 15 =? 1) with false
    by (symmetry; apply Z.eqb_neq; exact Hs).
  reflexivity.
Qed.

Lemma receive_aborts_on_sequence_error_witness :
  let h := new_isotp
             (mkSerial
                (encode_can CAN_ID_RESPONSE [0x10; 20; 1; 2; 3; 4; 5; 6]
                 ++ encode_can CAN_ID_RESPONSE [0x22; 7; 8; 9; 10; 11; 12; 13]
                 ++ [])
                [] true)
             CAN_ID_REQUEST CAN_ID_RESPONSE in
  _receive_isotp h
  = (with_rx [] (emit (encode_can (tx_id h) flow_control_frame) h), Ok None).
Proof.
  intro h.
  apply (receive_aborts_on_sequence_error h 0x10 20 [1; 2; 3; 4; 5; 6] 0x22
           [7; 8; 9; 10; 11; 12; 13] []).
  - vm_compute. split; [discriminate|reflexivity].
  - vm_compute. split; [discriminate|reflexivity].
  - reflexivity.
  - reflexivity.
  - vm_compute. reflexivity.
  - right. vm_compute. discriminate.
Defined.

Lemma script_kwp_command :
  forall (sid : Z) (data : bytes) (r : option bytes) (script : Script)
         (c : bool) (p : option Protocol) (lv st : Z) (et : option string)
         (mmo : option MemoryMap) (tr : list bytes),
    forallb is_byte (sid :: data) = true ->
    _send_kwp_command sid data
      (mkFlasher (Some (r :: script)) c p lv st et mmo tr)
    = (mkFlasher (Some script) c p lv st et mmo (tr ++ [sid :: data]), Ok r).
Proof.
  intros sid data r script c p lv st et mmo tr Hb.
  unfold _send_kwp_command. unfold bind at 1. unfold gets at 1. cbn [isotp].
  unfold bind at 1. unfold lift, mk_bytes. rewrite Hb.
  unfold bind at 1. unfold modify at 1. reflexivity.
Qed.

Lemma script_uds_command :
  forall (sid : Z) (data : bytes) (r : bytes) (script : Script)
         (c : bool) (p : option Protocol) (lv st : Z) (et : option string)
         (mmo : option MemoryMap) (tr : list bytes),
    forallb is_byte (sid :: data) = true ->
    keeps_waiting r = false ->
    _send_uds_command sid data
      (mkFlasher (Some (Some r :: script)) c p lv st et mmo tr)
    = (mkFlasher (Some script) c p lv st et mmo (tr ++ [sid :: data]),
       Ok (Some r)).
Proof.
  intros sid data r script c p lv st et mmo tr Hb Hw.
  unfold _send_uds_command. unfold bind at 1. unfold gets at 1. cbn [isotp].
  unfold bind at 1. unfold lift, mk_bytes. rewrite Hb.
  unfold bind at 1. unfold modify at 1. unfold catch, on_isotp.
  unfold bind at 1. cbn [link_send Script_Link script_next].
  destruct r as [|r0 [|r1 [|r2 t]]]; try reflexivity.
  cbn [keeps_waiting] in Hw.
  destruct (r0 =? NEGATIVE_RESPONSE); cbn [andb] in *; [|reflexivity].
  rewrite Hw. destruct (r1 =? sid); reflexivity.
Qed.

(** X20.  The key that [security_access] sends is the one [_calculate_key]
    gives for the seed of the ECU, and the security level follows the
    answer to it.  With a four-byte seed and key, from the programming
    session: the seed request [27 01] is answered by [67 01] and the seed;
    the key request is [27 02] followed by the four big-endian bytes of
    the key; the result is [True] and the level becomes 1 exactly when the
    answer to the key request starts with 0x67, and otherwise the result
    is [False] and the level stays 0. *)
Theorem security_access_sends_computed_key :
  forall (connect : M (BMWFlasher Script) bool) (p : option Protocol)
         (mm : MemoryMap) (et : option string) (tr : list bytes)
         (s3 s2 s1 s0 : Z) (more reply : bytes) (script : Script),
    seed_key_length mm = 4 ->
    keeps_waiting reply = false ->
    let key := _calculate_key (from_bytes [s3; s2; s1; s0])
                 (security_algorithm mm) in
    let granted := negb (not_positive (Some reply) 0x27) in
    security_access connect
      (mkFlasher
         (Some (Some (0x67 :: 0x01 :: s3 :: s2 :: s1 :: s0 :: more)
                  :: Some reply :: script))
         true p 0 SESSION_PROGRAMMING et (Some mm) tr)
    = (mkFlasher (Some script) true p (if granted then 1 else 0)
         SESSION_PROGRAMMING et (Some mm)
         (tr ++ [[0x27; 0x01]; 0x27 :: 0x02 :: be_digits 4 key]),
       Ok granted).
Proof.
  intros connect p mm et tr s3 s2 s1 s0 more reply script Hlen Hw key granted.
  assert (Hkey : to_bytes 4 key = Ok (be_digits 4 key)).
  { pose proof (calculate_key_range (from_bytes [s3; s2; s1; s0])
                  (security_algorithm mm)) as Hr.
    fold key in Hr. unfold to_bytes. change (256 ^ Z.of_nat 4) with (2 ^ 32).
    replace ((0 <=? key) && (key <? 2 ^ 32)) with true; [reflexivity|].
    symmetry. apply andb_true_iff.
    split; [apply Z.leb_le|apply Z.ltb_lt]; lia. }
  assert (Hkb : forallb is_byte (0x27 :: 0x02 :: be_digits 4 key) = true).
  { cbn [forallb]. rewrite be_digits_bytes. reflexivity. }
  unfold security_access.
  unfold bind at 1. unfold gets at 1. cbn [security_level].
  change (0 >=? SECURITY_LEVEL_PROGRAMMING) with false. cbv iota.
  unfold bind at 1. unfold cannot_connect at 1. unfold bind at 1.
  unfold gets at 1. cbn [connected]. unfold ret at 1. cbv iota.
  unfold bind at 1. unfold cannot_program at 1. unfold bind at 1.
  unfold gets at 1. cbn [session_type].
  change (SESSION_PROGRAMMING =? SESSION_PROGRAMMING) with true.
  unfold ret at 1. cbv iota.
  unfold bind at 1. unfold gets at 1. cbn [ecu_memory_map].
  unfold bind at 1. unfold gets at 1. cbn [protocol].
  rewrite Hlen.
  assert (Hslice : py_slice (0x67 :: 0x01 :: s3 :: s2 :: s1 :: s0 :: more)
                     2 (2 + 4) = [s3; s2; s1; s0]).
  { rewrite py_slice_from_count by lia. reflexivity. }
  destruct (is_kwp p); unfold seed_key_exchange.
  - unfold bind at 1.
    rewrite script_kwp_command by reflexivity.
    cbn [not_positive body].
    change (103 =? KWP_SECURITY_ACCESS + POSITIVE_RESPONSE) with true.
    cbn [negb]. rewrite Hslice. change (Z.to_nat 4) with 4%nat. fold key.
    unfold bind at 1. unfold lift at 1. rewrite Hkey.
    unfold bind at 1.
    rewrite script_kwp_command by exact Hkb.
    rewrite <- app_assoc. cbn [app].
    unfold granted.
    destruct (not_positive (Some reply) KWP_SECURITY_ACCESS) eqn:En;
      change KWP_SECURITY_ACCESS with 39 in En; rewrite En; reflexivity.
  - unfold bind at 1.
    rewrite script_uds_command by reflexivity.
    cbn [not_positive body].
    change (103 =? UDS_SECURITY_ACCESS + POSITIVE_RESPONSE) with true.
    cbn [negb]. rewrite Hslice. change (Z.to_nat 4) with 4%nat. fold key.
    unfold bind at 1. unfold lift at 1. rewrite Hkey.
    unfold bind at 1.
    rewrite script_uds_command by (exact Hkb || exact Hw).
    rewrite <- app_assoc. cbn [app].
    unfold granted.
    destruct (not_positive (Some reply) UDS_SECURITY_ACCESS) eqn:En;
      change UDS_SECURITY_ACCESS with 39 in En; rewrite En; reflexivity.
Qed.

Lemma security_access_sends_computed_key_witness :
  security_access no_adapter
    (mkFlasher
       (Some [Some [0x67; 0x01; 0x12; 0x34; 0x56; 0x78]; Some [0x67; 0x02]])
       true (Some UDS) 0 SESSION_PROGRAMMING None (Some MG1_MAP) [])
  = (mkFlasher (Some ([] : Script)) true (Some UDS)
       (if negb (not_positive (Some [0x67; 0x02]) 0x27) then 1 else 0)
       SESSION_PROGRAMMING None (Some MG1_MAP)
       ([] ++ [[0x27; 0x01];
               0x27 :: 0x02
                 :: be_digits 4
                      (_calculate_key (from_bytes [0x12; 0x34; 0x56; 0x78])
                         (security_algorithm MG1_MAP))]),
     Ok (negb (not_positive (Some [0x67; 0x02]) 0x27))).
Proof.
  apply (security_access_sends_computed_key no_adapter (Some UDS) MG1_MAP
           None [] 0x12 0x34 0x56 0x78 [] [0x67; 0x02] []).
  - reflexivity.
  - reflexivity.
Defined.

